(** * mtschem-tools: the MTS schematic codec, validator and generator

    A shallow embedding of [mtschem_tools/mts_parser.py],
    [mtschem_tools/validators.py] and [mtschem_tools/generators.py],
    followed by the properties of the format that hold of that code.

    Conventions of the embedding:
    - a Python [int] is a [Z]; [bytes] is a [list byte];
    - a Python [str] holding a node name is the list of its code points;
      a file path is a [string] (its characters are the code points 0-255);
    - a call that can raise returns a [result]; [Raise e] is the exception;
    - the file system is a finite map from paths to file contents, and a
      file object is a buffer with a read position;
    - the [metadata] dict of the validator is a finite map keyed by strings. *)

From Stdlib Require Import ZArith Lia Strings.Byte.
From stdpp Require Import base gmap list strings pretty.

Local Open Scope Z_scope.

(** ** Python values *)

#[global] Instance byte_eq_decision : EqDecision byte.
Proof.
  intros a b. destruct (Byte.eqb a b) eqn:E.
  - left. by apply Byte.byte_dec_bl.
  - right. by apply Byte.eqb_false.
Defined.

Definition byte_val (b : byte) : Z := Z.of_N (Byte.to_N b).

Definition byte_of (z : Z) : byte := default x00 (Byte.of_N (Z.to_N z)).

(** [len(x)] *)
Definition len {A} (l : list A) : Z := Z.of_nat (length l).

(** A [str] as the sequence of its code points. *)
Abbreviation str := (list Z) (only parsing).

Definition str_of_ascii (s : string) : str :=
  byte_val <$> String.list_byte_of_string s.

Definition bytes_of_ascii (s : string) : list byte :=
  String.list_byte_of_string s.

(** [b * n] for a bytes object [b]: a non-positive count gives [b""]. *)
Definition bytes_mul (b : list byte) (n : Z) : list byte :=
  mjoin (replicate (Z.to_nat n) b).

(** ** Exceptions *)

Inductive exn :=
  | ValueError (msg : string)
  | struct_error (msg : string)
  | FileNotFoundError (path : string)
  | KeyError (key : string)
  | UnicodeEncodeError (codepoint : Z).

Inductive result (A : Type) :=
  | Ok (a : A)
  | Raise (e : exn).
Arguments Ok {A} a.
Arguments Raise {A} e.

#[global] Instance result_ret : MRet result := λ A a, Ok a.
#[global] Instance result_bind : MBind result := λ A B k m,
  match m with
  | Ok a => k a
  | Raise e => Raise e
  end.

(** ** [struct.pack] and [struct.unpack] for the formats ['>H'] and ['>HHH'] *)

(** The messages of [struct.error] are those of CPython 3.11 where a C
    [unsigned long] has 64 bits: a number that does not fit one is out of
    range before the format is looked at. *)
Definition pack_H (v : Z) : result (list byte) :=
  if bool_decide (0 ≤ v ≤ 65535)
  then Ok [byte_of (v `div` 256); byte_of (v `mod` 256)]
  else if bool_decide (v < 0 ∨ 2 ^ 64 ≤ v)
  then Raise (struct_error "argument out of range")
  else Raise (struct_error "'H' format requires 0 <= number <= 65535").

Definition pack_HHH (a b c : Z) : result (list byte) :=
  x ← pack_H a; y ← pack_H b; z ← pack_H c; Ok (x ++ y ++ z).

Definition be16 (hi lo : byte) : Z := byte_val hi * 256 + byte_val lo.

Definition unpack_H (buf : list byte) : result Z :=
  match buf with
  | [hi; lo] => Ok (be16 hi lo)
  | _ => Raise (struct_error "unpack requires a buffer of 2 bytes")
  end.

Definition unpack_HHH (buf : list byte) : result (Z * Z * Z) :=
  match buf with
  | [a1; a0; b1; b0; c1; c0] => Ok (be16 a1 a0, be16 b1 b0, be16 c1 c0)
  | _ => Raise (struct_error "unpack requires a buffer of 6 bytes")
  end.

(** ** UTF-8 *)

(** [s.encode('utf-8')]: strict, a surrogate code point raises. *)
Definition utf8_encode_char (c : Z) : result (list byte) :=
  if c <? 0 then Raise (UnicodeEncodeError c)
  else if c <? 128 then Ok [byte_of c]
  else if c <? 2048 then
    Ok [byte_of (Z.lor 192 (Z.shiftr c 6)); byte_of (Z.lor 128 (Z.land c 63))]
  else if c <? 65536 then
    if (55296 <=? c) && (c <=? 57343) then Raise (UnicodeEncodeError c)
    else Ok [byte_of (Z.lor 224 (Z.shiftr c 12));
             byte_of (Z.lor 128 (Z.land (Z.shiftr c 6) 63));
             byte_of (Z.lor 128 (Z.land c 63))]
  else if c <? 1114112 then
    Ok [byte_of (Z.lor 240 (Z.shiftr c 18));
        byte_of (Z.lor 128 (Z.land (Z.shiftr c 12) 63));
        byte_of (Z.lor 128 (Z.land (Z.shiftr c 6) 63));
        byte_of (Z.lor 128 (Z.land c 63))]
  else Raise (UnicodeEncodeError c).

Fixpoint utf8_encode (s : str) : result (list byte) :=
  match s with
  | [] => Ok []
  | c :: s' => b ← utf8_encode_char c; bs ← utf8_encode s'; Ok (b ++ bs)
  end.

(** A continuation byte is [10xxxxxx]. *)
Definition is_continuation (b : byte) : bool :=
  Z.land (byte_val b) 192 =? 128.

Definition cont_bits (b : byte) : Z := Z.land (byte_val b) 63.

(** [b.decode('utf-8', errors='ignore')]: the decoder of CPython with the
    [ignore] handler.  A byte that cannot start a sequence is skipped; a
    sequence broken by a byte that cannot continue it is skipped up to that
    byte; a sequence cut by the end of the input is skipped whole.  Nothing
    is put in the place of what is skipped. *)
Fixpoint utf8_decode_ignore (s : list byte) : str :=
  match s with
  | [] => []
  | c1 :: s1 =>
    let ch := byte_val c1 in
    if ch <? 128 then ch :: utf8_decode_ignore s1
    else if ch <? 194 then utf8_decode_ignore s1
    else if ch <? 224 then
      match s1 with
      | [] => []
      | c2 :: s2 =>
        if negb (is_continuation c2) then utf8_decode_ignore s1
        else Z.lor (Z.shiftl (Z.land ch 31) 6) (cont_bits c2)
               :: utf8_decode_ignore s2
      end
    else if ch <? 240 then
      match s1 with
      | [] => []
      | c2 :: s2 =>
        let ch2 := byte_val c2 in
        if negb (is_continuation c2)
           || (if ch2 <? 160 then ch =? 224 else ch =? 237)
        then utf8_decode_ignore s1
        else
          match s2 with
          | [] => []
          | c3 :: s3 =>
            if negb (is_continuation c3) then utf8_decode_ignore s2
            else Z.lor (Z.lor (Z.shiftl (Z.land ch 15) 12)
                              (Z.shiftl (cont_bits c2) 6))
                       (cont_bits c3)
                   :: utf8_decode_ignore s3
          end
      end
    else if ch <? 245 then
      match s1 with
      | [] => []
      | c2 :: s2 =>
        let ch2 := byte_val c2 in
        if negb (is_continuation c2)
           || (if ch2 <? 144 then ch =? 240 else ch =? 244)
        then utf8_decode_ignore s1
        else
          match s2 with
          | [] => []
          | c3 :: s3 =>
            if negb (is_continuation c3) then utf8_decode_ignore s2
            else
              match s3 with
              | [] => []
              | c4 :: s4 =>
                if negb (is_continuation c4) then utf8_decode_ignore s3
                else Z.lor (Z.lor (Z.lor (Z.shiftl (Z.land ch 7) 18)
                                         (Z.shiftl (cont_bits c2) 12))
                                  (Z.shiftl (cont_bits c3) 6))
                           (cont_bits c4)
                       :: utf8_decode_ignore s4
              end
          end
      end
    else utf8_decode_ignore s1
  end.

(** [errors='replace'] differs from [errors='ignore'] in one point: each
    skipped run is replaced by U+FFFD.  Only its first case is needed here,
    to tell the two handlers apart. *)
Definition replacement_character : Z := 65533.

(** ** Files *)

Abbreviation filesystem := (gmap string (list byte)) (only parsing).

(** An open binary file: its content and the position of the next read. *)
Record file_obj := FileObj { f_data : list byte; f_pos : Z }.

Definition open (fs : filesystem) (filepath : string) : result file_obj :=
  match fs !! filepath with
  | Some content => Ok (FileObj content 0)
  | None => Raise (FileNotFoundError filepath)
  end.

(** [f.read(n)]: at most [n] bytes from the position, fewer at the end of
    the file, none when the position is at or past the end; a negative [n]
    reads to the end. *)
Definition f_read (n : Z) (f : file_obj) : list byte * file_obj :=
  let rest := drop (Z.to_nat (f_pos f)) (f_data f) in
  let got := if n <? 0 then rest else take (Z.to_nat n) rest in
  (got, FileObj (f_data f) (f_pos f + len got)).

(** [f.read()] *)
Definition f_read_all (f : file_obj) : list byte * file_obj := f_read (-1) f.

(** [f.seek(p)]: the position may lie past the end of the file. *)
Definition f_seek (p : Z) (f : file_obj) : file_obj := FileObj (f_data f) p.

Definition f_tell (f : file_obj) : Z := f_pos f.

Definition os_path_exists (fs : filesystem) (filepath : string) : bool :=
  bool_decide (is_Some (fs !! filepath)).

Definition os_path_getsize (fs : filesystem) (filepath : string) : result Z :=
  match fs !! filepath with
  | Some content => Ok (len content)
  | None => Raise (FileNotFoundError filepath)
  end.

(** ** zlib *)

(** The deflate codec is used through [zlib.compress(data, level)] and
    [zlib.decompress(data)]; [None] stands for [zlib.error].  What the
    library promises, and all that is used of it, is that decompression
    undoes compression at every level. *)
Class Zlib := {
  zlib_compress : Z → list byte → list byte;
  zlib_decompress : list byte → option (list byte);
  zlib_decompress_compress :
    ∀ level data, zlib_decompress (zlib_compress level data) = Some data
}.

(** ** [mts_parser.py] *)

Module MTSParser.

Record header := Header {
  signature : list byte;
  signature_valid : bool;
  version : Z;
  width : Z;
  height : Z;
  length : Z;
  volume : Z;
  file_size : Z
}.

Definition MTSM : list byte := bytes_of_ascii "MTSM".

Definition parse_header (fs : filesystem) (filepath : string) : result header :=
  f ← open fs filepath;
  let '(signature, f) := f_read 4 f in
  let '(version_bytes, f) := f_read 2 f in
  version ← (if bool_decide (len version_bytes = 2)
             then unpack_H version_bytes else Ok 0);
  let '(dim_bytes, f) := f_read 6 f in
  '(width, height, length) ←
     (if bool_decide (len dim_bytes = 6)
      then unpack_HHH dim_bytes else Ok (0, 0, 0));
  let volume := width * height * length in
  Ok {| signature := signature;
        signature_valid := bool_decide (signature = MTSM);
        version := version;
        width := width;
        height := height;
        length := length;
        volume := volume;
        file_size := f_tell f |}.

Definition parse_yprobs (fs : filesystem) (filepath : string)
  : result (list Z * Z) :=
  header ← parse_header fs filepath;
  let yprobs_size := height header in
  f ← open fs filepath;
  let f := f_seek 12 f in
  let '(yprobs_data, f) := f_read yprobs_size f in
  let yprobs := if bool_decide (len yprobs_data = yprobs_size)
                then byte_val <$> yprobs_data else [] in
  Ok (yprobs, f_tell f).

(** The body of [for _ in range(nodecount)]; leaving the recursion early
    is the [break]. *)
Fixpoint read_nodes (count : nat) (f : file_obj) (nodes : list str)
  : result (list str * file_obj) :=
  match count with
  | O => Ok (nodes, f)
  | S count' =>
    let '(namelen_bytes, f) := f_read 2 f in
    if negb (bool_decide (len namelen_bytes = 2)) then Ok (nodes, f)
    else
      namelen ← unpack_H namelen_bytes;
      let '(name_bytes, f) := f_read namelen f in
      if negb (bool_decide (len name_bytes = namelen)) then Ok (nodes, f)
      else read_nodes count' f (nodes ++ [utf8_decode_ignore name_bytes])
  end.

Definition parse_nodelist (fs : filesystem) (filepath : string)
  : result (list str * Z) :=
  header ← parse_header fs filepath;
  f ← open fs filepath;
  let f := f_seek (12 + height header) f in
  let '(nodecount_bytes, f) := f_read 2 f in
  if negb (bool_decide (len nodecount_bytes = 2)) then Ok ([], f_tell f)
  else
    nodecount ← unpack_H nodecount_bytes;
    '(nodes, f) ← read_nodes (Z.to_nat nodecount) f [];
    Ok (nodes, f_tell f).

Record yprobs_info := YprobsInfo {
  yp_values : list Z;
  yp_count : Z;
  yp_expected : Z
}.

Record nodelist_info := NodelistInfo {
  nl_nodes : list str;
  nl_count : Z;
  nl_has_air : bool
}.

Record data_section_info := DataSectionInfo {
  ds_offset : Z;
  compressed_size : Z;
  uncompressed_size_estimate : Z
}.

Record metadata := Metadata {
  md_header : header;
  md_yprobs : yprobs_info;
  md_nodelist : nodelist_info;
  md_data_section : data_section_info
}.

Definition get_metadata (fs : filesystem) (filepath : string) : result metadata :=
  header ← parse_header fs filepath;
  '(yprobs, ypos) ← parse_yprobs fs filepath;
  '(nodes, npos) ← parse_nodelist fs filepath;
  file_size ← os_path_getsize fs filepath;
  let compressed_size := file_size - npos in
  Ok {| md_header := header;
        md_yprobs := {| yp_values := yprobs;
                        yp_count := len yprobs;
                        yp_expected := height header |};
        md_nodelist := {| nl_nodes := nodes;
                          nl_count := len nodes;
                          nl_has_air :=
                            match nodes with
                            | [] => false
                            | _ => bool_decide (str_of_ascii "air" ∈ nodes)
                            end |};
        md_data_section := {| ds_offset := npos;
                              compressed_size := compressed_size;
                              uncompressed_size_estimate := volume header * 4 |} |}.

(** [output_file] is [None] or a path; an empty path is falsy too.  The
    written copy is the second component. *)
Definition extract_compressed_data (fs : filesystem) (filepath : string)
    (output_file : option string) : result (list byte * filesystem) :=
  metadata ← get_metadata fs filepath;
  let data_offset := ds_offset (md_data_section metadata) in
  f ← open fs filepath;
  let f := f_seek data_offset f in
  let '(compressed_data, f) := f_read_all f in
  match output_file with
  | Some out =>
      if bool_decide (out = "") then Ok (compressed_data, fs)
      else Ok (compressed_data, <[out := compressed_data]> fs)
  | None => Ok (compressed_data, fs)
  end.

(** [zlib.error] is caught, and [None] returned in its place. *)
Definition decompress_bulk_data `{Zlib} (compressed_data : list byte)
  : option (list byte) :=
  zlib_decompress compressed_data.

End MTSParser.

(** ** Text of messages *)

Definition hex_digit (n : Z) : string :=
  String.substring (Z.to_nat n) 1 "0123456789abcdef".

(** [b.hex()] *)
Fixpoint hex (b : list byte) : string :=
  match b with
  | [] => ""
  | x :: b' =>
    hex_digit (byte_val x `div` 16) +:+ hex_digit (byte_val x `mod` 16) +:+ hex b'
  end.

(** [sep.join(l)] *)
Fixpoint join (sep : string) (l : list string) : string :=
  match l with
  | [] => ""
  | [x] => x
  | x :: l' => x +:+ sep +:+ join sep l'
  end.

(** [str(e)] *)
Definition exn_str (e : exn) : string :=
  match e with
  | ValueError msg => msg
  | struct_error msg => msg
  | FileNotFoundError path =>
      "[Errno 2] No such file or directory: '" +:+ path +:+ "'"
  | KeyError key => "'" +:+ key +:+ "'"
  | UnicodeEncodeError c =>
      "'utf-8' codec can't encode character: surrogates not allowed"
  end.

(** [c.lower()] for a character below 256: the letters A-Z and the
    capital letters of Latin-1 move up by 32. *)
Definition ascii_lower (c : Ascii.ascii) : Ascii.ascii :=
  let n := Ascii.nat_of_ascii c in
  if bool_decide (65 ≤ n ≤ 90)%nat
     || (bool_decide (192 ≤ n ≤ 222)%nat && negb (bool_decide (n = 215%nat)))
  then Ascii.ascii_of_nat (n + 32)%nat else c.

Fixpoint lower (s : string) : string :=
  match s with
  | EmptyString => EmptyString
  | String c s' => String (ascii_lower c) (lower s')
  end.

Definition endswith (s suffix : string) : bool :=
  String.prefix (String.rev suffix) (String.rev s).

(** ** [validators.py] *)

Module MTSValidator.
Import MTSParser.

(** The entries of [errors], one constructor per message of the source,
    with the values its f-string prints. *)
Inductive violation :=
  | FileDoesNotExist (filepath : string)
  | FileTooSmall (file_size : Z)
  | BadExtension
  | InvalidSignature (signature : list byte)
  | CannotReadVersion
  | UnsupportedVersion (version : Z)
  | CannotReadDimensions
  | InvalidDimensions (width height length : Z)
  | DimensionsTooLarge (width height length : Z)
  | IncompleteYprobs (expected : Z)
  | CannotReadNodeCount
  | CompressedDataTooLarge (compressed_size : Z)
  | ErrorReadingFile (e : exn)
  | FileTruncated (file_size expected_min_size : Z).

Definition dims_text (w h l : Z) : string :=
  pretty w +:+ "x" +:+ pretty h +:+ "x" +:+ pretty l.

Definition message (v : violation) : string :=
  match v with
  | FileDoesNotExist filepath => "File does not exist: " +:+ filepath
  | FileTooSmall file_size =>
      "File too small (" +:+ pretty file_size
        +:+ " bytes). Minimum MTS size is 20 bytes."
  | BadExtension => "File extension is not .mts"
  | InvalidSignature signature => "Invalid signature: " +:+ hex signature
  | CannotReadVersion => "Cannot read version"
  | UnsupportedVersion version => "Unsupported version: " +:+ pretty version
  | CannotReadDimensions => "Cannot read dimensions"
  | InvalidDimensions w h l => "Invalid dimensions: " +:+ dims_text w h l
  | DimensionsTooLarge w h l => "Dimensions too large: " +:+ dims_text w h l
  | IncompleteYprobs expected =>
      "Incomplete yprobs data: expected " +:+ pretty expected +:+ " bytes"
  | CannotReadNodeCount => "Cannot read node count"
  | CompressedDataTooLarge compressed_size =>
      "Compressed data too large: " +:+ pretty compressed_size +:+ " bytes"
  | ErrorReadingFile e => "Error reading file: " +:+ exn_str e
  | FileTruncated file_size expected_min_size =>
      "File truncated: size " +:+ pretty file_size
        +:+ " < minimum " +:+ pretty expected_min_size
  end.

(** The values stored in the [metadata] dict. *)
Inductive mval :=
  | MInt (n : Z)
  | MDims (dims : Z * Z * Z).

(** [metadata['dimensions'][1]] *)
Definition dimensions_1 (metadata : gmap string mval) : result Z :=
  match metadata !! "dimensions" with
  | Some (MDims (_, height, _)) => Ok height
  | Some (MInt _) => Raise (ValueError "'int' object is not subscriptable")
  | None => Raise (KeyError "dimensions")
  end.

(** [metadata['volume']] *)
Definition metadata_volume (metadata : gmap string mval) : result Z :=
  match metadata !! "volume" with
  | Some (MInt n) => Ok n
  | Some (MDims _) => Raise (ValueError "unsupported operand type(s)")
  | None => Raise (KeyError "volume")
  end.

(** The body of the [try]: it appends to [errors] and stores into
    [metadata] as it goes, and what it has appended and stored stays when
    it raises. *)
Definition checker (A : Type) : Type :=
  list violation * gmap string mval →
  result A * (list violation * gmap string mval).

#[global] Instance checker_ret : MRet checker := λ A a st, (Ok a, st).
#[global] Instance checker_bind : MBind checker := λ A B k m st,
  match m st with
  | (Ok a, st') => k a st'
  | (Raise e, st') => (Raise e, st')
  end.

Definition errors_append (v : violation) : checker unit :=
  λ '(errors, metadata), (Ok (), (errors ++ [v], metadata)).

Definition metadata_set (key : string) (v : mval) : checker unit :=
  λ '(errors, metadata), (Ok (), (errors, <[key := v]> metadata)).

Definition metadata_get : checker (gmap string mval) :=
  λ '(errors, metadata), (Ok metadata, (errors, metadata)).

Definition call {A} (r : result A) : checker A := λ st, (r, st).

Definition pass : checker unit := mret ().

Definition validate_try (fs : filesystem) (filepath : string) (file_size : Z)
  : checker unit :=
  f ← call (open fs filepath);
  (* Check signature *)
  let '(signature, f) := f_read 4 f in
  (if bool_decide (signature ≠ MTSM)
   then errors_append (InvalidSignature signature) else pass);;
  (* Check version *)
  let '(version_bytes, f) := f_read 2 f in
  (if bool_decide (len version_bytes ≠ 2)
   then errors_append CannotReadVersion
   else
     version ← call (unpack_H version_bytes);
     metadata_set "version" (MInt version);;
     if bool_decide (version ∉ [3; 4; 5])
     then errors_append (UnsupportedVersion version) else pass);;
  (* Check dimensions *)
  let '(dim_bytes, f) := f_read 6 f in
  (if bool_decide (len dim_bytes ≠ 6)
   then errors_append CannotReadDimensions
   else
     '(width, height, length) ← call (unpack_HHH dim_bytes);
     metadata_set "dimensions" (MDims (width, height, length));;
     metadata_set "volume" (MInt (width * height * length));;
     (if bool_decide (width = 0 ∨ height = 0 ∨ length = 0)
      then errors_append (InvalidDimensions width height length) else pass);;
     (if bool_decide (width > 65535 ∨ height > 65535 ∨ length > 65535)
      then errors_append (DimensionsTooLarge width height length) else pass));;
  (* Check yprobs *)
  metadata ← metadata_get;
  f ← (if bool_decide (is_Some (metadata !! "dimensions"))
       then
         n ← call (dimensions_1 metadata);
         let '(yprobs_data, f) := f_read n f in
         (if bool_decide (len yprobs_data ≠ n)
          then errors_append (IncompleteYprobs n)
          else metadata_set "yprobs_length" (MInt (len yprobs_data)));;
         mret f
       else mret f);
  (* Check node count *)
  let '(nodecount_bytes, f) := f_read 2 f in
  (if bool_decide (len nodecount_bytes ≠ 2)
   then errors_append CannotReadNodeCount
   else
     nodecount ← call (unpack_H nodecount_bytes);
     metadata_set "node_count" (MInt nodecount));;
  (* Get position for compressed data size estimation *)
  let current_pos := f_tell f in
  let compressed_size := file_size - current_pos in
  metadata_set "compressed_data_size" (MInt compressed_size);;
  (* Estimate uncompressed size *)
  metadata ← metadata_get;
  if bool_decide (is_Some (metadata !! "volume"))
  then
    volume ← call (metadata_volume metadata);
    let estimated_uncompressed := volume * 4 in
    if bool_decide (compressed_size > estimated_uncompressed * 2)
    then errors_append (CompressedDataTooLarge compressed_size) else pass
  else pass.

Definition validate_file (fs : filesystem) (filepath : string)
  : result (bool * list violation * gmap string mval) :=
  let errors := [] in
  let metadata := ∅ in
  (* Check file existence *)
  if negb (os_path_exists fs filepath)
  then Ok (false, errors ++ [FileDoesNotExist filepath], metadata)
  else
    (* Check file size *)
    file_size ← os_path_getsize fs filepath;
    if bool_decide (file_size < 20)
    then Ok (false, errors ++ [FileTooSmall file_size], metadata)
    else
      (* Check file extension *)
      let errors :=
        if negb (endswith (lower filepath) ".mts")
        then errors ++ [BadExtension] else errors in
      let '(outcome, (errors, metadata)) :=
        validate_try fs filepath file_size (errors, metadata) in
      let errors :=
        match outcome with
        | Ok _ => errors
        | Raise e => errors ++ [ErrorReadingFile e]
        end in
      (* Check if file is complete *)
      errors ←
        (if bool_decide (len errors = 0)
            && bool_decide (is_Some (metadata !! "dimensions"))
         then
           height ← dimensions_1 metadata;
           let expected_min_size := 12 + height + 2 in
           if bool_decide (file_size < expected_min_size)
           then Ok (errors ++ [FileTruncated file_size expected_min_size])
           else Ok errors
         else Ok errors);
      Ok (bool_decide (len errors = 0), errors, metadata).

Definition check_corruption `{Zlib} (fs : filesystem) (filepath : string)
    (quick : bool) : result (bool * string) :=
  '(is_valid, errors, _) ← validate_file fs filepath;
  if negb is_valid
  then Ok (false, "File invalid: " +:+ join ", " (message <$> errors))
  else if negb quick
  then
    let attempt : result (bool * string) :=
      '(compressed_data, _) ← extract_compressed_data fs filepath None;
      let decompressed := decompress_bulk_data compressed_data in
      match decompressed with
      | None => Ok (false, "Compressed data cannot be decompressed")
      | Some decompressed =>
        (* Check decompressed size *)
        metadata ← get_metadata fs filepath;
        let expected_size := volume (md_header metadata) * 4 in
        if bool_decide (len decompressed ≠ expected_size)
        then Ok (false, "Decompressed size mismatch: "
                          +:+ pretty (len decompressed) +:+ " != "
                          +:+ pretty expected_size)
        else Ok (true, "File appears healthy (full check)")
      end in
    match attempt with
    | Ok r => Ok r
    | Raise e => Ok (false, "Error during full check: " +:+ exn_str e)
    end
  else Ok (true, "File appears healthy (quick check)").

End MTSValidator.

(** ** [generators.py] *)

Module MTSGenerator.
Import MTSParser.

(** [l * n] for a list [l] *)
Definition list_mul {A} (l : list A) (n : Z) : list A :=
  mjoin (replicate (Z.to_nat n) l).

(** [bytes(l)] for a list of ints: each must be in [range(256)]. *)
Fixpoint bytes_of_list (l : list Z) : result (list byte) :=
  match l with
  | [] => Ok []
  | n :: l' =>
    if bool_decide (0 ≤ n < 256)
    then bs ← bytes_of_list l'; Ok (byte_of n :: bs)
    else Raise (ValueError "bytes must be in range(0, 256)")
  end.

(** The default of the parameter [version]. *)
Definition default_version : Z := 4.

Definition create_empty_schematic `{Zlib} (width height length version : Z)
  : result (list byte) :=
  (* Validate dimensions *)
  if bool_decide (width ≤ 0 ∨ height ≤ 0 ∨ length ≤ 0)
  then Raise (ValueError "Dimensions must be positive")
  else if bool_decide (width > 65535 ∨ height > 65535 ∨ length > 65535)
  then Raise (ValueError "Dimensions cannot exceed 65535")
  else
    let volume := width * height * length in
    let output := [] in
    (* Signature *)
    let output := output ++ MTSM in
    (* Version *)
    packed ← pack_H version;
    let output := output ++ packed in
    (* Dimensions *)
    packed ← pack_HHH width height length;
    let output := output ++ packed in
    (* Y-probabilities (all 127 = always generate) *)
    yprobs ← bytes_of_list (list_mul [127] height);
    let output := output ++ yprobs in
    (* Node list (only air) *)
    packed ← pack_H 1;
    let output := output ++ packed in
    packed ← pack_H 3;
    let output := output ++ packed in
    let output := output ++ bytes_of_ascii "air" in
    (* Bulk data *)
    let bulk_data := [] in
    let bulk_data := bulk_data ++ bytes_mul [x00; x00] volume in
    let bulk_data := bulk_data ++ bytes_mul [x00] volume in
    let bulk_data := bulk_data ++ bytes_mul [x00] volume in
    (* Compress bulk data *)
    let compressed := zlib_compress 9 bulk_data in
    let output := output ++ compressed in
    Ok output.

Definition create_box `{Zlib} (width height length : Z)
    (wall_block : str) (fill_block : option str) (hollow : bool)
  : result (list byte) :=
  schematic ← create_empty_schematic width height length default_version;
  Ok schematic.

(** The [template] dict; a key that is absent is [None]. *)
Record template := Template {
  t_dimensions : option (Z * Z * Z);
  t_nodes : option (list str);
  t_data : option (list (Z * Z * Z))
}.

(** The [for node in nodes] loop writing the node list. *)
Fixpoint write_nodes (nodes : list str) (output : list byte)
  : result (list byte) :=
  match nodes with
  | [] => Ok output
  | node :: nodes' =>
    name_bytes ← utf8_encode node;
    packed ← pack_H (len name_bytes);
    let output := output ++ packed in
    let output := output ++ name_bytes in
    write_nodes nodes' output
  end.

Definition create_from_template `{Zlib} (t : template) : result (list byte) :=
  (* Extract parameters *)
  let dimensions := default (1, 1, 1) (t_dimensions t) in
  let nodes := default [str_of_ascii "air"] (t_nodes t) in
  let data := default [] (t_data t) in
  let '(width, height, length) := dimensions in
  let volume := width * height * length in
  let output := [] in
  (* Write header *)
  let output := output ++ MTSM in
  packed ← pack_H 4;
  let output := output ++ packed in
  (* Write dimensions *)
  packed ← pack_HHH width height length;
  let output := output ++ packed in
  (* Write yprobs (all 127) *)
  yprobs ← bytes_of_list (list_mul [127] height);
  let output := output ++ yprobs in
  (* Write node list *)
  packed ← pack_H (len nodes);
  let output := output ++ packed in
  output ← write_nodes nodes output;
  (* Create bulk data *)
  let bulk_data := [] in
  let bulk_data :=
    match data with
    | [] =>
      let bulk_data := bulk_data ++ bytes_mul [x00; x00] volume in
      let bulk_data := bulk_data ++ bytes_mul [x00] volume in
      let bulk_data := bulk_data ++ bytes_mul [x00] volume in
      bulk_data
    | _ :: _ => bulk_data
    end in
  (* Compress and write bulk data *)
  let compressed := zlib_compress 6 bulk_data in
  let output := output ++ compressed in
  Ok output.

End MTSGenerator.

(** ** [converters.py] *)

Module MTSConverter.

(** The dict [result] as it is returned: by then ['version'] and ['size']
    hold numbers; ['nodes'] and ['metadata'] are never filled. *)
Record json_result := JsonResult {
  format : string;
  version : Z;
  size : Z * Z * Z;
  nodes : list (list Z);
  metadata : list (string * Z)
}.

Definition quote : string := String (Ascii.ascii_of_nat 34) EmptyString.

Definition newline : string := String (Ascii.ascii_of_nat 10) EmptyString.

(** [json.dump(result, f, indent=2, ensure_ascii=False)] for this dict, whose
    list and dict are empty: the keys in insertion order, the tuple as a
    list with one number per line. *)
Definition json_dumps (r : json_result) : string :=
  let '(width, height, length) := size r in
  let key k := "  " +:+ quote +:+ k +:+ quote +:+ ": " in
  "{" +:+ newline
  +:+ key "format" +:+ quote +:+ format r +:+ quote +:+ "," +:+ newline
  +:+ key "version" +:+ pretty (version r) +:+ "," +:+ newline
  +:+ key "size" +:+ "[" +:+ newline
  +:+ "    " +:+ pretty width +:+ "," +:+ newline
  +:+ "    " +:+ pretty height +:+ "," +:+ newline
  +:+ "    " +:+ pretty length +:+ newline
  +:+ "  ]," +:+ newline
  +:+ key "nodes" +:+ "[]," +:+ newline
  +:+ key "metadata" +:+ "{}" +:+ newline
  +:+ "}".

(** [data[i:j]] for [0 <= i <= j] *)
Definition slice (data : list byte) (i j : nat) : list byte :=
  take (j - i) (drop i data).

(** The file written is the second component. *)
Definition mts_to_json (fs : filesystem) (mts_filepath json_filepath : string)
  : result (json_result * filesystem) :=
  f ← open fs mts_filepath;
  let '(data, f) := f_read_all f in
  if bool_decide (slice data 0 4 ≠ MTSParser.MTSM)
  then Raise (ValueError "Invalid MTS file signature")
  else
    version ← unpack_H (slice data 4 6);
    size ← unpack_HHH (slice data 6 12);
    let result := {| format := "minetest_schematic";
                     version := version;
                     size := size;
                     nodes := [];
                     metadata := [] |} in
    let fs := <[json_filepath := bytes_of_ascii (json_dumps result)]> fs in
    Ok (result, fs).

End MTSConverter.

(** ** [analyzers.py] *)

Module MTSAnalyzer.

(** A Python [set] of node names is a [gset]; where the code turns a set
    into a list, with [list(...)] or [extend], the order of the list is the
    set's own and nothing below depends on it. *)
Record unique_info := UniqueInfo {
  file : string;
  unique_nodes : gset (list Z);
  count : Z
}.

Record common_info := CommonInfo {
  nodes : gset (list Z);
  common_count : Z
}.

Record common_report := CommonReport {
  total_files : Z;
  total_unique_nodes : Z;
  common_nodes : common_info;
  unique_nodes_per_file : list unique_info
}.

(** The first loop, from the values of [all_nodes] and [node_sets] on. *)
Fixpoint read_node_sets (fs : filesystem) (filepaths : list string)
    (all_nodes : list (list Z)) (node_sets : list (gset (list Z)))
  : result (list (list Z) * list (gset (list Z))) :=
  match filepaths with
  | [] => Ok (all_nodes, node_sets)
  | filepath :: filepaths =>
    metadata ← MTSParser.get_metadata fs filepath;
    let nodes : gset (list Z) :=
      list_to_set (MTSParser.nl_nodes (MTSParser.md_nodelist metadata)) in
    let all_nodes := all_nodes ++ elements nodes in
    let node_sets := node_sets ++ [nodes] in
    read_node_sets fs filepaths all_nodes node_sets
  end.

(** [set.intersection] of all the sets, [set()] when there is none. *)
Definition intersection_of (sets : list (gset (list Z))) : gset (list Z) :=
  match sets with
  | [] => ∅
  | first :: others => foldl (∩) first others
  end.

(** [set.union] of all the sets, [set()] when there is none. *)
Definition union_of (sets : list (gset (list Z))) : gset (list Z) :=
  match sets with
  | [] => ∅
  | first :: others => foldl (∪) first others
  end.

(** [node_sets] has one set for each path, so [filepaths[i]] exists in the
    second loop; the default is never taken. *)
Definition find_common_nodes (fs : filesystem) (filepaths : list string)
  : result common_report :=
  '(all_nodes, node_sets) ← read_node_sets fs filepaths [] [];
  let common_nodes := intersection_of node_sets in
  let unique_per_file :=
    imap (λ i node_set,
            let other_sets := take i node_sets ++ drop (i + 1) node_sets in
            let other_union := union_of other_sets in
            let unique := node_set ∖ other_union in
            {| file := default ""%string (filepaths !! i);
               unique_nodes := unique;
               count := Z.of_nat (size unique) |})
         node_sets in
  Ok {| total_files := len filepaths;
        total_unique_nodes := Z.of_nat (size (list_to_set all_nodes : gset (list Z)));
        common_nodes := {| nodes := common_nodes;
                           common_count := Z.of_nat (size common_nodes) |};
        unique_nodes_per_file := unique_per_file |}.

End MTSAnalyzer.

(** ** [visualizers.py] *)

Module MTSVisualizer.

(** What [get_ascii_slice] can raise: what the parser raises, and the
    division by zero of its own. *)
Inductive error :=
  | ParserError (e : exn)
  | ZeroDivisionError.

Inductive outcome :=
  | Returned (text : string)
  | Raised (e : error).

Definition ascii_chars : string := " .:ioOC@#".

(** [s * n] for a string [s]: a non-positive count gives the empty string. *)
Definition str_mul (s : string) (n : Z) : string :=
  join "" (replicate (Z.to_nat n) s).

(** [range(n)]: empty when [n] is not positive. *)
Definition range (n : Z) : list Z := Z.of_nat <$> seq 0 (Z.to_nat n).

(** [s[i]] for [0 <= i < len(s)], the only indices this file uses. *)
Definition char_at (s : string) (i : Z) : string :=
  match String.get (Z.to_nat i) s with
  | Some c => String c EmptyString
  | None => EmptyString
  end.

(** The quotient [scale_x] is a float that is not used again; what is kept
    of its computation is that it raises when the divisor is 0. *)
Definition get_ascii_slice (fs : filesystem) (filepath : string) (axis : string)
    (slice_index max_width : Z) : outcome :=
  match MTSParser.get_metadata fs filepath with
  | Raise e => Raised (ParserError e)
  | Ok metadata =>
    let nodes := MTSParser.nl_nodes (MTSParser.md_nodelist metadata) in
    let width := MTSParser.width (MTSParser.md_header metadata) in
    let height := MTSParser.height (MTSParser.md_header metadata) in
    let length := MTSParser.length (MTSParser.md_header metadata) in
    let out_of_range name dim :=
      "Slice index " +:+ pretty slice_index +:+ " out of range ("
        +:+ name +:+ "=" +:+ pretty dim +:+ ")" in
    let slice_dims : string + Z * Z :=
      if String.eqb axis "x" then
        if bool_decide (slice_index >= width)
        then inl (out_of_range "width" width)
        else inr (height, length)
      else if String.eqb axis "y" then
        if bool_decide (slice_index >= height)
        then inl (out_of_range "height" height)
        else inr (width, length)
      else
        if bool_decide (slice_index >= length)
        then inl (out_of_range "length" length)
        else inr (width, height) in
    match slice_dims with
    | inl text => Returned text
    | inr slice_dims =>
      let output_width := Z.min slice_dims.1 max_width in
      if bool_decide (slice_dims.1 > output_width) && bool_decide (output_width = 0)
      then Raised ZeroDivisionError
      else
        let result := [] in
        let result :=
          result ++ ["Slice " +:+ axis +:+ "=" +:+ pretty slice_index
                     +:+ " (" +:+ pretty slice_dims.1 +:+ "x" +:+ pretty slice_dims.2
                     +:+ ")"] in
        let result := result ++ [str_mul "=" (Z.min 80 slice_dims.1)] in
        let result :=
          result ++ ((λ y,
                        let line :=
                          (λ x,
                             let char_idx :=
                               (x + y) `mod` Z.of_nat (String.length ascii_chars) in
                             char_at ascii_chars char_idx)
                          <$> range (Z.min output_width slice_dims.1) in
                        join "" line)
                     <$> range (Z.min 20 slice_dims.2)) in
        let result :=
          if bool_decide (slice_dims.2 > 20)
          then result ++ ["... (" +:+ pretty (slice_dims.2 - 20) +:+ " more rows)"]
          else result in
        Returned (join MTSConverter.newline result)
    end
  end.

End MTSVisualizer.

(** * Vocabulary of the statements *)

(** The byte at an offset of a buffer, as a number; 0 past the end. *)
Definition byte_at (content : list byte) (i : nat) : Z :=
  from_option byte_val 0 (content !! i).

(** The big-endian unsigned 16-bit integer at an offset. *)
Definition u16_at (content : list byte) (i : nat) : Z :=
  byte_at content i * 256 + byte_at content (S i).

(** The two bytes of a big-endian unsigned 16-bit integer. *)
Definition u16_bytes (v : Z) : list byte :=
  [byte_of (v `div` 256); byte_of (v `mod` 256)].

(** What is left to read of an open file. *)
Definition f_rest (f : file_obj) : list byte :=
  drop (Z.to_nat (f_pos f)) (f_data f).

(** The header that the layout table of the format assigns to a buffer:
    a field that is not wholly present reads as 0. *)
Definition header_of (content : list byte) : MTSParser.header :=
  let version := if bool_decide (6 ≤ len content) then u16_at content 4 else 0 in
  let width := if bool_decide (12 ≤ len content) then u16_at content 6 else 0 in
  let height := if bool_decide (12 ≤ len content) then u16_at content 8 else 0 in
  let length := if bool_decide (12 ≤ len content) then u16_at content 10 else 0 in
  {| MTSParser.signature := take 4 content;
     MTSParser.signature_valid := bool_decide (take 4 content = MTSParser.MTSM);
     MTSParser.version := version;
     MTSParser.width := width;
     MTSParser.height := height;
     MTSParser.length := length;
     MTSParser.volume := width * height * length;
     MTSParser.file_size := Z.min 12 (len content) |}.

(** The offset of the node list. *)
Definition palette_offset (content : list byte) : Z :=
  12 + MTSParser.height (header_of content).

(** The palette section as bytes: each name after its 2-byte length. *)
Definition entries (names : list (list byte)) : list byte :=
  mjoin ((λ name, u16_bytes (len name) ++ name) <$> names).

(** What follows the last whole entry cannot be read as an entry: its
    length field is cut, or fewer bytes follow than the field announces. *)
Definition entry_truncated (tail : list byte) : Prop :=
  match tail with
  | hi :: lo :: rest => len rest < be16 hi lo
  | _ => True
  end.

(** Reading up to [count] entries off a buffer: the names read, and what
    is left after the last read (nothing, once a read fell short). *)
Fixpoint scan_entries (count : nat) (buf : list byte)
  : list (list byte) * list byte :=
  match count with
  | O => ([], buf)
  | S count' =>
    match buf with
    | hi :: lo :: rest =>
      let n := be16 hi lo in
      if bool_decide (n ≤ len rest)
      then
        let '(names, remaining) :=
          scan_entries count' (drop (Z.to_nat n) rest) in
        (take (Z.to_nat n) rest :: names, remaining)
      else ([], [])
    | _ => ([], [])
    end
  end.

(** The names and the end position that the layout assigns to a buffer. *)
Definition nodelist_of (content : list byte) : list (list byte) * Z :=
  match drop (Z.to_nat (palette_offset content)) content with
  | hi :: lo :: rest =>
    let '(names, remaining) := scan_entries (Z.to_nat (be16 hi lo)) rest in
    (names, len content - len remaining)
  | [_] => ([], len content)
  | [] => ([], palette_offset content)
  end.

(** The checks of the validator, each as the violations it adds for a
    file of at least 20 bytes. *)
Definition check_extension (filepath : string) : list MTSValidator.violation :=
  if endswith (lower filepath) ".mts" then [] else [MTSValidator.BadExtension].

Definition check_signature (content : list byte) : list MTSValidator.violation :=
  if bool_decide (take 4 content ≠ MTSParser.MTSM)
  then [MTSValidator.InvalidSignature (take 4 content)] else [].

Definition check_version (content : list byte) : list MTSValidator.violation :=
  let version := MTSParser.version (header_of content) in
  if bool_decide (version ∉ [3; 4; 5])
  then [MTSValidator.UnsupportedVersion version] else [].

Definition check_dimensions (content : list byte) : list MTSValidator.violation :=
  let hd := header_of content in
  let '(w, h, l) := (MTSParser.width hd, MTSParser.height hd, MTSParser.length hd) in
  if bool_decide (w = 0 ∨ h = 0 ∨ l = 0)
  then [MTSValidator.InvalidDimensions w h l] else [].

Definition check_yprobs (content : list byte) : list MTSValidator.violation :=
  let h := MTSParser.height (header_of content) in
  if bool_decide (len content < 12 + h)
  then [MTSValidator.IncompleteYprobs h] else [].

Definition check_node_count (content : list byte) : list MTSValidator.violation :=
  let h := MTSParser.height (header_of content) in
  if bool_decide (len content < 12 + h + 2)
  then [MTSValidator.CannotReadNodeCount] else [].

(** The size the validator takes for the compressed data: what follows the
    node count field, or nothing when the file ends before it. *)
Definition compressed_data_size_of (content : list byte) : Z :=
  let h := MTSParser.height (header_of content) in
  len content - Z.min (len content) (12 + h + 2).

Definition check_compressed_size (content : list byte) : list MTSValidator.violation :=
  let compressed_size := compressed_data_size_of content in
  if bool_decide (compressed_size > MTSParser.volume (header_of content) * 4 * 2)
  then [MTSValidator.CompressedDataTooLarge compressed_size] else [].

Definition checks (filepath : string) (content : list byte)
  : list MTSValidator.violation :=
  check_extension filepath ++ check_signature content ++ check_version content
  ++ check_dimensions content ++ check_yprobs content
  ++ check_node_count content ++ check_compressed_size content.

Definition metadata_of (content : list byte) : gmap string MTSValidator.mval :=
  let hd := header_of content in
  let h := MTSParser.height hd in
  let md : gmap string MTSValidator.mval :=
    <["volume" := MTSValidator.MInt (MTSParser.volume hd)]>
      (<["dimensions" := MTSValidator.MDims (MTSParser.width hd, h, MTSParser.length hd)]>
         (<["version" := MTSValidator.MInt (MTSParser.version hd)]> ∅)) in
  let md := if bool_decide (len content < 12 + h) then md
            else <["yprobs_length" := MTSValidator.MInt h]> md in
  let md := if bool_decide (len content < 12 + h + 2) then md
            else <["node_count" := MTSValidator.MInt (u16_at content (Z.to_nat (12 + h)))]> md in
  <["compressed_data_size" := MTSValidator.MInt (compressed_data_size_of content)]> md.

(** Modelled from the spec: the [node_index] plane of the payload, "as
    [volume] big-endian unsigned 16-bit values"; the source has no decoder
    of the decompressed payload. *)
Fixpoint u16_values (n : nat) (payload : list byte) : list Z :=
  match n, payload with
  | S n', hi :: lo :: rest => be16 hi lo :: u16_values n' rest
  | _, _ => []
  end.

Definition node_indices (volume : Z) (payload : list byte) : list Z :=
  u16_values (Z.to_nat volume) payload.

(** The layout of a whole document, section after section. *)
Definition document (sig : list byte) (version width height length : Z)
    (yprobs : list byte) (names : list (list byte)) (bulk : list byte)
  : list byte :=
  sig ++ u16_bytes version
  ++ (u16_bytes width ++ u16_bytes height ++ u16_bytes length)
  ++ yprobs
  ++ u16_bytes (len names) ++ entries names
  ++ bulk.

(** The payload of a schematic of air: four zero bytes per voxel. *)
Definition zero_payload (volume : Z) : list byte :=
  replicate (Z.to_nat (4 * volume)) x00.

(** ** A codec to run the generators with *)

(** The least codec in the interface of [Zlib]: the data, stored as they
    are behind the two header bytes of a zlib stream.  The statements below
    hold for every codec; this one serves to run them on concrete input. *)
Definition stored_compress (level : Z) (data : list byte) : list byte :=
  [x78; x01] ++ data.

Definition stored_decompress (stream : list byte) : option (list byte) :=
  match stream with
  | cmf :: flg :: data =>
    if bool_decide (cmf = x78 ∧ flg = x01) then Some data else None
  | _ => None
  end.

Definition stored_zlib : Zlib :=
  {| zlib_compress := stored_compress;
     zlib_decompress := stored_decompress;
     zlib_decompress_compress := λ level data, eq_refl |}.

(** ** Sample files *)

(** The 4x2x4 schematic of air: what [create_empty_schematic(4, 2, 4)]
    writes, the last 12 bytes being the zlib stream of 128 zero bytes at
    level 9. *)
Definition air_4x2x4 : list byte :=
  bytes_of_ascii "MTSM" ++ [x00; x04]
  ++ [x00; x04; x00; x02; x00; x04]
  ++ [x7f; x7f]
  ++ [x00; x01; x00; x03] ++ bytes_of_ascii "air"
  ++ [x78; xda; x63; x60; x18; x58; x00; x00; x00; x80; x00; x01].


(** A file of 20 bytes with the signature [XXXX] whose header announces a
    height of 100: it ends 8 bytes into the y-probabilities. *)
Definition cut_XXXX : list byte :=
  bytes_of_ascii "XXXX" ++ [x00; x04]
  ++ [x00; x01; x00; x64; x00; x01]
  ++ [x7f; x7f; x7f; x7f; x7f; x7f; x7f; x7f].

(** A 1x1x1 file whose palette has one name of two bytes, the first of
    which, [0xFF], cannot occur in UTF-8; the second is the letter [a]. *)
Definition bad_name : list byte :=
  bytes_of_ascii "MTSM" ++ [x00; x04]
  ++ [x00; x01; x00; x01; x00; x01]
  ++ [x7f]
  ++ [x00; x01; x00; x02; xff] ++ bytes_of_ascii "a"
  ++ [x78; xda; x63; x60; x60; x60; x00; x00; x00; x04; x00; x01].

(** The set of node names that [get_metadata] reports for a file. *)
Definition node_set_of (fs : filesystem) (filepath : string) : gset (list Z) :=
  match MTSParser.get_metadata fs filepath with
  | Ok metadata => list_to_set (MTSParser.nl_nodes (MTSParser.md_nodelist metadata))
  | Raise _ => ∅
  end.

(** [sum(...)] of a list of integers *)
Definition sum_of (l : list Z) : Z := foldr Z.add 0 l.

(** Two files whose palettes share [air]. *)
Definition stone_and_air : list byte :=
  document MTSParser.MTSM 4 1 1 1 [x7f]
    [bytes_of_ascii "air"; bytes_of_ascii "default:stone"] [].

Definition dirt_and_air : list byte :=
  document MTSParser.MTSM 4 1 1 1 [x7f]
    [bytes_of_ascii "default:dirt"; bytes_of_ascii "air"] [].

Definition two_files : filesystem :=
  {[ "a.mts"%string := stone_and_air; "b.mts"%string := dirt_and_air ]}.

Definition two_files_report : MTSAnalyzer.common_report :=
  {| MTSAnalyzer.total_files := 2;
     MTSAnalyzer.total_unique_nodes := 3;
     MTSAnalyzer.common_nodes :=
       {| MTSAnalyzer.nodes := {[ str_of_ascii "air" ]};
          MTSAnalyzer.common_count := 1 |};
     MTSAnalyzer.unique_nodes_per_file :=
       [ {| MTSAnalyzer.file := "a.mts";
            MTSAnalyzer.unique_nodes := {[ str_of_ascii "default:stone" ]};
            MTSAnalyzer.count := 1 |};
         {| MTSAnalyzer.file := "b.mts";
            MTSAnalyzer.unique_nodes := {[ str_of_ascii "default:dirt" ]};
            MTSAnalyzer.count := 1 |} ] |}.

Definition twice_report : MTSAnalyzer.common_report :=
  {| MTSAnalyzer.total_files := 2;
     MTSAnalyzer.total_unique_nodes := 2;
     MTSAnalyzer.common_nodes :=
       {| MTSAnalyzer.nodes := {[ str_of_ascii "air"; str_of_ascii "default:stone" ]};
          MTSAnalyzer.common_count := 2 |};
     MTSAnalyzer.unique_nodes_per_file :=
       [ {| MTSAnalyzer.file := "a.mts"; MTSAnalyzer.unique_nodes := ∅;
            MTSAnalyzer.count := 0 |};
         {| MTSAnalyzer.file := "a.mts"; MTSAnalyzer.unique_nodes := ∅;
            MTSAnalyzer.count := 0 |} ] |}.

(** The dimension that [get_ascii_slice] compares the slice index with. *)
Definition slice_extent (h : MTSParser.header) (axis : string) : Z :=
  if String.eqb axis "x" then MTSParser.width h
  else if String.eqb axis "y" then MTSParser.height h
  else MTSParser.length h.

(** The two dimensions of a slice across an axis. *)
Definition slice_dims_of (h : MTSParser.header) (axis : string) : Z * Z :=
  if String.eqb axis "x" then (MTSParser.height h, MTSParser.length h)
  else if String.eqb axis "y" then (MTSParser.width h, MTSParser.length h)
  else (MTSParser.width h, MTSParser.height h).

(** * Properties *)

Import MTSValidator.

(** ** Bytes and 16-bit fields *)

Lemma byte_val_range (b : byte) : 0 ≤ byte_val b ≤ 255.
Proof.
  unfold byte_val. pose proof (Byte.to_N_bounded b). lia.
Qed.

Lemma byte_val_of (z : Z) : 0 ≤ z < 256 → byte_val (byte_of z) = z.
Proof.
  intros Hz. unfold byte_val, byte_of.
  destruct (Byte.of_N (Z.to_N z)) as [b|] eqn:E.
  - simpl. apply Byte.to_of_N in E. lia.
  - apply Byte.of_N_None_iff in E. lia.
Qed.

Lemma byte_of_val (b : byte) : byte_of (byte_val b) = b.
Proof.
  unfold byte_val, byte_of. by rewrite N2Z.id, Byte.of_to_N.
Qed.

Lemma be16_range (hi lo : byte) : 0 ≤ be16 hi lo ≤ 65535.
Proof.
  unfold be16. pose proof (byte_val_range hi). pose proof (byte_val_range lo). lia.
Qed.

Lemma be16_pack (v : Z) :
  0 ≤ v ≤ 65535 → be16 (byte_of (v `div` 256)) (byte_of (v `mod` 256)) = v.
Proof.
  intros Hv. unfold be16.
  rewrite !byte_val_of.
  - pose proof (Z.div_mod v 256). lia.
  - apply Z.mod_pos_bound. lia.
  - split; [apply Z.div_pos; lia | apply Z.div_lt_upper_bound; lia].
Qed.

Lemma pack_H_ok (v : Z) :
  0 ≤ v ≤ 65535 → pack_H v = Ok [byte_of (v `div` 256); byte_of (v `mod` 256)].
Proof. intros Hv. unfold pack_H. by rewrite bool_decide_true. Qed.

Lemma unpack_H_pack_H (v : Z) (packed : list byte) :
  pack_H v = Ok packed → unpack_H packed = Ok v ∧ len packed = 2.
Proof.
  unfold pack_H. case_bool_decide as Hv; [|by case_bool_decide].
  intros [= <-]. simpl. by rewrite be16_pack.
Qed.

Lemma unpack_H_len2 (buf : list byte) :
  len buf = 2 → ∃ hi lo, buf = [hi; lo] ∧ unpack_H buf = Ok (be16 hi lo).
Proof.
  unfold len. destruct buf as [|hi [|lo [|? ?]]]; simpl; try lia.
  intros _. by exists hi, lo.
Qed.

Lemma len_nonneg {A} (l : list A) : 0 ≤ len l.
Proof. unfold len. lia. Qed.

Lemma len_app {A} (l k : list A) : len (l ++ k) = len l + len k.
Proof. unfold len. rewrite length_app. lia. Qed.

Lemma len_cons {A} (x : A) (l : list A) : len (x :: l) = 1 + len l.
Proof. unfold len. cbn [List.length]. lia. Qed.

Lemma len_nil {A} : len (@nil A) = 0.
Proof. reflexivity. Qed.

Lemma len_take {A} (n : Z) (l : list A) :
  0 ≤ n → len (take (Z.to_nat n) l) = Z.min n (len l).
Proof. intros Hn. unfold len. rewrite length_take. lia. Qed.

Lemma len_drop {A} (n : Z) (l : list A) :
  0 ≤ n → len (drop (Z.to_nat n) l) = Z.max 0 (len l - n).
Proof. intros Hn. unfold len. rewrite length_drop. lia. Qed.

Lemma len_replicate {A} (n : Z) (x : A) :
  len (replicate (Z.to_nat n) x) = Z.max 0 n.
Proof. unfold len. rewrite length_replicate. lia. Qed.

Lemma len_u16_bytes (v : Z) : len (u16_bytes v) = 2.
Proof. reflexivity. Qed.

(** ** Reading from a file object *)

Lemma f_rest_open (content : list byte) : f_rest (FileObj content 0) = content.
Proof. reflexivity. Qed.

Lemma f_rest_seek (p : Z) (f : file_obj) :
  f_rest (f_seek p f) = drop (Z.to_nat p) (f_data f).
Proof. reflexivity. Qed.

Lemma len_f_rest (f : file_obj) :
  0 ≤ f_pos f ≤ len (f_data f) → len (f_rest f) = len (f_data f) - f_pos f.
Proof. intros Hp. unfold f_rest. rewrite len_drop by lia. lia. Qed.

(** A read returns the next bytes and leaves the rest. *)
Lemma f_read_rest (n : Z) (f : file_obj) :
  0 ≤ n → 0 ≤ f_pos f →
  ∃ f', f_read n f = (take (Z.to_nat n) (f_rest f), f')
        ∧ f_data f' = f_data f
        ∧ f_pos f' = f_pos f + Z.min n (len (f_rest f))
        ∧ f_rest f' = drop (Z.to_nat n) (f_rest f).
Proof.
  intros Hn Hp. unfold f_read. rewrite (proj2 (Z.ltb_ge n 0)) by lia.
  fold (f_rest f). eexists. split; [reflexivity|]. cbn [f_data f_pos].
  rewrite len_take by lia. split; [done|]. split; [done|].
  unfold f_rest at 1. cbn [f_data f_pos].
  replace (Z.to_nat (f_pos f + Z.min n (len (f_rest f))))
    with (Z.to_nat (f_pos f) + Z.to_nat (Z.min n (len (f_rest f))))%nat
    by (pose proof (len_nonneg (f_rest f)); lia).
  rewrite <- drop_drop. fold (f_rest f).
  destruct (Z.le_gt_cases n (len (f_rest f))) as [Hle|Hgt].
  - by rewrite Z.min_l.
  - rewrite Z.min_r by lia. unfold len in *.
    rewrite Nat2Z.id. rewrite !drop_ge; [done | lia | lia].
Qed.

(** Inside the file the position stays inside the file. *)
Lemma f_read_inside (n : Z) (f : file_obj) :
  0 ≤ n → 0 ≤ f_pos f ≤ len (f_data f) →
  0 ≤ f_pos (f_read n f).2 ≤ len (f_data (f_read n f).2).
Proof.
  intros Hn Hp. destruct (f_read_rest n f) as (f' & -> & Hd & Hpos & _); [lia..|].
  cbn [snd]. rewrite Hd, Hpos, len_f_rest by lia. lia.
Qed.

(** ** The parser on the content of a file *)

Lemma header_of_ranges (content : list byte) :
  0 ≤ MTSParser.version (header_of content) ≤ 65535
  ∧ 0 ≤ MTSParser.width (header_of content) ≤ 65535
  ∧ 0 ≤ MTSParser.height (header_of content) ≤ 65535
  ∧ 0 ≤ MTSParser.length (header_of content) ≤ 65535.
Proof.
  assert (Hb : ∀ i, 0 ≤ byte_at content i ≤ 255).
  { intros i. unfold byte_at. destruct (content !! i) as [b|]; simpl.
    - apply byte_val_range.
    - lia. }
  assert (Hu : ∀ i, 0 ≤ u16_at content i ≤ 65535).
  { intros i. unfold u16_at. pose proof (Hb i). pose proof (Hb (S i)). lia. }
  unfold header_of; cbn.
  repeat split; case_bool_decide; try apply Hu; lia.
Qed.

Lemma parse_header_spec (fs : filesystem) (filepath : string) content :
  fs !! filepath = Some content →
  MTSParser.parse_header fs filepath = Ok (header_of content).
Proof.
  intros Hfile. unfold MTSParser.parse_header, open. rewrite Hfile.
  destruct content
    as [|b0 [|b1 [|b2 [|b3 [|b4 [|b5 [|b6 [|b7 [|b8 [|b9 [|b10 [|b11 rest]]]]]]]]]]]];
    try (vm_compute; reflexivity).
  unfold header_of. rewrite !len_cons.
  pose proof (len_nonneg rest).
  rewrite (bool_decide_true (6 ≤ _)) by lia.
  rewrite (bool_decide_true (12 ≤ _)) by lia.
  rewrite Z.min_l by lia.
  reflexivity.
Qed.

Lemma parse_yprobs_spec (fs : filesystem) (filepath : string) content :
  fs !! filepath = Some content →
  let h := MTSParser.height (header_of content) in
  let yprobs_data := take (Z.to_nat h) (drop 12 content) in
  MTSParser.parse_yprobs fs filepath
  = Ok (if bool_decide (len yprobs_data = h) then byte_val <$> yprobs_data else [],
        12 + len yprobs_data).
Proof.
  intros Hfile h yprobs_data. unfold MTSParser.parse_yprobs.
  rewrite (parse_header_spec _ _ _ Hfile). cbn [mbind result_bind].
  unfold open. rewrite Hfile. cbn [mbind result_bind].
  pose proof (header_of_ranges content) as (_ & _ & Hh & _). fold h in Hh.
  destruct (f_read_rest h (f_seek 12 (FileObj content 0)))
    as (f' & Hread & _ & Hpos & _); [lia | cbn; lia |].
  fold h. rewrite Hread. rewrite f_rest_seek in *. cbn [f_data f_seek f_pos] in *.
  change (Z.to_nat 12) with 12%nat in *. fold yprobs_data.
  unfold f_tell. rewrite Hpos. unfold yprobs_data.
  rewrite len_take by lia. reflexivity.
Qed.

Lemma read_nodes_spec (count : nat) :
  ∀ (f : file_obj) (acc : list str),
    0 ≤ f_pos f →
    ∃ f', MTSParser.read_nodes count f acc
          = Ok (acc ++ (utf8_decode_ignore <$> (scan_entries count (f_rest f)).1), f')
          ∧ f_data f' = f_data f
          ∧ 0 ≤ f_pos f'
          ∧ f_rest f' = (scan_entries count (f_rest f)).2
          ∧ (f_pos f ≤ len (f_data f) → f_pos f' ≤ len (f_data f)).
Proof.
  induction count as [|count IH]; intros f acc Hp.
  - exists f. cbn. by rewrite app_nil_r.
  - cbn [MTSParser.read_nodes scan_entries].
    destruct (f_read_rest 2 f) as (f1 & Hread1 & Hd1 & Hp1 & Hr1); [lia..|].
    pose proof (f_read_inside 2 f) as Hin1. rewrite Hread1 in Hin1 |- *.
    cbn [snd] in Hin1. change (Z.to_nat 2) with 2%nat in *.
    pose proof (len_nonneg (f_rest f)) as Hlen.
    destruct (f_rest f) as [|hi [|lo rest]] eqn:Hrest.
    + cbn. exists f1. rewrite app_nil_r. repeat split; try done; try lia.
      intros; rewrite <- Hd1; apply Hin1; lia.
    + cbn. exists f1. rewrite app_nil_r. repeat split; try done; try lia.
      intros; rewrite <- Hd1; apply Hin1; lia.
    + change (take 2 (hi :: lo :: rest)) with [hi; lo].
      rewrite bool_decide_true by reflexivity.
      cbn [negb unpack_H mbind result_bind].
      change (drop 2 (hi :: lo :: rest)) with rest in Hr1.
      pose proof (be16_range hi lo) as Hn.
      destruct (f_read_rest (be16 hi lo) f1) as (f2 & Hread2 & Hd2 & Hp2 & Hr2);
        [lia..|].
      pose proof (f_read_inside (be16 hi lo) f1) as Hin2.
      rewrite Hread2 in Hin2 |- *. cbn [snd] in Hin2.
      rewrite Hr1 in *. rewrite len_take by lia.
      pose proof (len_nonneg rest) as Hlr.
      destruct (decide (be16 hi lo ≤ len rest)) as [Hfit|Hfit].
      * rewrite (bool_decide_true (Z.min _ _ = _)) by lia.
        rewrite (bool_decide_true (_ ≤ _)) by lia. cbn [negb].
        destruct (IH f2 (acc ++ [utf8_decode_ignore (take (Z.to_nat (be16 hi lo)) rest)]))
          as (f3 & Hrec & Hd3 & Hp3 & Hr3 & Hin3); [lia|].
        rewrite Hr2 in Hrec, Hr3. rewrite Hrec.
        destruct (scan_entries count (drop (Z.to_nat (be16 hi lo)) rest))
          as [names remaining] eqn:Hscan.
        exists f3. cbn [fst snd] in *. rewrite fmap_cons, <- app_assoc.
        repeat split; try done; try congruence.
        intros Hle. rewrite Hd1 in Hin1. rewrite Hd2, Hd1 in Hin2, Hin3.
        assert (H1 := Hin1 ltac:(lia) ltac:(lia)).
        assert (H2 := Hin2 ltac:(lia) ltac:(lia)). apply Hin3. lia.
      * rewrite (bool_decide_false (Z.min _ _ = _)) by lia.
        rewrite (bool_decide_false (_ ≤ _)) by lia. cbn [negb].
        exists f2. cbn [fst snd]. rewrite app_nil_r.
        repeat split; try done; try lia; try congruence.
        -- rewrite Hr2. apply drop_ge. unfold len in *. lia.
        -- intros Hle. rewrite Hd1 in Hin1. rewrite Hd2, Hd1 in Hin2.
           assert (H1 := Hin1 ltac:(lia) ltac:(lia)).
           assert (H2 := Hin2 ltac:(lia) ltac:(lia)). lia.
Qed.

Lemma palette_offset_range (content : list byte) :
  12 ≤ palette_offset content ≤ 65547.
Proof.
  unfold palette_offset.
  pose proof (header_of_ranges content) as (_ & _ & Hh & _). lia.
Qed.

Lemma parse_nodelist_spec (fs : filesystem) (filepath : string) content :
  fs !! filepath = Some content →
  MTSParser.parse_nodelist fs filepath
  = Ok (utf8_decode_ignore <$> (nodelist_of content).1, (nodelist_of content).2).
Proof.
  intros Hfile. unfold MTSParser.parse_nodelist.
  rewrite (parse_header_spec _ _ _ Hfile). cbn [mbind result_bind].
  unfold open. rewrite Hfile. cbn [mbind result_bind].
  fold (palette_offset content). unfold nodelist_of.
  pose proof (palette_offset_range content) as Hoff.
  set (p := palette_offset content) in *.
  destruct (f_read_rest 2 (f_seek p (FileObj content 0)))
    as (f1 & Hread1 & Hd1 & Hp1 & Hr1); [lia | cbn; lia |].
  pose proof (f_read_inside 2 (f_seek p (FileObj content 0))) as Hin1.
  rewrite Hread1 in Hin1 |- *. rewrite f_rest_seek in *.
  cbn [f_data f_seek f_pos snd] in *.
  pose proof (len_drop p content ltac:(lia)) as Hdrop.
  destruct (drop (Z.to_nat p) content) as [|hi [|lo rest]] eqn:Hrest.
  - change (take (Z.to_nat 2) []) with (@nil byte).
    rewrite bool_decide_false by done. cbn [negb fmap list_fmap fst snd].
    unfold f_tell. rewrite Hp1. change (len (@nil byte)) with 0. do 2 f_equal. lia.
  - change (take (Z.to_nat 2) [hi]) with [hi].
    rewrite bool_decide_false by done. cbn [negb fmap list_fmap fst snd].
    unfold f_tell. rewrite Hp1. change (len [hi]) with 1 in *.
    do 2 f_equal. lia.
  - change (take (Z.to_nat 2) (hi :: lo :: rest)) with [hi; lo].
    change (drop (Z.to_nat 2) (hi :: lo :: rest)) with rest in Hr1.
    rewrite bool_decide_true by reflexivity.
    cbn [negb unpack_H mbind result_bind].
    rewrite !len_cons in *. pose proof (len_nonneg rest) as Hlr.
    destruct (read_nodes_spec (Z.to_nat (be16 hi lo)) f1 [])
      as (f2 & Hrec & Hd2 & Hp2 & Hr2 & Hin2); [lia|].
    rewrite Hrec. rewrite Hr1 in *. rewrite Hd1 in *.
    destruct (scan_entries (Z.to_nat (be16 hi lo)) rest)
      as [names remaining] eqn:Hscan.
    cbn [fst snd app mbind result_bind] in *. unfold f_tell.
    assert (Hle : f_pos f2 ≤ len content) by (apply Hin2; lia).
    pose proof (len_f_rest f2) as Hl2. rewrite Hr2, Hd2 in Hl2.
    do 2 f_equal. lia.
Qed.

Lemma nodelist_of_inside (content : list byte) :
  palette_offset content ≤ len content →
  palette_offset content ≤ (nodelist_of content).2 ≤ len content.
Proof.
  intros Hoff. unfold nodelist_of.
  pose proof (palette_offset_range content) as Hrange.
  pose proof (len_drop (palette_offset content) content ltac:(lia)) as Hdrop.
  destruct (drop _ content) as [|hi [|lo rest]] eqn:Hrest.
  - cbn [snd]. lia.
  - cbn [snd]. lia.
  - rewrite !len_cons in Hdrop.
    assert (Hrem : ∀ count buf, len (scan_entries count buf).2 ≤ len buf).
    { clear. induction count as [|count IH]; intros buf; cbn [scan_entries snd].
      - lia.
      - destruct buf as [|hi [|lo rest]]; cbn [snd];
          [done | rewrite !len_cons; change (len (@nil byte)) with 0; lia |].
        pose proof (be16_range hi lo). pose proof (len_nonneg rest).
        rewrite !len_cons.
        case_bool_decide; cbn [snd].
        + specialize (IH (drop (Z.to_nat (be16 hi lo)) rest)).
          destruct (scan_entries count _) as [names remaining]; cbn [snd] in *.
          rewrite len_drop in IH by lia. lia.
        + change (len (@nil byte)) with 0. lia. }
    specialize (Hrem (Z.to_nat (be16 hi lo)) rest).
    destruct (scan_entries _ rest) as [names remaining]; cbn [snd] in *.
    pose proof (len_nonneg remaining). pose proof (len_nonneg rest). lia.
Qed.

Lemma nodelist_of_outside (content : list byte) :
  len content < palette_offset content →
  nodelist_of content = ([], palette_offset content).
Proof.
  intros Hoff. unfold nodelist_of.
  rewrite drop_ge; [done|]. unfold len in Hoff. lia.
Qed.

Lemma get_metadata_spec (fs : filesystem) (filepath : string) content :
  fs !! filepath = Some content →
  ∃ m, MTSParser.get_metadata fs filepath = Ok m
       ∧ MTSParser.md_header m = header_of content
       ∧ MTSParser.nl_nodes (MTSParser.md_nodelist m)
         = utf8_decode_ignore <$> (nodelist_of content).1
       ∧ MTSParser.ds_offset (MTSParser.md_data_section m) = (nodelist_of content).2
       ∧ MTSParser.compressed_size (MTSParser.md_data_section m)
         = len content - (nodelist_of content).2
       ∧ MTSParser.uncompressed_size_estimate (MTSParser.md_data_section m)
         = MTSParser.volume (header_of content) * 4.
Proof.
  intros Hfile. unfold MTSParser.get_metadata.
  rewrite (parse_header_spec _ _ _ Hfile). cbn [mbind result_bind].
  rewrite (parse_yprobs_spec _ _ _ Hfile). cbn [mbind result_bind].
  rewrite (parse_nodelist_spec _ _ _ Hfile). cbn [mbind result_bind].
  unfold os_path_getsize. rewrite Hfile. cbn [mbind result_bind].
  eexists. split; [reflexivity|]. by cbn.
Qed.

Lemma extract_compressed_data_spec (fs : filesystem) (filepath : string) content :
  fs !! filepath = Some content →
  MTSParser.extract_compressed_data fs filepath None
  = Ok (drop (Z.to_nat (nodelist_of content).2) content, fs).
Proof.
  intros Hfile. unfold MTSParser.extract_compressed_data.
  destruct (get_metadata_spec _ _ _ Hfile) as (m & -> & _ & _ & Hoff & _).
  cbn [mbind result_bind]. rewrite Hoff.
  unfold open. rewrite Hfile. cbn [mbind result_bind].
  reflexivity.
Qed.

(** ** The validator on the content of a file *)

Lemma f_read_eq (n : Z) (f : file_obj) :
  0 ≤ n → 0 ≤ f_pos f →
  f_read n f = (take (Z.to_nat n) (f_rest f),
                FileObj (f_data f) (f_pos f + Z.min n (len (f_rest f)))).
Proof.
  intros Hn Hp. unfold f_read. rewrite (proj2 (Z.ltb_ge n 0)) by lia.
  fold (f_rest f). by rewrite len_take.
Qed.


Lemma when_append (c : bool) (v : violation) errs (md : gmap string mval) :
  (if c then errors_append v else pass) (errs, md)
  = (Ok (), (errs ++ (if c then [v] else []), md)).
Proof. destruct c; cbn; [done | by rewrite app_nil_r]. Qed.

Lemma run_bind {A B} (m : checker A) (k : A → checker B) st :
  (m ≫= k) st
  = match m st with
    | (Ok a, st') => k a st'
    | (Raise e, st') => (Raise e, st')
    end.
Proof. reflexivity. Qed.

Lemma run_call {A} (r : result A) st : call r st = (r, st).
Proof. reflexivity. Qed.

Lemma run_metadata_set key v errs (md : gmap string mval) :
  metadata_set key v (errs, md) = (Ok (), (errs, <[key := v]> md)).
Proof. reflexivity. Qed.

Lemma run_metadata_get errs (md : gmap string mval) :
  metadata_get (errs, md) = (Ok md, (errs, md)).
Proof. reflexivity. Qed.

Lemma run_errors_append v errs (md : gmap string mval) :
  errors_append v (errs, md) = (Ok (), (errs ++ [v], md)).
Proof. reflexivity. Qed.

Lemma run_mret {A} (a : A) (st : list violation * gmap string mval) :
  (mret a : checker A) st = (Ok a, st).
Proof. reflexivity. Qed.

Ltac run :=
  repeat first
    [ rewrite run_bind | rewrite run_call | rewrite run_metadata_set
    | rewrite run_metadata_get | rewrite when_append | rewrite run_errors_append
    | rewrite run_mret | progress cbn beta iota ].

Lemma take2_lookup (l : list byte) (n : nat) hi lo :
  take 2 (drop n l) = [hi; lo] → l !! n = Some hi ∧ l !! S n = Some lo.
Proof.
  intros Htwo.
  assert (H0 : take 2 (drop n l) !! 0%nat = Some hi) by by rewrite Htwo.
  assert (H1 : take 2 (drop n l) !! 1%nat = Some lo) by by rewrite Htwo.
  rewrite lookup_take_lt, lookup_drop in H0 by lia.
  rewrite lookup_take_lt, lookup_drop in H1 by lia.
  rewrite Nat.add_0_r in H0. rewrite Nat.add_1_r in H1. done.
Qed.

Lemma validate_try_spec (fs : filesystem) (filepath : string) content errs :
  fs !! filepath = Some content → 20 ≤ len content →
  validate_try fs filepath (len content) (errs, ∅)
  = (Ok (), (errs ++ check_signature content ++ check_version content
               ++ check_dimensions content ++ check_yprobs content
               ++ check_node_count content ++ check_compressed_size content,
             metadata_of content)).
Proof.
  intros Hfile Hlen.
  destruct content
    as [|b0 [|b1 [|b2 [|b3 [|b4 [|b5 [|b6 [|b7 [|b8 [|b9 [|b10 [|b11 rest]]]]]]]]]]]];
    try (exfalso; vm_compute in Hlen; by apply Hlen).
  set (content := b0 :: b1 :: b2 :: b3 :: b4 :: b5 :: b6 :: b7 :: b8 :: b9 :: b10 :: b11 :: rest) in *.
  assert (Hlr : len content = 12 + len rest) by (unfold content; rewrite !len_cons; lia).
  assert (Hhd : header_of content
    = {| MTSParser.signature := [b0; b1; b2; b3];
         MTSParser.signature_valid := bool_decide ([b0; b1; b2; b3] = MTSParser.MTSM);
         MTSParser.version := be16 b4 b5;
         MTSParser.width := be16 b6 b7;
         MTSParser.height := be16 b8 b9;
         MTSParser.length := be16 b10 b11;
         MTSParser.volume := be16 b6 b7 * be16 b8 b9 * be16 b10 b11;
         MTSParser.file_size := 12 |}).
  { unfold header_of. rewrite (bool_decide_true (6 ≤ _)) by lia.
    rewrite (bool_decide_true (12 ≤ _)) by lia. rewrite Z.min_l by lia. reflexivity. }
  unfold validate_try, open. rewrite Hfile.
  run.
  change (f_read 4 {| f_data := content; f_pos := 0 |})
    with ([b0; b1; b2; b3], FileObj content 4).
  run.
  change (f_read 2 {| f_data := content; f_pos := 4 |})
    with ([b4; b5], FileObj content 6).
  run.
  rewrite (bool_decide_false (len [b4; b5] ≠ 2)) by (intros HH; by apply HH).
  cbn [unpack_H]. run.
  change (f_read 6 {| f_data := content; f_pos := 6 |})
    with ([b6; b7; b8; b9; b10; b11], FileObj content 12).
  run.
  rewrite (bool_decide_false (len [b6; b7; b8; b9; b10; b11] ≠ 6)) by (intros HH; by apply HH).
  cbn [unpack_HHH]. run.
  pose proof (be16_range b6 b7) as Hw. pose proof (be16_range b8 b9) as Hh.
  pose proof (be16_range b10 b11) as Hl. pose proof (len_nonneg rest) as Hrest.
  rewrite (bool_decide_false (_ > 65535 ∨ _)) by lia. rewrite app_nil_r.
  unfold check_signature, check_version, check_dimensions, check_yprobs,
    check_node_count, check_compressed_size, metadata_of, compressed_data_size_of.
  rewrite Hhd. cbn [MTSParser.version MTSParser.width MTSParser.height
                    MTSParser.length MTSParser.volume].
  change (take 4 content) with [b0; b1; b2; b3].
  set (w := be16 b6 b7) in *. set (h := be16 b8 b9) in *. set (l := be16 b10 b11) in *.
  set (md0 := <["volume" := MInt (w * h * l)]> _).
  assert (Hdim : md0 !! "dimensions" = Some (MDims (w, h, l))) by done.
  rewrite bool_decide_true by (rewrite Hdim; eauto).
  unfold dimensions_1. rewrite Hdim. run.
  assert (Hrest_at : ∀ k, 0 ≤ k → f_rest (FileObj content (12 + k)) = drop (Z.to_nat k) rest).
  { intros k Hk. unfold f_rest. cbn [f_data f_pos].
    replace (Z.to_nat (12 + k)) with (12 + Z.to_nat k)%nat by lia.
    by rewrite <- drop_drop. }
  rewrite f_read_eq by (cbn [f_pos]; lia).
  change (f_rest {| f_data := content; f_pos := 12 |}) with rest.
  cbn [f_data f_pos]. run. rewrite len_take by lia.
  rewrite !(assoc_L (++) errs). rewrite !(assoc_L (++) (errs ++ _)).
  set (errs0 := (errs ++ _) ++ _) in *.
  assert (Hvol : ∀ (md : gmap string mval) v, md !! "volume" = Some v →
            (<["compressed_data_size" := MInt (len content - len content `min` (12 + h + 2))]> md)
              !! "volume" = Some v).
  { intros md v Hv. by rewrite lookup_insert_ne. }
  destruct (decide (len content < 12 + h)) as [Hshort|Hfull].
  - (* the y-probabilities are incomplete: nothing is left for the count *)
    rewrite (bool_decide_true (_ ≠ h)) by lia.
    rewrite (bool_decide_true (len content < 12 + h)) by lia.
    rewrite (bool_decide_true (len content < 12 + h + 2)) by lia.
    run. rewrite f_read_eq by (cbn [f_pos]; lia).
    rewrite Hrest_at by lia. cbn [f_data f_pos].
    rewrite drop_ge by (unfold len in *; lia).
    change (take (Z.to_nat 2) []) with (@nil byte). run.
    rewrite (bool_decide_true (len [] ≠ 2)) by done. run.
    unfold f_tell. cbn [f_pos]. change (len (@nil byte)) with 0.
    replace (12 + h `min` len rest + 2 `min` 0) with (len content `min` (12 + h + 2)) by lia.
    rewrite bool_decide_true by (erewrite Hvol; eauto).
    unfold metadata_volume. erewrite Hvol by done. run.
    rewrite <- !(assoc_L (++)). reflexivity.
  - rewrite (bool_decide_false (_ ≠ h)) by lia.
    rewrite (bool_decide_false (len content < 12 + h)) by lia.
    run. rewrite Z.min_l by lia.
    rewrite f_read_eq by (cbn [f_pos]; lia).
    rewrite Hrest_at by lia. cbn [f_data f_pos].
    rewrite len_take, len_drop by lia.
    replace (12 + h + 2 `min` (0 `max` (len rest - h))) with (len content `min` (12 + h + 2)) by lia.
    destruct (decide (len content < 12 + h + 2)) as [Hcut|Hcount].
    + rewrite (bool_decide_true (_ ≠ 2)) by lia.
      rewrite (bool_decide_true (len content < 12 + h + 2)) by lia.
      run. unfold f_tell. cbn [f_pos].
      rewrite bool_decide_true by (erewrite Hvol; eauto).
      unfold metadata_volume. erewrite Hvol by done. run.
      rewrite ?app_nil_r, <- !(assoc_L (++)). reflexivity.
    + rewrite (bool_decide_false (_ ≠ 2)) by lia.
      rewrite (bool_decide_false (len content < 12 + h + 2)) by lia.
      destruct (unpack_H_len2 (take (Z.to_nat 2) (drop (Z.to_nat h) rest)))
        as (hi & lo & Htwo & Hunpack).
      { rewrite len_take, len_drop by lia. lia. }
      run. rewrite Hunpack. run. unfold f_tell. cbn [f_pos].
      assert (Hu16 : u16_at content (Z.to_nat (12 + h)) = be16 hi lo).
      { destruct (take2_lookup _ _ _ _ Htwo) as [Hhi Hlo].
        unfold u16_at, byte_at.
        replace (Z.to_nat (12 + h)) with (12 + Z.to_nat h)%nat by lia.
        change (content !! (12 + Z.to_nat h)%nat) with (rest !! Z.to_nat h).
        change (content !! S (12 + Z.to_nat h)%nat) with (rest !! S (Z.to_nat h)).
        by rewrite Hhi, Hlo. }
      rewrite Hu16.
      rewrite bool_decide_true by (erewrite Hvol; eauto).
      unfold metadata_volume. erewrite Hvol by done. run.
      rewrite ?app_nil_r, <- !(assoc_L (++)). reflexivity.
Qed.

Lemma metadata_of_dimensions (content : list byte) :
  metadata_of content !! "dimensions"
  = Some (MDims (MTSParser.width (header_of content),
                 MTSParser.height (header_of content),
                 MTSParser.length (header_of content))).
Proof.
  unfold metadata_of. rewrite lookup_insert_ne by done.
  repeat case_bool_decide; by rewrite ?lookup_insert_ne by done.
Qed.

(** The metadata of a file of at least 20 bytes: the header fields and
    the size of the compressed data always, the length of the
    y-probabilities and the node count when they were read. *)
Lemma metadata_of_lookup (content : list byte) :
  let hd := header_of content in
  let h := MTSParser.height hd in
  metadata_of content !! "version" = Some (MInt (MTSParser.version hd))
  ∧ metadata_of content !! "volume" = Some (MInt (MTSParser.volume hd))
  ∧ metadata_of content !! "compressed_data_size"
    = Some (MInt (compressed_data_size_of content))
  ∧ metadata_of content !! "yprobs_length"
    = (if bool_decide (len content < 12 + h) then None else Some (MInt h))
  ∧ metadata_of content !! "node_count"
    = (if bool_decide (len content < 12 + h + 2) then None
       else Some (MInt (u16_at content (Z.to_nat (12 + h))))).
Proof.
  cbn zeta. unfold metadata_of.
  repeat case_bool_decide; split_and!; by simplify_map_eq.
Qed.

Lemma validate_file_missing (fs : filesystem) (filepath : string) :
  fs !! filepath = None →
  validate_file fs filepath = Ok (false, [FileDoesNotExist filepath], ∅).
Proof.
  intros Hfile. unfold validate_file, os_path_exists.
  rewrite bool_decide_false; [done|]. rewrite Hfile. by intros [? ?].
Qed.

Lemma validate_file_small (fs : filesystem) (filepath : string) content :
  fs !! filepath = Some content → len content < 20 →
  validate_file fs filepath = Ok (false, [FileTooSmall (len content)], ∅).
Proof.
  intros Hfile Hlen. unfold validate_file, os_path_exists, os_path_getsize.
  rewrite bool_decide_true by (rewrite Hfile; eauto). rewrite Hfile.
  cbn [negb mbind result_bind]. by rewrite bool_decide_true.
Qed.

Lemma validate_file_spec (fs : filesystem) (filepath : string) content :
  fs !! filepath = Some content → 20 ≤ len content →
  validate_file fs filepath
  = Ok (bool_decide (len (checks filepath content) = 0),
        checks filepath content, metadata_of content).
Proof.
  intros Hfile Hlen. unfold validate_file, os_path_exists, os_path_getsize.
  rewrite bool_decide_true by (rewrite Hfile; eauto). rewrite Hfile.
  cbn [negb mbind result_bind]. rewrite bool_decide_false by lia.
  replace (if negb (endswith (lower filepath) ".mts") then [] ++ [BadExtension] else [])
    with (check_extension filepath)
    by (unfold check_extension; by destruct (endswith _ _)).
  rewrite (validate_try_spec _ _ _ _ Hfile Hlen). fold (checks filepath content).
  destruct (decide (len (checks filepath content) = 0)) as [Hnone|Hsome].
  - rewrite !bool_decide_true by (try done; rewrite metadata_of_dimensions; eauto).
    cbn [andb]. unfold dimensions_1. rewrite metadata_of_dimensions.
    cbn [mbind result_bind].
    assert (Hcount : check_node_count content = []).
    { apply (f_equal Z.to_nat) in Hnone. unfold len in Hnone.
      rewrite Nat2Z.id in Hnone. apply length_zero_iff_nil in Hnone.
      unfold checks in Hnone.
      do 5 (apply app_eq_nil in Hnone as [_ Hnone]).
      by apply app_eq_nil in Hnone as [Hnone _]. }
    unfold check_node_count in Hcount. case_bool_decide as Hcut; [done|].
    cbn [mbind result_bind].
    by rewrite bool_decide_true.
  - rewrite (bool_decide_false (len _ = 0)) by done. cbn [andb mbind result_bind].
    by rewrite bool_decide_false.
Qed.

(** Every entry of the list of a file of at least 20 bytes comes from one
    of the seven checks. *)
Lemma checks_elem (v : violation) (filepath : string) content :
  v ∈ checks filepath content →
  v = BadExtension ∨ (∃ s, v = InvalidSignature s)
  ∨ (∃ n, v = UnsupportedVersion n) ∨ (∃ w h l, v = InvalidDimensions w h l)
  ∨ (∃ n, v = IncompleteYprobs n) ∨ v = CannotReadNodeCount
  ∨ (∃ n, v = CompressedDataTooLarge n).
Proof.
  unfold checks, check_extension, check_signature, check_version,
    check_dimensions, check_yprobs, check_node_count, check_compressed_size.
  rewrite !elem_of_app.
  intros [Hv|[Hv|[Hv|[Hv|[Hv|[Hv|Hv]]]]]];
    [destruct (endswith _ _) | case_bool_decide ..];
    (apply list_elem_of_singleton in Hv || by apply elem_of_nil in Hv);
    subst v; eauto 12.
Qed.

Ltac absurd_check Hv :=
  apply checks_elem in Hv;
  destruct Hv as [Hv|[[? Hv]|[[? Hv]|[(? & ? & ? & Hv)|[[? Hv]|[Hv|[? Hv]]]]]]];
  discriminate Hv.

Lemma validate_file_cases (fs : filesystem) (filepath : string) :
  validate_file fs filepath = Ok (false, [FileDoesNotExist filepath], ∅)
  ∨ (∃ n, validate_file fs filepath = Ok (false, [FileTooSmall n], ∅))
  ∨ (∃ content,
       fs !! filepath = Some content ∧ 20 ≤ len content
       ∧ validate_file fs filepath
         = Ok (bool_decide (len (checks filepath content) = 0),
               checks filepath content, metadata_of content)).
Proof.
  destruct (fs !! filepath) as [content|] eqn:Hfile.
  - destruct (decide (len content < 20)) as [Hsmall|Hsize].
    + right; left. eexists. by apply validate_file_small.
    + right; right. exists content. split; [done|]. split; [lia|].
      apply validate_file_spec; [done | lia].
  - left. by apply validate_file_missing.
Qed.

Lemma len_zero_nil {A} (l : list A) : len l = 0 ↔ l = [].
Proof.
  unfold len. split.
  - intros Hl. apply length_zero_iff_nil. lia.
  - by intros ->.
Qed.

(** ** Claims about [validate_file] *)

(** C1, as the code has it: [validate_file] always returns, and its
    verdict is true exactly when the list of violations is empty.  The code
    gives its messages no severity: the messages about the extension, the
    signature and the version, once in the list, make the verdict false as
    any other does. *)
Theorem validate_file_verdict (fs : filesystem) (filepath : string) :
  ∃ valid errors metadata,
    validate_file fs filepath = Ok (valid, errors, metadata)
    ∧ (valid = true ↔ errors = [])
    ∧ (BadExtension ∈ errors → valid = false)
    ∧ (∀ s, InvalidSignature s ∈ errors → valid = false)
    ∧ (∀ n, UnsupportedVersion n ∈ errors → valid = false).
Proof.
  assert (Hin : ∀ (v : violation) errors,
            v ∈ errors → bool_decide (len errors = 0) = false).
  { intros v errors Hv. apply bool_decide_eq_false. rewrite len_zero_nil.
    intros ->. by apply elem_of_nil in Hv. }
  destruct (validate_file_cases fs filepath)
    as [Hcase|[[n Hcase]|(content & _ & _ & Hcase)]]; rewrite Hcase.
  - exists false, [FileDoesNotExist filepath], ∅. split; [done|]. by repeat split.
  - exists false, [FileTooSmall n], ∅. split; [done|]. by repeat split.
  - eexists _, _, _. split; [reflexivity|].
    split; [|split_and!; intros; by eapply Hin].
    rewrite bool_decide_eq_true. apply len_zero_nil.
Qed.

(** C1 as stated fails: a well-formed file under a name that does not end
    in [.mts] gets the extension message alone, and the verdict is false. *)
Lemma validate_file_extension_invalid :
  validate_file {[ "house.schem" := air_4x2x4 ]} "house.schem"
  = Ok (false, [BadExtension], metadata_of air_4x2x4)
  ∧ validate_file {[ "house.mts" := air_4x2x4 ]} "house.mts"
    = Ok (true, [], metadata_of air_4x2x4).
Proof. split; vm_compute; reflexivity. Qed.

(** C7, as the code has it: a missing file and a file of fewer than 20
    bytes end the validation with that one violation and no metadata.  For
    every other file the seven checks from the extension to the compressed
    size all run, in this order, whatever the earlier ones recorded; the
    list is the concatenation of what each adds, and the metadata holds
    every field that was read.  The final truncation check is made only when
    the list is still empty, and it then adds nothing: its message never
    occurs, nor does the message of the exception handler. *)
Theorem validate_file_order (fs : filesystem) (filepath : string) :
  match fs !! filepath with
  | None =>
      validate_file fs filepath = Ok (false, [FileDoesNotExist filepath], ∅)
  | Some content =>
      if bool_decide (len content < 20)
      then validate_file fs filepath = Ok (false, [FileTooSmall (len content)], ∅)
      else
        ∃ valid errors,
          validate_file fs filepath = Ok (valid, errors, metadata_of content)
          ∧ errors = check_extension filepath ++ check_signature content
                     ++ check_version content ++ check_dimensions content
                     ++ check_yprobs content ++ check_node_count content
                     ++ check_compressed_size content
          ∧ (∀ size least, FileTruncated size least ∉ errors)
          ∧ (∀ e, ErrorReadingFile e ∉ errors)
  end.
Proof.
  destruct (fs !! filepath) as [content|] eqn:Hfile.
  - case_bool_decide as Hsize.
    + by apply validate_file_small.
    + eexists _, _. split; [apply validate_file_spec; [done | lia]|].
      split; [reflexivity|]. fold (checks filepath content).
      split; intros; intros Hv; absurd_check Hv.
  - by apply validate_file_missing.
Qed.

(** C7 as stated fails: this file of 20 bytes is shorter than the
    12 + 100 + 2 bytes its header implies and has a signature mismatch
    recorded, yet the truncation check adds nothing. *)
Lemma validate_file_no_truncation_message :
  len cut_XXXX < 12 + 100 + 2
  ∧ validate_file {[ "cut.mts" := cut_XXXX ]} "cut.mts"
    = Ok (false,
          [InvalidSignature (bytes_of_ascii "XXXX"); IncompleteYprobs 100;
           CannotReadNodeCount],
          metadata_of cut_XXXX).
Proof. split; [done | vm_compute; reflexivity]. Qed.

(** C10: no file makes [validate_file] report dimensions that are too
    large; the dimensions it stores are those of 2-byte fields and are at
    most 65535. *)
Theorem validate_file_dimensions_never_too_large
    (fs : filesystem) (filepath : string) :
  ∃ valid errors metadata,
    validate_file fs filepath = Ok (valid, errors, metadata)
    ∧ (∀ w h l, DimensionsTooLarge w h l ∉ errors)
    ∧ (∀ w h l, metadata !! "dimensions" = Some (MDims (w, h, l)) →
                0 ≤ w ≤ 65535 ∧ 0 ≤ h ≤ 65535 ∧ 0 ≤ l ≤ 65535).
Proof.
  destruct (validate_file_cases fs filepath)
    as [Hcase|[[n Hcase]|(content & _ & _ & Hcase)]]; rewrite Hcase.
  - eexists _, _, _. split; [reflexivity|]. split.
    + intros w h l Hv. apply list_elem_of_singleton in Hv. discriminate.
    + intros w h l Hd. by rewrite lookup_empty in Hd.
  - eexists _, _, _. split; [reflexivity|]. split.
    + intros w h l Hv. apply list_elem_of_singleton in Hv. discriminate.
    + intros w h l Hd. by rewrite lookup_empty in Hd.
  - eexists _, _, _. split; [reflexivity|]. split.
    + intros w h l Hv. absurd_check Hv.
    + intros w h l Hd. rewrite metadata_of_dimensions in Hd.
      injection Hd as <- <- <-.
      pose proof (header_of_ranges content) as (_ & Hw & Hh & Hl). done.
Qed.

(** ** The decoder on samples *)

(** What the decoder does with well-formed sequences, bytes that cannot
    start one, sequences cut short, overlong forms and surrogates. *)
Lemma utf8_decode_ignore_samples :
  utf8_decode_ignore [xff] = []
  ∧ utf8_decode_ignore [xc3] = []
  ∧ utf8_decode_ignore [xc3; "a"%byte] = [97]
  ∧ utf8_decode_ignore [xc3; xa9] = [233]
  ∧ utf8_decode_ignore [xe2; x82] = []
  ∧ utf8_decode_ignore [xe2; x82; "a"%byte] = [97]
  ∧ utf8_decode_ignore [xe2; x82; xac] = [8364]
  ∧ utf8_decode_ignore [xe2; x82; xc3; xa9] = [233]
  ∧ utf8_decode_ignore [xe0; x80; x80] = []
  ∧ utf8_decode_ignore [xed; xa0; x80] = []
  ∧ utf8_decode_ignore [xc0; x80] = []
  ∧ utf8_decode_ignore [xf0; x9f; x98] = []
  ∧ utf8_decode_ignore [xf0; x9f; x98; "a"%byte] = [97]
  ∧ utf8_decode_ignore [xf0; x9f; x98; x80] = [128512]
  ∧ utf8_decode_ignore [xf0; x80; x80; x80] = []
  ∧ utf8_decode_ignore [xf4; x90; x80; x80] = []
  ∧ utf8_decode_ignore [xf5; x80] = [].
Proof. vm_compute. repeat split. Qed.

Lemma utf8_encode_samples :
  utf8_encode (str_of_ascii "air") = Ok (bytes_of_ascii "air")
  ∧ utf8_encode [97; 233; 8364; 128512]
    = Ok ["a"%byte; xc3; xa9; xe2; x82; xac; xf0; x9f; x98; x80]
  ∧ utf8_encode [55296] = Raise (UnicodeEncodeError 55296).
Proof. vm_compute. repeat split. Qed.

(** ** Claims about the parser *)

(** C4: of a file of at least 12 bytes [parse_header] returns the version
    and the dimensions read as big-endian 16-bit integers at the offsets 4,
    6, 8 and 10, whatever the first four bytes are; these only decide
    [signature_valid]. *)
Theorem parse_header_layout (fs : filesystem) (filepath : string) content :
  fs !! filepath = Some content → 12 ≤ len content →
  ∃ hd, MTSParser.parse_header fs filepath = Ok hd
        ∧ MTSParser.version hd = u16_at content 4
        ∧ MTSParser.width hd = u16_at content 6
        ∧ MTSParser.height hd = u16_at content 8
        ∧ MTSParser.length hd = u16_at content 10
        ∧ MTSParser.volume hd
          = u16_at content 6 * u16_at content 8 * u16_at content 10
        ∧ MTSParser.signature hd = take 4 content
        ∧ (take 4 content ≠ MTSParser.MTSM → MTSParser.signature_valid hd = false)
        ∧ (take 4 content = MTSParser.MTSM → MTSParser.signature_valid hd = true).
Proof.
  intros Hfile Hlen. exists (header_of content).
  split; [by apply parse_header_spec|].
  unfold header_of. cbn.
  rewrite (bool_decide_true (6 ≤ _)) by lia.
  rewrite (bool_decide_true (12 ≤ _)) by lia.
  split_and!; try done.
  - intros. by apply bool_decide_eq_false.
  - intros. by apply bool_decide_eq_true.
Qed.

Lemma parse_header_layout_witness :
  ({[ "cut.mts" := cut_XXXX ]} : gmap string (list byte)) !! "cut.mts"
    = Some cut_XXXX
  ∧ 12 ≤ len cut_XXXX
  ∧ ∃ hd, MTSParser.parse_header {[ "cut.mts" := cut_XXXX ]} "cut.mts" = Ok hd
          ∧ MTSParser.version hd = u16_at cut_XXXX 4
          ∧ MTSParser.width hd = u16_at cut_XXXX 6
          ∧ MTSParser.height hd = u16_at cut_XXXX 8
          ∧ MTSParser.length hd = u16_at cut_XXXX 10
          ∧ MTSParser.volume hd
            = u16_at cut_XXXX 6 * u16_at cut_XXXX 8 * u16_at cut_XXXX 10
          ∧ MTSParser.signature hd = take 4 cut_XXXX
          ∧ (take 4 cut_XXXX ≠ MTSParser.MTSM
             → MTSParser.signature_valid hd = false)
          ∧ (take 4 cut_XXXX = MTSParser.MTSM
             → MTSParser.signature_valid hd = true).
Proof.
  split; [reflexivity|]. split; [by vm_compute|].
  apply (parse_header_layout {[ "cut.mts" := cut_XXXX ]} "cut.mts" cut_XXXX);
    [reflexivity | by vm_compute].
Defined.

(** C9: [parse_header] returns for every file that exists, however short;
    a version field that is not wholly there reads as 0, and so do the
    dimensions, and the volume with them. *)
Theorem parse_header_total (fs : filesystem) (filepath : string) content :
  fs !! filepath = Some content →
  ∃ hd, MTSParser.parse_header fs filepath = Ok hd
        ∧ (len content < 6 → MTSParser.version hd = 0)
        ∧ (len content < 12 →
           MTSParser.width hd = 0 ∧ MTSParser.height hd = 0
           ∧ MTSParser.length hd = 0 ∧ MTSParser.volume hd = 0).
Proof.
  intros Hfile. exists (header_of content).
  split; [by apply parse_header_spec|].
  unfold header_of. cbn. split.
  - intros Hshort. by rewrite bool_decide_false by lia.
  - intros Hshort. by rewrite (bool_decide_false (12 ≤ _)) by lia.
Qed.

Lemma parse_header_total_witness :
  ({[ "empty.mts" := [] ]} : gmap string (list byte)) !! "empty.mts" = Some []
  ∧ ∃ hd, MTSParser.parse_header {[ "empty.mts" := [] ]} "empty.mts" = Ok hd
          ∧ (len (@nil byte) < 6 → MTSParser.version hd = 0)
          ∧ (len (@nil byte) < 12 →
             MTSParser.width hd = 0 ∧ MTSParser.height hd = 0
             ∧ MTSParser.length hd = 0 ∧ MTSParser.volume hd = 0).
Proof.
  split; [reflexivity|].
  apply (parse_header_total {[ "empty.mts" := [] ]} "empty.mts" []).
  reflexivity.
Defined.

Lemma u16_bytes_be16 (hi lo : byte) : u16_bytes (be16 hi lo) = [hi; lo].
Proof.
  unfold u16_bytes, be16.
  pose proof (byte_val_range hi). pose proof (byte_val_range lo).
  replace ((byte_val hi * 256 + byte_val lo) `div` 256) with (byte_val hi)
    by (apply Z.div_unique with (byte_val lo); lia).
  replace ((byte_val hi * 256 + byte_val lo) `mod` 256) with (byte_val lo)
    by (apply Z.mod_unique with (byte_val hi); lia).
  by rewrite !byte_of_val.
Qed.

(** What [scan_entries] reads is a run of whole entries at the front of the
    buffer, and it stops before the count only at an entry that is cut. *)
Lemma scan_entries_sound (count : nat) :
  ∀ buf : list byte,
    ∃ tail, buf = entries (scan_entries count buf).1 ++ tail
            ∧ Forall (λ name, len name ≤ 65535) (scan_entries count buf).1
            ∧ (length (scan_entries count buf).1 ≤ count)%nat
            ∧ ((length (scan_entries count buf).1 < count)%nat
               → entry_truncated tail).
Proof.
  induction count as [|count IH]; intros buf; cbn [scan_entries].
  - exists buf. cbn. split_and!; [done | done | lia | lia].
  - destruct buf as [|hi [|lo rest]];
      [exists []; by split_and!; cbn; try lia
      |exists [hi]; by split_and!; cbn; try lia|].
    pose proof (be16_range hi lo) as Hn.
    case_bool_decide as Hfit.
    + destruct (IH (drop (Z.to_nat (be16 hi lo)) rest))
        as (tail & Hbuf & Hall & Hle & Hcut).
      destruct (scan_entries count (drop (Z.to_nat (be16 hi lo)) rest))
        as [names remaining]. cbn [fst snd] in *.
      exists tail. split_and!.
      * unfold entries. rewrite fmap_cons. cbn [mjoin list_join].
        fold (entries names). rewrite len_take by lia. rewrite Z.min_l by lia.
        rewrite u16_bytes_be16. rewrite <- !app_assoc.
        change (mjoin ((λ name : list byte, u16_bytes (len name) ++ name) <$> names))
          with (entries names).
        rewrite <- Hbuf, take_drop. reflexivity.
      * constructor; [|done]. rewrite len_take by lia. lia.
      * cbn [List.length]. lia.
      * cbn [List.length]. intros Hlt. apply Hcut. lia.
    + exists (hi :: lo :: rest). cbn [fst snd]. split_and!.
      * done.
      * constructor.
      * cbn [List.length]. lia.
      * intros _. cbn. lia.
Qed.

(** C5, as the code has it: the node count is read at offset 12 + height,
    then whole entries, each a 2-byte length and that many bytes, as many as
    the count says or until one is cut by the end of the file; the names of
    the entries read before that are returned.  Each name is decoded as
    UTF-8 with the handler [ignore]: bytes that are not UTF-8 are dropped
    from the name, nothing takes their place. *)
Theorem parse_nodelist_palette (fs : filesystem) (filepath : string) content :
  fs !! filepath = Some content →
  ∃ hd names pos,
    MTSParser.parse_header fs filepath = Ok hd
    ∧ MTSParser.parse_nodelist fs filepath
      = Ok (utf8_decode_ignore <$> names, pos)
    ∧ match drop (Z.to_nat (12 + MTSParser.height hd)) content with
      | hi :: lo :: body =>
          ∃ tail, body = entries names ++ tail
                  ∧ Forall (λ name, len name ≤ 65535) names
                  ∧ len names ≤ be16 hi lo
                  ∧ (len names < be16 hi lo → entry_truncated tail)
      | _ => names = []
      end.
Proof.
  intros Hfile.
  exists (header_of content), (nodelist_of content).1, (nodelist_of content).2.
  split; [by apply parse_header_spec|].
  split; [by apply parse_nodelist_spec|].
  unfold nodelist_of. fold (palette_offset content).
  destruct (drop _ content) as [|hi [|lo body]]; [done..|].
  pose proof (be16_range hi lo) as Hn.
  destruct (scan_entries_sound (Z.to_nat (be16 hi lo)) body)
    as (tail & Hbody & Hall & Hle & Hcut).
  destruct (scan_entries _ body) as [names remaining]. cbn [fst snd] in *.
  exists tail. unfold len. split_and!; [done | done | lia |].
  intros Hlt. apply Hcut. lia.
Qed.

Lemma parse_nodelist_palette_witness :
  ({[ "house.mts" := air_4x2x4 ]} : gmap string (list byte)) !! "house.mts"
    = Some air_4x2x4
  ∧ ∃ hd names pos,
      MTSParser.parse_header {[ "house.mts" := air_4x2x4 ]} "house.mts" = Ok hd
      ∧ MTSParser.parse_nodelist {[ "house.mts" := air_4x2x4 ]} "house.mts"
        = Ok (utf8_decode_ignore <$> names, pos)
      ∧ match drop (Z.to_nat (12 + MTSParser.height hd)) air_4x2x4 with
        | hi :: lo :: body =>
            ∃ tail, body = entries names ++ tail
                    ∧ Forall (λ name, len name ≤ 65535) names
                    ∧ len names ≤ be16 hi lo
                    ∧ (len names < be16 hi lo → entry_truncated tail)
        | _ => names = []
        end.
Proof.
  split; [reflexivity|].
  apply (parse_nodelist_palette {[ "house.mts" := air_4x2x4 ]} "house.mts").
  reflexivity.
Defined.

(** C5 as stated fails on "replaced": the name bytes [FF 61] come out as
    the one letter [a]; no U+FFFD stands where the byte [FF] was. *)
Lemma parse_nodelist_drops_invalid_byte :
  (nodelist_of bad_name).1 = [[xff; "a"%byte]]
  ∧ MTSParser.parse_nodelist {[ "bad.mts" := bad_name ]} "bad.mts"
    = Ok ([str_of_ascii "a"], 19)
  ∧ str_of_ascii "a" ≠ replacement_character :: str_of_ascii "a".
Proof. split_and!; [by vm_compute | by vm_compute | by vm_compute]. Qed.

(** C6, as the code has it: [compressed_size] is the file size minus the
    offset where [parse_nodelist] stopped, with no clamping.  It is not
    negative when the file reaches the node list; when the file ends before
    offset 12 + height the offset is 12 + height all the same and the size
    is negative, by the number of bytes that are missing. *)
Theorem compressed_size_unclamped (fs : filesystem) (filepath : string) content :
  fs !! filepath = Some content →
  ∃ m nodes,
    MTSParser.get_metadata fs filepath = Ok m
    ∧ MTSParser.parse_header fs filepath = Ok (MTSParser.md_header m)
    ∧ let h := MTSParser.height (MTSParser.md_header m) in
      let section := MTSParser.md_data_section m in
      MTSParser.parse_nodelist fs filepath = Ok (nodes, MTSParser.ds_offset section)
      ∧ MTSParser.nl_nodes (MTSParser.md_nodelist m) = nodes
      ∧ MTSParser.compressed_size section
        = len content - MTSParser.ds_offset section
      ∧ (12 + h ≤ len content → 0 ≤ MTSParser.compressed_size section)
      ∧ (len content < 12 + h →
         MTSParser.ds_offset section = 12 + h
         ∧ MTSParser.compressed_size section = len content - (12 + h)
         ∧ MTSParser.compressed_size section < 0).
Proof.
  intros Hfile.
  destruct (get_metadata_spec _ _ _ Hfile)
    as (m & Hm & Hhd & Hnodes & Hoff & Hsize & _).
  exists m, (utf8_decode_ignore <$> (nodelist_of content).1).
  split; [done|]. split; [by rewrite Hhd; apply parse_header_spec|].
  cbn zeta. rewrite Hhd, Hoff, Hsize, Hnodes.
  fold (palette_offset content).
  split_and!; [by apply parse_nodelist_spec | done | done | |].
  - intros Hin. pose proof (nodelist_of_inside content Hin). lia.
  - intros Hout. rewrite (nodelist_of_outside content Hout). cbn [snd]. lia.
Qed.

Lemma compressed_size_unclamped_witness :
  ({[ "house.mts" := air_4x2x4 ]} : gmap string (list byte)) !! "house.mts"
    = Some air_4x2x4
  ∧ ∃ m nodes,
      MTSParser.get_metadata {[ "house.mts" := air_4x2x4 ]} "house.mts" = Ok m
      ∧ MTSParser.parse_header {[ "house.mts" := air_4x2x4 ]} "house.mts"
        = Ok (MTSParser.md_header m)
      ∧ let h := MTSParser.height (MTSParser.md_header m) in
        let section := MTSParser.md_data_section m in
        MTSParser.parse_nodelist {[ "house.mts" := air_4x2x4 ]} "house.mts"
        = Ok (nodes, MTSParser.ds_offset section)
        ∧ MTSParser.nl_nodes (MTSParser.md_nodelist m) = nodes
        ∧ MTSParser.compressed_size section
          = len air_4x2x4 - MTSParser.ds_offset section
        ∧ (12 + h ≤ len air_4x2x4 → 0 ≤ MTSParser.compressed_size section)
        ∧ (len air_4x2x4 < 12 + h →
           MTSParser.ds_offset section = 12 + h
           ∧ MTSParser.compressed_size section = len air_4x2x4 - (12 + h)
           ∧ MTSParser.compressed_size section < 0).
Proof.
  split; [reflexivity|].
  apply (compressed_size_unclamped {[ "house.mts" := air_4x2x4 ]} "house.mts").
  reflexivity.
Defined.

(** C6 as stated fails: for the file of 20 bytes that announces a height
    of 100 the offset is 112 and the size reported is -92, not 0. *)
Lemma compressed_size_negative :
  ∃ m, MTSParser.get_metadata {[ "cut.mts" := cut_XXXX ]} "cut.mts" = Ok m
       ∧ MTSParser.ds_offset (MTSParser.md_data_section m) = 112
       ∧ MTSParser.compressed_size (MTSParser.md_data_section m) = -92.
Proof. eexists. split; [by vm_compute|]. by vm_compute. Qed.

(** ** Claims about [check_corruption] *)



(** ** The layout of a document under the parser *)

Lemma u16_at_app_bytes (pre : list byte) (v : Z) (post : list byte) :
  0 ≤ v ≤ 65535 →
  u16_at (pre ++ u16_bytes v ++ post) (length pre) = v.
Proof.
  intros Hv. unfold u16_at, byte_at.
  rewrite (lookup_app_r pre _ (length pre)) by lia.
  rewrite (lookup_app_r pre _ (S (length pre))) by lia.
  replace (length pre - length pre)%nat with 0%nat by lia.
  replace (S (length pre) - length pre)%nat with 1%nat by lia.
  change (from_option byte_val 0 ((u16_bytes v ++ post) !! 0%nat) * 256
          + from_option byte_val 0 ((u16_bytes v ++ post) !! 1%nat))
    with (be16 (byte_of (v `div` 256)) (byte_of (v `mod` 256))).
  by apply be16_pack.
Qed.

Lemma len_document sig version width height length yprobs names bulk :
  len (document sig version width height length yprobs names bulk)
  = len sig + 8 + len yprobs + 2 + len (entries names) + len bulk.
Proof.
  unfold document. rewrite !len_app, !len_u16_bytes. lia.
Qed.

Lemma header_of_document sig version width height length yprobs names bulk :
  len sig = 4 →
  0 ≤ version ≤ 65535 → 0 ≤ width ≤ 65535 →
  0 ≤ height ≤ 65535 → 0 ≤ length ≤ 65535 →
  header_of (document sig version width height length yprobs names bulk)
  = {| MTSParser.signature := sig;
       MTSParser.signature_valid := bool_decide (sig = MTSParser.MTSM);
       MTSParser.version := version;
       MTSParser.width := width;
       MTSParser.height := height;
       MTSParser.length := length;
       MTSParser.volume := width * height * length;
       MTSParser.file_size := 12 |}.
Proof.
  intros Hsig Hv Hw Hh Hl.
  pose proof (len_document sig version width height length yprobs names bulk) as Hlen.
  pose proof (len_nonneg yprobs). pose proof (len_nonneg (entries names)).
  pose proof (len_nonneg bulk).
  unfold header_of.
  rewrite (bool_decide_true (6 ≤ _)) by lia.
  rewrite (bool_decide_true (12 ≤ _)) by lia.
  rewrite Z.min_l by lia.
  destruct sig as [|s0 [|s1 [|s2 [|s3 [|? ?]]]]];
    try (exfalso; rewrite ?len_cons in Hsig; pose proof (len_nonneg (A:=byte)) as Hn;
         try specialize (Hn l); change (len (@nil byte)) with 0 in Hsig; lia).
  unfold document at 1 2.
  change (take 4 ([s0; s1; s2; s3] ++ _)) with [s0; s1; s2; s3].
  assert (Hat : ∀ (pre : list byte) v post (n : nat),
            0 ≤ v ≤ 65535 → n = List.length pre →
            u16_at (pre ++ u16_bytes v ++ post) n = v).
  { intros pre v post n Hr ->. by apply u16_at_app_bytes. }
  f_equal.
  - by apply (Hat [s0; s1; s2; s3]).
  - unfold document. rewrite <- !app_assoc.
    by apply (Hat ([s0; s1; s2; s3] ++ u16_bytes version)).
  - unfold document. rewrite <- !app_assoc.
    rewrite !(app_assoc _ _ (u16_bytes height ++ _)), <- !app_assoc.
    apply (Hat ([s0; s1; s2; s3] ++ u16_bytes version ++ u16_bytes width)); [done|].
    reflexivity.
  - unfold document. rewrite <- !app_assoc.
    apply (Hat ([s0; s1; s2; s3] ++ u16_bytes version ++ u16_bytes width
                  ++ u16_bytes height)); [done | reflexivity].
  - f_equal; [f_equal|].
    + unfold document. rewrite <- !app_assoc.
      by apply (Hat ([s0; s1; s2; s3] ++ u16_bytes version)).
    + unfold document. rewrite <- !app_assoc.
      apply (Hat ([s0; s1; s2; s3] ++ u16_bytes version ++ u16_bytes width));
        [done | reflexivity].
    + unfold document. rewrite <- !app_assoc.
      apply (Hat ([s0; s1; s2; s3] ++ u16_bytes version ++ u16_bytes width
                    ++ u16_bytes height)); [done | reflexivity].
Qed.

Lemma document_split sig version width height lng yprobs names bulk :
  len sig = 4 →
  ∃ hdr, length hdr = 12%nat
         ∧ document sig version width height lng yprobs names bulk
           = hdr ++ yprobs ++ u16_bytes (len names) ++ entries names ++ bulk.
Proof.
  intros Hsig.
  exists (sig ++ u16_bytes version
          ++ u16_bytes width ++ u16_bytes height ++ u16_bytes lng).
  split.
  - rewrite !length_app. unfold len in Hsig. cbn. lia.
  - unfold document. by rewrite <- !app_assoc.
Qed.

Lemma scan_entries_entries (names : list (list byte)) (tail : list byte) :
  Forall (λ name, len name ≤ 65535) names →
  scan_entries (length names) (entries names ++ tail) = (names, tail).
Proof.
  induction 1 as [|name names Hname _ IH]; [done|].
  cbn [List.length scan_entries]. unfold entries. rewrite fmap_cons.
  cbn [mjoin list_join].
  change (mjoin ((λ name0 : list byte, u16_bytes (len name0) ++ name0) <$> names))
    with (entries names).
  unfold u16_bytes at 1. rewrite <- !app_assoc. cbn [app].
  pose proof (len_nonneg name). pose proof (len_nonneg (entries names ++ tail)).
  rewrite be16_pack by lia.
  rewrite bool_decide_true by (rewrite len_app; lia).
  unfold len at 1 2. rewrite Nat2Z.id.
  rewrite drop_app_length, take_app_length, IH. reflexivity.
Qed.

Lemma nodelist_of_document sig version width height lng yprobs names bulk :
  len sig = 4 →
  0 ≤ version ≤ 65535 → 0 ≤ width ≤ 65535 →
  0 ≤ height ≤ 65535 → 0 ≤ lng ≤ 65535 →
  len yprobs = height → len names ≤ 65535 →
  Forall (λ name, len name ≤ 65535) names →
  let doc := document sig version width height lng yprobs names bulk in
  nodelist_of doc = (names, len doc - len bulk)
  ∧ drop (Z.to_nat (len doc - len bulk)) doc = bulk.
Proof.
  intros Hsig Hv Hw Hh Hl Hyp Hcount Hnames doc.
  destruct (document_split sig version width height lng yprobs names bulk Hsig)
    as (hdr & Hhdr & Hdoc).
  assert (Hoff : palette_offset doc = 12 + len yprobs).
  { unfold palette_offset, doc. rewrite header_of_document by done. cbn. lia. }
  assert (Hlen : len doc = 12 + len yprobs + 2 + len (entries names) + len bulk).
  { unfold doc. rewrite len_document. lia. }
  pose proof (len_nonneg yprobs). pose proof (len_nonneg (entries names)).
  pose proof (len_nonneg bulk). pose proof (len_nonneg names).
  split.
  - unfold nodelist_of. rewrite Hoff. fold doc in Hdoc. rewrite Hdoc at 1.
    replace (Z.to_nat (12 + len yprobs)) with (length (hdr ++ yprobs))
      by (rewrite length_app; unfold len; lia).
    rewrite app_assoc, drop_app_length.
    unfold u16_bytes at 1. cbn [app]. rewrite be16_pack by lia.
    unfold len at 1. rewrite Nat2Z.id, scan_entries_entries by done.
    reflexivity.
  - fold doc in Hdoc. rewrite Hdoc at 2.
    replace (Z.to_nat (len doc - len bulk))
      with (length (hdr ++ yprobs ++ u16_bytes (len names) ++ entries names)).
    + rewrite !(app_assoc _ _ bulk), <- !app_assoc.
      rewrite !app_assoc. rewrite drop_app_length. reflexivity.
    + rewrite !length_app. unfold len in *. cbn [u16_bytes List.length]. lia.
Qed.

(** What the parser makes of a document in the layout. *)
Lemma parse_document (fs : filesystem) (filepath : string)
    sig version width height lng yprobs names bulk :
  len sig = 4 →
  0 ≤ version ≤ 65535 → 0 ≤ width ≤ 65535 →
  0 ≤ height ≤ 65535 → 0 ≤ lng ≤ 65535 →
  len yprobs = height → len names ≤ 65535 →
  Forall (λ name, len name ≤ 65535) names →
  let doc := document sig version width height lng yprobs names bulk in
  fs !! filepath = Some doc →
  MTSParser.parse_header fs filepath
  = Ok {| MTSParser.signature := sig;
          MTSParser.signature_valid := bool_decide (sig = MTSParser.MTSM);
          MTSParser.version := version;
          MTSParser.width := width;
          MTSParser.height := height;
          MTSParser.length := lng;
          MTSParser.volume := width * height * lng;
          MTSParser.file_size := 12 |}
  ∧ MTSParser.parse_yprobs fs filepath = Ok (byte_val <$> yprobs, 12 + height)
  ∧ MTSParser.parse_nodelist fs filepath
    = Ok (utf8_decode_ignore <$> names, len doc - len bulk)
  ∧ MTSParser.extract_compressed_data fs filepath None = Ok (bulk, fs).
Proof.
  intros Hsig Hv Hw Hh Hl Hyp Hcount Hnames doc Hfile.
  destruct (nodelist_of_document sig version width height lng yprobs names bulk)
    as [Hnodes Hbulk]; try done. fold doc in Hnodes, Hbulk.
  assert (Hhd : header_of doc
    = {| MTSParser.signature := sig;
         MTSParser.signature_valid := bool_decide (sig = MTSParser.MTSM);
         MTSParser.version := version;
         MTSParser.width := width;
         MTSParser.height := height;
         MTSParser.length := lng;
         MTSParser.volume := width * height * lng;
         MTSParser.file_size := 12 |})
    by by apply header_of_document.
  split_and!.
  - by rewrite (parse_header_spec _ _ _ Hfile), Hhd.
  - rewrite (parse_yprobs_spec _ _ _ Hfile). rewrite Hhd. cbn [MTSParser.height].
    destruct (document_split sig version width height lng yprobs names bulk Hsig)
      as (hdr & Hhdr & Hdoc).
    fold doc in Hdoc. rewrite Hdoc.
    replace 12%nat with (List.length hdr). rewrite drop_app_length.
    replace (Z.to_nat height) with (List.length yprobs) by (unfold len in Hyp; lia).
    rewrite take_app_length. rewrite bool_decide_true by done. by rewrite Hyp.
  - rewrite (parse_nodelist_spec _ _ _ Hfile). by rewrite Hnodes.
  - rewrite (extract_compressed_data_spec _ _ _ Hfile), Hnodes. cbn [snd].
    by rewrite Hbulk.
Qed.

(** ** The generators *)

Lemma mjoin_replicate_singleton {A} (n : nat) (x : A) :
  mjoin (replicate n [x]) = replicate n x.
Proof. induction n as [|n IH]; [done|]. simpl. by rewrite IH. Qed.

Lemma mjoin_replicate_pair {A} (n : nat) (x : A) :
  mjoin (replicate n [x; x]) = replicate (2 * n) x.
Proof.
  induction n as [|n IH]; [done|].
  replace (2 * S n)%nat with (S (S (2 * n))) by lia.
  change (mjoin (replicate (S n) [x; x])) with (x :: x :: mjoin (replicate n [x; x])).
  rewrite IH. reflexivity.
Qed.

Lemma zero_payload_planes (volume : Z) :
  (([] ++ bytes_mul [x00; x00] volume) ++ bytes_mul [x00] volume)
    ++ bytes_mul [x00] volume
  = zero_payload volume.
Proof.
  rewrite <- !app_assoc. unfold bytes_mul, zero_payload.
  rewrite mjoin_replicate_pair, mjoin_replicate_singleton. cbn [app].
  rewrite <- !replicate_add. f_equal. lia.
Qed.

Lemma len_zero_payload (volume : Z) :
  0 ≤ volume → len (zero_payload volume) = volume * 4.
Proof. intros Hv. unfold zero_payload. rewrite len_replicate. lia. Qed.

Lemma yprobs_bytes (height : Z) :
  MTSGenerator.bytes_of_list (MTSGenerator.list_mul [127] height)
  = Ok (replicate (Z.to_nat height) x7f).
Proof.
  unfold MTSGenerator.list_mul. rewrite mjoin_replicate_singleton.
  induction (Z.to_nat height) as [|n IH]; [done|].
  cbn [replicate MTSGenerator.bytes_of_list]. rewrite bool_decide_true by lia.
  rewrite IH. reflexivity.
Qed.

Lemma pack_H_inv (v : Z) (packed : list byte) :
  pack_H v = Ok packed → 0 ≤ v ≤ 65535 ∧ packed = u16_bytes v.
Proof.
  unfold pack_H. case_bool_decide; [|by case_bool_decide]. by intros [= <-].
Qed.

Lemma pack_HHH_inv (a b c : Z) (packed : list byte) :
  pack_HHH a b c = Ok packed →
  0 ≤ a ≤ 65535 ∧ 0 ≤ b ≤ 65535 ∧ 0 ≤ c ≤ 65535
  ∧ packed = u16_bytes a ++ u16_bytes b ++ u16_bytes c.
Proof.
  unfold pack_HHH.
  destruct (pack_H a) as [x|] eqn:Ha; [|done].
  destruct (pack_H b) as [y|] eqn:Hb; [|done].
  destruct (pack_H c) as [z|] eqn:Hc; [|done].
  apply pack_H_inv in Ha as [? ->]. apply pack_H_inv in Hb as [? ->].
  apply pack_H_inv in Hc as [? ->]. cbn [mbind result_bind]. by intros [= <-].
Qed.

Lemma create_empty_schematic_spec `{!Zlib} (width height lng version : Z) :
  1 ≤ width ≤ 65535 → 1 ≤ height ≤ 65535 → 1 ≤ lng ≤ 65535 →
  0 ≤ version ≤ 65535 →
  MTSGenerator.create_empty_schematic width height lng version
  = Ok (document MTSParser.MTSM version width height lng
          (replicate (Z.to_nat height) x7f) [bytes_of_ascii "air"]
          (zlib_compress 9 (zero_payload (width * height * lng)))).
Proof.
  intros Hw Hh Hl Hv. unfold MTSGenerator.create_empty_schematic.
  rewrite !bool_decide_false by lia.
  unfold pack_HHH. rewrite !pack_H_ok by lia. cbn [mbind result_bind].
  rewrite yprobs_bytes. cbn [mbind result_bind].
  rewrite zero_payload_planes. f_equal.
  unfold document, entries. rewrite <- !app_assoc. reflexivity.
Qed.

(** The node list as [write_nodes] writes it. *)
Lemma write_nodes_spec (nodes : list (list Z)) :
  ∀ output output' : list byte,
    MTSGenerator.write_nodes nodes output = Ok output' →
    ∃ names, Forall2 (λ node name, utf8_encode node = Ok name) nodes names
             ∧ Forall (λ name, len name ≤ 65535) names
             ∧ output' = output ++ entries names.
Proof.
  induction nodes as [|node nodes IH]; intros output output' Hw; cbn in Hw.
  - injection Hw as <-. exists []. split_and!; [constructor.. |].
    by rewrite app_nil_r.
  - destruct (utf8_encode node) as [name|] eqn:Hname; [|done].
    cbn [mbind result_bind] in Hw.
    destruct (pack_H (len name)) as [packed|] eqn:Hpack; [|done].
    cbn [mbind result_bind] in Hw.
    apply pack_H_inv in Hpack as [Hlen ->].
    destruct (IH _ _ Hw) as (names & Hall & Hlens & ->).
    exists (name :: names). split_and!.
    + by constructor.
    + constructor; [lia | done].
    + unfold entries. rewrite fmap_cons. cbn [mjoin list_join].
      by rewrite <- !app_assoc.
Qed.

Lemma create_from_template_spec `{!Zlib} (t : MTSGenerator.template) doc :
  MTSGenerator.create_from_template t = Ok doc →
  let '(width, height, lng) := default (1, 1, 1) (MTSGenerator.t_dimensions t) in
  ∃ names,
    Forall2 (λ node name, utf8_encode node = Ok name)
      (default [str_of_ascii "air"] (MTSGenerator.t_nodes t)) names
    ∧ Forall (λ name, len name ≤ 65535) names
    ∧ len names ≤ 65535
    ∧ 0 ≤ width ≤ 65535 ∧ 0 ≤ height ≤ 65535 ∧ 0 ≤ lng ≤ 65535
    ∧ doc = document MTSParser.MTSM 4 width height lng
              (replicate (Z.to_nat height) x7f) names
              (zlib_compress 6
                 match default [] (MTSGenerator.t_data t) with
                 | [] => zero_payload (width * height * lng)
                 | _ :: _ => []
                 end).
Proof.
  unfold MTSGenerator.create_from_template.
  destruct (default (1, 1, 1) (MTSGenerator.t_dimensions t)) as [[width height] lng].
  rewrite (pack_H_ok 4) by lia. cbn [mbind result_bind].
  destruct (pack_HHH width height lng) as [dims|] eqn:Hdims; [|done].
  apply pack_HHH_inv in Hdims as (Hw & Hh & Hl & ->).
  cbn [mbind result_bind]. rewrite yprobs_bytes. cbn [mbind result_bind].
  destruct (pack_H (len (default _ (MTSGenerator.t_nodes t)))) as [count|] eqn:Hcount;
    [|done].
  apply pack_H_inv in Hcount as [Hn ->]. cbn [mbind result_bind].
  destruct (MTSGenerator.write_nodes _ _) as [output|] eqn:Hnodes; [|done].
  cbn [mbind result_bind]. intros [= <-].
  destruct (write_nodes_spec _ _ _ Hnodes) as (names & Hall & Hlens & ->).
  exists names. split_and!; try done; try lia.
  - apply Forall2_length in Hall. unfold len in *. lia.
  - apply Forall2_length in Hall. unfold document.
    replace (len names) with (len (default [str_of_ascii "air"] (MTSGenerator.t_nodes t)))
      by (unfold len; lia).
    pose proof (zero_payload_planes (width * height * lng)) as Hzero.
    cbn [app] in Hzero. rewrite Hzero.
    rewrite <- !app_assoc. reflexivity.
Qed.

Lemma node_indices_zero (n m : nat) :
  (2 * n ≤ m)%nat → u16_values n (replicate m x00) = replicate n 0.
Proof.
  revert m. induction n as [|n IH]; intros m Hm; [done|].
  destruct m as [|[|m]]; [lia..|].
  cbn [replicate u16_values]. rewrite IH by lia. reflexivity.
Qed.

(** ** Claims about the generators *)

(** C3: for dimensions from 1 to 65535 [create_empty_schematic] returns a
    document that the parser reads back: the same dimensions and their
    product as volume, version 4, a valid signature, the y-probabilities all
    127, the palette ["air"], and bulk data that decompress to four zero
    bytes per voxel, every node index 0. *)
Theorem create_empty_schematic_round_trip `{!Zlib}
    (fs : filesystem) (filepath : string) (width height lng : Z) :
  1 ≤ width ≤ 65535 → 1 ≤ height ≤ 65535 → 1 ≤ lng ≤ 65535 →
  ∃ doc,
    MTSGenerator.create_empty_schematic width height lng
      MTSGenerator.default_version = Ok doc
    ∧ let fs' := <[filepath := doc]> fs in
      let volume := width * height * lng in
      (∃ hd, MTSParser.parse_header fs' filepath = Ok hd
             ∧ MTSParser.signature_valid hd = true
             ∧ MTSParser.version hd = 4
             ∧ MTSParser.width hd = width
             ∧ MTSParser.height hd = height
             ∧ MTSParser.length hd = lng
             ∧ MTSParser.volume hd = volume)
      ∧ (∃ pos, MTSParser.parse_yprobs fs' filepath
                = Ok (replicate (Z.to_nat height) 127, pos))
      ∧ (∃ pos, MTSParser.parse_nodelist fs' filepath
                = Ok ([str_of_ascii "air"], pos))
      ∧ (∃ compressed payload,
           MTSParser.extract_compressed_data fs' filepath None
           = Ok (compressed, fs')
           ∧ MTSParser.decompress_bulk_data compressed = Some payload
           ∧ payload = replicate (Z.to_nat (4 * volume)) x00
           ∧ len payload = volume * 4
           ∧ node_indices volume payload = replicate (Z.to_nat volume) 0).
Proof.
  intros Hw Hh Hl. eexists. split.
  { apply create_empty_schematic_spec; unfold MTSGenerator.default_version; lia. }
  cbn zeta.
  set (bulk := zlib_compress 9 (zero_payload (width * height * lng))).
  destruct (parse_document (<[filepath := document MTSParser.MTSM
               MTSGenerator.default_version width height lng
               (replicate (Z.to_nat height) x7f) [bytes_of_ascii "air"] bulk]> fs)
             filepath MTSParser.MTSM MTSGenerator.default_version width height lng
             (replicate (Z.to_nat height) x7f) [bytes_of_ascii "air"] bulk)
    as (Hhd & Hyp & Hnodes & Hbulk);
    try (unfold MTSGenerator.default_version; lia); try done.
  { rewrite len_replicate. lia. }
  { by repeat constructor. }
  { by rewrite lookup_insert_eq. }
  assert (0 ≤ width * height * lng) by nia.
  split_and!.
  - eexists. split; [exact Hhd|]. by cbn.
  - eexists. rewrite Hyp. by rewrite fmap_replicate.
  - eexists. exact Hnodes.
  - exists bulk, (zero_payload (width * height * lng)). split_and!.
    + exact Hbulk.
    + apply zlib_decompress_compress.
    + reflexivity.
    + by apply len_zero_payload.
    + apply node_indices_zero. lia.
Qed.

(** The scenario of C3: [create_empty_schematic(4, 2, 4)], run with the
    storing codec, decodes to 4x2x4, volume 32, palette ["air"] and 32 node
    indices 0. *)
Lemma create_empty_schematic_round_trip_witness :
  1 ≤ 4 ≤ 65535 ∧ 1 ≤ 2 ≤ 65535 ∧ 1 ≤ 4 ≤ 65535
  ∧ ∃ doc,
      @MTSGenerator.create_empty_schematic stored_zlib 4 2 4
        MTSGenerator.default_version = Ok doc
      ∧ let fs' : gmap string (list byte) := <["air.mts" := doc]> ∅ in
        let volume := 4 * 2 * 4 in
        (∃ hd, MTSParser.parse_header fs' "air.mts" = Ok hd
               ∧ MTSParser.signature_valid hd = true
               ∧ MTSParser.version hd = 4
               ∧ MTSParser.width hd = 4
               ∧ MTSParser.height hd = 2
               ∧ MTSParser.length hd = 4
               ∧ MTSParser.volume hd = volume)
        ∧ (∃ pos, MTSParser.parse_yprobs fs' "air.mts"
                  = Ok (replicate (Z.to_nat 2) 127, pos))
        ∧ (∃ pos, MTSParser.parse_nodelist fs' "air.mts"
                  = Ok ([str_of_ascii "air"], pos))
        ∧ (∃ compressed payload,
             MTSParser.extract_compressed_data fs' "air.mts" None
             = Ok (compressed, fs')
             ∧ @MTSParser.decompress_bulk_data stored_zlib compressed
               = Some payload
             ∧ payload = replicate (Z.to_nat (4 * volume)) x00
             ∧ len payload = volume * 4
             ∧ node_indices volume payload = replicate (Z.to_nat volume) 0).
Proof.
  split; [lia|]. split; [lia|]. split; [lia|].
  apply (@create_empty_schematic_round_trip stored_zlib ∅ "air.mts" 4 2 4); lia.
Defined.

(** C2 on the code: the bulk data of every document that
    [create_from_template] returns decompress, and to [volume * 4] bytes
    when the template has no voxel data; when it has some, the branch that
    should write them writes nothing, and the payload is empty whatever the
    volume. *)
Theorem create_from_template_payload `{!Zlib}
    (fs : filesystem) (filepath : string) (t : MTSGenerator.template) doc :
  MTSGenerator.create_from_template t = Ok doc →
  let '(width, height, lng) := default (1, 1, 1) (MTSGenerator.t_dimensions t) in
  let fs' := <[filepath := doc]> fs in
  ∃ compressed payload,
    MTSParser.extract_compressed_data fs' filepath None = Ok (compressed, fs')
    ∧ MTSParser.decompress_bulk_data compressed = Some payload
    ∧ len payload
      = match default [] (MTSGenerator.t_data t) with
        | [] => width * height * lng * 4
        | _ :: _ => 0
        end.
Proof.
  intros Hdoc. pose proof (create_from_template_spec t doc Hdoc) as Hspec.
  destruct (default (1, 1, 1) (MTSGenerator.t_dimensions t)) as [[width height] lng].
  destruct Hspec as (names & _ & Hlens & Hcount & Hw & Hh & Hl & ->).
  cbn zeta.
  set (payload := match default [] (MTSGenerator.t_data t) with
                  | [] => zero_payload (width * height * lng)
                  | _ :: _ => []
                  end).
  destruct (parse_document (<[filepath := document MTSParser.MTSM 4 width height lng
               (replicate (Z.to_nat height) x7f) names (zlib_compress 6 payload)]> fs)
             filepath MTSParser.MTSM 4 width height lng
             (replicate (Z.to_nat height) x7f) names (zlib_compress 6 payload))
    as (_ & _ & _ & Hbulk); try done; try lia.
  { rewrite len_replicate. lia. }
  { by rewrite lookup_insert_eq. }
  exists (zlib_compress 6 payload), payload. split_and!.
  - exact Hbulk.
  - apply zlib_decompress_compress.
  - unfold payload. destruct (default [] (MTSGenerator.t_data t)); [|done].
    apply len_zero_payload. nia.
Qed.

(** C2 at a template with voxel data: one voxel, 1x1x1, and the payload of
    the document is empty, not 4 bytes. *)
Lemma create_from_template_payload_witness :
  let t := {| MTSGenerator.t_dimensions := Some (1, 1, 1);
              MTSGenerator.t_nodes := Some [str_of_ascii "air"];
              MTSGenerator.t_data := Some [(0, 0, 0)] |} in
  let doc := bytes_of_ascii "MTSM" ++ [x00; x04]
             ++ [x00; x01; x00; x01; x00; x01] ++ [x7f]
             ++ [x00; x01; x00; x03] ++ bytes_of_ascii "air"
             ++ [x78; x01] in
  let fs' : gmap string (list byte) := <["one.mts" := doc]> ∅ in
  @MTSGenerator.create_from_template stored_zlib t = Ok doc
  ∧ ∃ compressed payload,
      MTSParser.extract_compressed_data fs' "one.mts" None = Ok (compressed, fs')
      ∧ @MTSParser.decompress_bulk_data stored_zlib compressed = Some payload
      ∧ len payload = 0.
Proof.
  cbn zeta. split; [reflexivity|].
  exact (@create_from_template_payload stored_zlib ∅ "one.mts"
           {| MTSGenerator.t_dimensions := Some (1, 1, 1);
              MTSGenerator.t_nodes := Some [str_of_ascii "air"];
              MTSGenerator.t_data := Some [(0, 0, 0)] |} _ eq_refl).
Defined.

(** * Further properties of the code *)

(** ** The parser *)

Lemma parse_yprobs_full (fs : filesystem) (filepath : string) content :
  fs !! filepath = Some content →
  let h := MTSParser.height (header_of content) in
  let yprobs := byte_val <$> take (Z.to_nat h) (drop 12 content) in
  12 + h ≤ len content →
  MTSParser.parse_yprobs fs filepath = Ok (yprobs, 12 + h) ∧ len yprobs = h.
Proof.
  intros Hfile h yprobs Hfull.
  pose proof (header_of_ranges content) as (_ & _ & Hh & _). fold h in Hh.
  assert (Htake : len (take (Z.to_nat h) (drop 12 content)) = h).
  { rewrite len_take by lia. rewrite (len_drop 12) by lia. lia. }
  split.
  - rewrite (parse_yprobs_spec _ _ _ Hfile). fold h. rewrite Htake.
    by rewrite bool_decide_true.
  - unfold yprobs, len. rewrite length_fmap. exact Htake.
Qed.

(** X1: [parse_yprobs] returns all the y-probabilities or none.  When the
    file holds the [height] bytes that follow the header it returns them,
    each as a number from 0 to 255, and the position after them; when the
    file ends before, the list is empty, not the bytes that were there, and
    the position is the end of the file (12 for a file that ends inside the
    header). *)
Theorem parse_yprobs_all_or_nothing
    (fs : filesystem) (filepath : string) content :
  fs !! filepath = Some content →
  ∃ hd yprobs pos,
    MTSParser.parse_header fs filepath = Ok hd
    ∧ MTSParser.parse_yprobs fs filepath = Ok (yprobs, pos)
    ∧ (12 + MTSParser.height hd ≤ len content →
       yprobs = byte_val <$> take (Z.to_nat (MTSParser.height hd)) (drop 12 content)
       ∧ len yprobs = MTSParser.height hd
       ∧ pos = 12 + MTSParser.height hd)
    ∧ (len content < 12 + MTSParser.height hd →
       yprobs = [] ∧ pos = Z.max 12 (len content))
    ∧ Forall (λ p, 0 ≤ p ≤ 255) yprobs.
Proof.
  intros Hfile. exists (header_of content). eexists _, _.
  split; [by apply parse_header_spec|].
  split; [by apply parse_yprobs_spec|].
  pose proof (header_of_ranges content) as (_ & _ & Hh & _).
  set (h := MTSParser.height (header_of content)) in *.
  assert (Htake : len (take (Z.to_nat h) (drop 12 content))
                  = Z.min h (Z.max 0 (len content - 12))).
  { rewrite len_take by lia. f_equal. apply (len_drop 12). lia. }
  rewrite Htake. split_and!.
  - intros Hfull. rewrite bool_decide_true by lia.
    split_and!; [done | | lia].
    unfold len. rewrite length_fmap. fold (len (take (Z.to_nat h) (drop 12 content))).
    rewrite Htake. lia.
  - intros Hshort. split; [|lia]. case_bool_decide as Heq; [|done].
    replace h with 0 by lia. reflexivity.
  - case_bool_decide; [|constructor].
    apply Forall_fmap, Forall_forall. intros b _. apply byte_val_range.
Qed.

Lemma parse_yprobs_all_or_nothing_witness :
  ({[ "cut.mts" := cut_XXXX ]} : gmap string (list byte)) !! "cut.mts"
    = Some cut_XXXX
  ∧ ∃ hd yprobs pos,
      MTSParser.parse_header {[ "cut.mts" := cut_XXXX ]} "cut.mts" = Ok hd
      ∧ MTSParser.parse_yprobs {[ "cut.mts" := cut_XXXX ]} "cut.mts"
        = Ok (yprobs, pos)
      ∧ (12 + MTSParser.height hd ≤ len cut_XXXX →
         yprobs = byte_val <$> take (Z.to_nat (MTSParser.height hd)) (drop 12 cut_XXXX)
         ∧ len yprobs = MTSParser.height hd
         ∧ pos = 12 + MTSParser.height hd)
      ∧ (len cut_XXXX < 12 + MTSParser.height hd →
         yprobs = [] ∧ pos = Z.max 12 (len cut_XXXX))
      ∧ Forall (λ p, 0 ≤ p ≤ 255) yprobs.
Proof.
  split; [reflexivity|].
  apply (parse_yprobs_all_or_nothing {[ "cut.mts" := cut_XXXX ]} "cut.mts").
  reflexivity.
Defined.

(** X2: on a path that does not exist every function of the parser raises
    [FileNotFoundError]; the validator does not raise, it returns the
    verdict false with the one violation, and so does the corruption check
    in both modes. *)
Theorem missing_file_behaviour `{!Zlib} (fs : filesystem) (filepath : string) :
  fs !! filepath = None →
  MTSParser.parse_header fs filepath = Raise (FileNotFoundError filepath)
  ∧ MTSParser.parse_yprobs fs filepath = Raise (FileNotFoundError filepath)
  ∧ MTSParser.parse_nodelist fs filepath = Raise (FileNotFoundError filepath)
  ∧ MTSParser.get_metadata fs filepath = Raise (FileNotFoundError filepath)
  ∧ (∀ out, MTSParser.extract_compressed_data fs filepath out
            = Raise (FileNotFoundError filepath))
  ∧ validate_file fs filepath = Ok (false, [FileDoesNotExist filepath], ∅)
  ∧ (∀ quick, check_corruption fs filepath quick
              = Ok (false, "File invalid: File does not exist: " +:+ filepath)).
Proof.
  intros Hfile.
  assert (Hhd : MTSParser.parse_header fs filepath = Raise (FileNotFoundError filepath)).
  { unfold MTSParser.parse_header, open. by rewrite Hfile. }
  assert (Hmd : MTSParser.get_metadata fs filepath = Raise (FileNotFoundError filepath)).
  { unfold MTSParser.get_metadata. by rewrite Hhd. }
  split_and!; try done.
  - unfold MTSParser.parse_yprobs. by rewrite Hhd.
  - unfold MTSParser.parse_nodelist. by rewrite Hhd.
  - intros out. unfold MTSParser.extract_compressed_data. by rewrite Hmd.
  - by apply validate_file_missing.
  - intros quick. unfold check_corruption.
    by rewrite (validate_file_missing _ _ Hfile).
Qed.

Lemma missing_file_behaviour_witness :
  (∅ : gmap string (list byte)) !! "nowhere.mts" = None
  ∧ MTSParser.get_metadata ∅ "nowhere.mts"
    = Raise (FileNotFoundError "nowhere.mts")
  ∧ @check_corruption stored_zlib ∅ "nowhere.mts" false
    = Ok (false, "File invalid: File does not exist: nowhere.mts").
Proof.
  split; [reflexivity|].
  pose proof (@missing_file_behaviour stored_zlib ∅ "nowhere.mts" eq_refl)
    as (_ & _ & _ & Hmd & _ & _ & Hcheck).
  split; [exact Hmd | exact (Hcheck false)].
Defined.

(** X3: [parse_header] puts under ['file_size'] the position after the
    header, not the size of the file: it is the file size only for files of
    at most 12 bytes, and 12 for all others. *)
Theorem parse_header_file_size (fs : filesystem) (filepath : string) content :
  fs !! filepath = Some content →
  ∃ hd, MTSParser.parse_header fs filepath = Ok hd
        ∧ os_path_getsize fs filepath = Ok (len content)
        ∧ MTSParser.file_size hd = Z.min 12 (len content).
Proof.
  intros Hfile. exists (header_of content).
  split; [by apply parse_header_spec|].
  split; [|done]. unfold os_path_getsize. by rewrite Hfile.
Qed.

Lemma parse_header_file_size_witness :
  ({[ "house.mts" := air_4x2x4 ]} : gmap string (list byte)) !! "house.mts"
    = Some air_4x2x4
  ∧ ∃ hd, MTSParser.parse_header {[ "house.mts" := air_4x2x4 ]} "house.mts" = Ok hd
          ∧ os_path_getsize {[ "house.mts" := air_4x2x4 ]} "house.mts"
            = Ok (len air_4x2x4)
          ∧ MTSParser.file_size hd = Z.min 12 (len air_4x2x4).
Proof.
  split; [reflexivity|].
  apply (parse_header_file_size {[ "house.mts" := air_4x2x4 ]} "house.mts").
  reflexivity.
Defined.

(** X4: [extract_compressed_data] returns the file from the offset that
    [get_metadata] reports to its end: the bytes before the offset followed
    by the bytes returned are the file, and their number is
    [compressed_size], or none when that is negative.  With an output path
    the same bytes are returned and stored under that path, and nothing else
    changes; with the empty path nothing is stored. *)
Theorem extract_compressed_data_suffix
    (fs : filesystem) (filepath : string) content :
  fs !! filepath = Some content →
  ∃ m data,
    MTSParser.get_metadata fs filepath = Ok m
    ∧ MTSParser.extract_compressed_data fs filepath None = Ok (data, fs)
    ∧ (let section := MTSParser.md_data_section m in
       len data = Z.max 0 (MTSParser.compressed_size section)
       ∧ take (Z.to_nat (MTSParser.ds_offset section)) content ++ data = content)
    ∧ MTSParser.extract_compressed_data fs filepath (Some "") = Ok (data, fs)
    ∧ (∀ out, out ≠ "" →
         MTSParser.extract_compressed_data fs filepath (Some out)
         = Ok (data, <[out := data]> fs)).
Proof.
  intros Hfile.
  destruct (get_metadata_spec _ _ _ Hfile) as (m & Hm & _ & _ & Hoff & Hsize & _).
  exists m, (drop (Z.to_nat (nodelist_of content).2) content).
  split; [done|]. split; [by apply extract_compressed_data_spec|].
  assert (Hpos : 0 ≤ (nodelist_of content).2).
  { pose proof (palette_offset_range content).
    destruct (decide (palette_offset content ≤ len content)) as [Hin|Hout].
    - pose proof (nodelist_of_inside content Hin). lia.
    - rewrite nodelist_of_outside by lia. cbn [snd]. lia. }
  split_and!.
  - cbn zeta. rewrite Hoff, Hsize. split.
    + by rewrite len_drop.
    + apply take_drop.
  - unfold MTSParser.extract_compressed_data. rewrite Hm.
    cbn [mbind result_bind]. rewrite Hoff. unfold open. rewrite Hfile.
    cbn [mbind result_bind]. reflexivity.
  - intros out Hout. unfold MTSParser.extract_compressed_data. rewrite Hm.
    cbn [mbind result_bind]. rewrite Hoff. unfold open. rewrite Hfile.
    cbn [mbind result_bind]. unfold f_read_all. 
    change (f_read (-1) (f_seek (nodelist_of content).2 (FileObj content 0))).1
      with (drop (Z.to_nat (nodelist_of content).2) content).
    by rewrite bool_decide_false.
Qed.

Lemma extract_compressed_data_suffix_witness :
  ({[ "house.mts" := air_4x2x4 ]} : gmap string (list byte)) !! "house.mts"
    = Some air_4x2x4
  ∧ ∃ data,
      MTSParser.extract_compressed_data {[ "house.mts" := air_4x2x4 ]}
        "house.mts" None
      = Ok (data, {[ "house.mts" := air_4x2x4 ]})
      ∧ len data = 12
      ∧ MTSParser.extract_compressed_data {[ "house.mts" := air_4x2x4 ]}
          "house.mts" (Some "bulk.bin")
        = Ok (data, <["bulk.bin" := data]> {[ "house.mts" := air_4x2x4 ]}).
Proof.
  assert (Hfile : ({[ "house.mts" := air_4x2x4 ]} : gmap string (list byte))
                    !! "house.mts" = Some air_4x2x4) by reflexivity.
  split; [exact Hfile|].
  destruct (extract_compressed_data_suffix {[ "house.mts" := air_4x2x4 ]}
              "house.mts" air_4x2x4 Hfile)
    as (m & data & Hm & Hdata & [Hlen _] & _ & Hout).
  exists data. split; [exact Hdata|]. split.
  - injection Hdata as <-. reflexivity.
  - apply Hout. discriminate.
Defined.

(** ** The validator *)

Lemma header_of_fields (content : list byte) :
  12 ≤ len content →
  MTSParser.version (header_of content) = u16_at content 4
  ∧ MTSParser.width (header_of content) = u16_at content 6
  ∧ MTSParser.height (header_of content) = u16_at content 8
  ∧ MTSParser.length (header_of content) = u16_at content 10
  ∧ MTSParser.volume (header_of content)
    = u16_at content 6 * u16_at content 8 * u16_at content 10.
Proof.
  intros Hlen. unfold header_of. cbn.
  rewrite (bool_decide_true (6 ≤ _)) by lia.
  by rewrite (bool_decide_true (12 ≤ _)) by lia.
Qed.

Lemma check_nil_iff (b : bool) (v : violation) :
  (if b then [v] else []) = [] ↔ b = false.
Proof. by destruct b. Qed.

Lemma checks_nil_iff (filepath : string) (content : list byte) :
  12 ≤ len content →
  checks filepath content = [] ↔
    endswith (lower filepath) ".mts" = true
    ∧ take 4 content = MTSParser.MTSM
    ∧ u16_at content 4 ∈ [3; 4; 5]
    ∧ 0 < u16_at content 6 ∧ 0 < u16_at content 8 ∧ 0 < u16_at content 10
    ∧ 12 + u16_at content 8 + 2 ≤ len content
    ∧ len content - (12 + u16_at content 8 + 2)
      ≤ u16_at content 6 * u16_at content 8 * u16_at content 10 * 4 * 2.
Proof.
  intros Hlen.
  destruct (header_of_fields content Hlen) as (Hv & Hw & Hh & Hl & Hvol).
  pose proof (header_of_ranges content) as (_ & Hwr & Hhr & Hlr).
  rewrite Hw, Hh, Hl in *.
  unfold checks, check_extension, check_signature, check_version,
    check_dimensions, check_yprobs, check_node_count, check_compressed_size,
    compressed_data_size_of.
  cbn zeta. rewrite Hv, Hw, Hh, Hl, Hvol. rewrite !app_nil.
  rewrite !check_nil_iff, !bool_decide_eq_false.
  destruct (endswith (lower filepath) ".mts"); split.
  - intros (_ & Hsig & Hver & Hdim & Hyp & Hcount & Hsize).
    split_and!; try done; try lia.
    + by apply dec_stable.
    + by apply dec_stable.
  - intros (_ & Hsig & Hver & Hw' & Hh' & Hl' & Hcount & Hsize).
    split_and!; try done; try lia; by intros Hnot.
  - by intros [[=] _].
  - by intros [[=] _].
Qed.

Lemma validate_file_valid_inv (fs : filesystem) (filepath : string)
    errors metadata :
  validate_file fs filepath = Ok (true, errors, metadata) →
  ∃ content, fs !! filepath = Some content ∧ 20 ≤ len content
             ∧ checks filepath content = [].
Proof.
  intros Hvalid.
  destruct (validate_file_cases fs filepath)
    as [Hcase|[[n Hcase]|(content & Hfile & Hlen & Hcase)]];
    rewrite Hcase in Hvalid; try done.
  injection Hvalid as Hverdict _ _.
  apply bool_decide_eq_true, len_zero_nil in Hverdict. by exists content.
Qed.

(** X5: what a verdict of validity means.  [validate_file] accepts a file
    exactly when it exists, has at least 20 bytes and a name that ends in
    [.mts] (in any case), begins with [MTSM], has a version 3, 4 or 5 and
    three dimensions that are not zero, is long enough for the
    y-probabilities and the node count, and after the node count has at most
    [volume * 8] bytes.  Nothing of the palette or of the compressed data is
    examined. *)
Theorem validate_file_valid_iff (fs : filesystem) (filepath : string) :
  (∃ errors metadata, validate_file fs filepath = Ok (true, errors, metadata))
  ↔ ∃ content,
      fs !! filepath = Some content ∧ 20 ≤ len content
      ∧ endswith (lower filepath) ".mts" = true
      ∧ take 4 content = MTSParser.MTSM
      ∧ u16_at content 4 ∈ [3; 4; 5]
      ∧ 0 < u16_at content 6 ∧ 0 < u16_at content 8 ∧ 0 < u16_at content 10
      ∧ 12 + u16_at content 8 + 2 ≤ len content
      ∧ len content - (12 + u16_at content 8 + 2)
        ≤ u16_at content 6 * u16_at content 8 * u16_at content 10 * 4 * 2.
Proof.
  split.
  - intros (errors & metadata & Hvalid).
    destruct (validate_file_valid_inv _ _ _ _ Hvalid)
      as (content & Hfile & Hlen & Hnone).
    exists content. split; [done|]. split; [done|].
    apply checks_nil_iff; [lia | done].
  - intros (content & Hfile & Hlen & Hconds).
    apply checks_nil_iff in Hconds; [|lia].
    eexists _, _. rewrite (validate_file_spec _ _ _ Hfile Hlen).
    rewrite Hconds. reflexivity.
Qed.

Lemma scan_entries_remaining (count : nat) :
  ∀ buf : list byte, len (scan_entries count buf).2 ≤ len buf.
Proof.
  induction count as [|count IH]; intros buf; cbn [scan_entries snd]; [lia|].
  destruct buf as [|hi [|lo rest]]; cbn [snd];
    [done | rewrite !len_cons; change (len (@nil byte)) with 0; lia |].
  pose proof (be16_range hi lo). pose proof (len_nonneg rest).
  rewrite !len_cons.
  case_bool_decide; cbn [snd].
  - specialize (IH (drop (Z.to_nat (be16 hi lo)) rest)).
    destruct (scan_entries count _) as [names remaining]; cbn [snd] in *.
    rewrite len_drop in IH by lia. lia.
  - change (len (@nil byte)) with 0. lia.
Qed.

(** Where [parse_nodelist] stops: never before the node count field, as far
    as the file goes. *)
Lemma nodelist_of_lower (content : list byte) :
  Z.min (len content) (palette_offset content + 2) ≤ (nodelist_of content).2.
Proof.
  unfold nodelist_of.
  pose proof (palette_offset_range content) as Hrange.
  pose proof (len_drop (palette_offset content) content ltac:(lia)) as Hdrop.
  destruct (drop _ content) as [|hi [|lo rest]] eqn:Hrest; cbn [snd].
  - change (len (@nil byte)) with 0 in Hdrop. lia.
  - lia.
  - rewrite !len_cons in Hdrop.
    pose proof (scan_entries_remaining (Z.to_nat (be16 hi lo)) rest) as Hrem.
    destruct (scan_entries _ rest) as [names remaining]; cbn [snd] in *.
    pose proof (len_nonneg remaining). pose proof (len_nonneg rest). lia.
Qed.

(** X6: on a file of at least 20 bytes the validator and the parser read
    the same header: the version, the dimensions and the volume that
    [validate_file] stores are those of [parse_header], and the signature
    violation is recorded exactly when [parse_header] finds the signature
    not valid. *)
Theorem validate_file_agrees_with_parse_header
    (fs : filesystem) (filepath : string) content :
  fs !! filepath = Some content → 20 ≤ len content →
  ∃ valid errors metadata hd,
    validate_file fs filepath = Ok (valid, errors, metadata)
    ∧ MTSParser.parse_header fs filepath = Ok hd
    ∧ metadata !! "version" = Some (MInt (MTSParser.version hd))
    ∧ metadata !! "dimensions"
      = Some (MDims (MTSParser.width hd, MTSParser.height hd, MTSParser.length hd))
    ∧ metadata !! "volume" = Some (MInt (MTSParser.volume hd))
    ∧ (InvalidSignature (MTSParser.signature hd) ∈ errors
       ↔ MTSParser.signature_valid hd = false).
Proof.
  intros Hfile Hlen. eexists _, _, _, (header_of content).
  split; [by apply validate_file_spec|].
  split; [by apply parse_header_spec|].
  destruct (metadata_of_lookup content) as (Hmversion & Hmvolume & _).
  split_and!; [done | apply metadata_of_dimensions | done |].
  cbn [header_of MTSParser.signature MTSParser.signature_valid].
  rewrite bool_decide_eq_false. split.
  - intros Hin Heq. revert Hin.
    unfold checks, check_extension, check_signature, check_version,
      check_dimensions, check_yprobs, check_node_count, check_compressed_size.
    rewrite !elem_of_app.
    intros [Hv|[Hv|[Hv|[Hv|[Hv|[Hv|Hv]]]]]];
      [destruct (endswith _ _) | case_bool_decide ..];
      (apply list_elem_of_singleton in Hv || by apply elem_of_nil in Hv);
      done.
  - intros Hne. unfold checks, check_signature.
    rewrite bool_decide_true by done. rewrite !elem_of_app.
    right; left. by apply list_elem_of_singleton.
Qed.

Lemma validate_file_agrees_with_parse_header_witness :
  ({[ "cut.mts" := cut_XXXX ]} : gmap string (list byte)) !! "cut.mts"
    = Some cut_XXXX
  ∧ 20 ≤ len cut_XXXX
  ∧ ∃ valid errors metadata hd,
      validate_file {[ "cut.mts" := cut_XXXX ]} "cut.mts"
      = Ok (valid, errors, metadata)
      ∧ MTSParser.parse_header {[ "cut.mts" := cut_XXXX ]} "cut.mts" = Ok hd
      ∧ metadata !! "version" = Some (MInt (MTSParser.version hd))
      ∧ metadata !! "dimensions"
        = Some (MDims (MTSParser.width hd, MTSParser.height hd,
                       MTSParser.length hd))
      ∧ metadata !! "volume" = Some (MInt (MTSParser.volume hd))
      ∧ (InvalidSignature (MTSParser.signature hd) ∈ errors
         ↔ MTSParser.signature_valid hd = false).
Proof.
  split; [reflexivity|]. split; [by vm_compute|].
  apply (validate_file_agrees_with_parse_header
           {[ "cut.mts" := cut_XXXX ]} "cut.mts" cut_XXXX);
    [reflexivity | by vm_compute].
Defined.

(** X7: the two sizes of the compressed data.  The validator counts from
    the end of the node count field and stores a size that is never
    negative; the parser counts from the end of the palette entries it could
    read, and its size is never the larger one: the validator takes the
    palette entries for compressed data. *)
Theorem compressed_sizes_compared
    (fs : filesystem) (filepath : string) content :
  fs !! filepath = Some content → 20 ≤ len content →
  ∃ valid errors metadata m,
    validate_file fs filepath = Ok (valid, errors, metadata)
    ∧ MTSParser.get_metadata fs filepath = Ok m
    ∧ let h := MTSParser.height (MTSParser.md_header m) in
      let of_validator := Z.max 0 (len content - (12 + h + 2)) in
      let of_parser := MTSParser.compressed_size (MTSParser.md_data_section m) in
      metadata !! "compressed_data_size" = Some (MInt of_validator)
      ∧ of_parser ≤ of_validator.
Proof.
  intros Hfile Hlen.
  destruct (get_metadata_spec _ _ _ Hfile) as (m & Hm & Hhd & _ & _ & Hsize & _).
  eexists _, _, _, m.
  split; [by apply validate_file_spec|]. split; [done|].
  cbn zeta. rewrite Hhd, Hsize.
  destruct (metadata_of_lookup content) as (_ & _ & -> & _).
  unfold compressed_data_size_of.
  pose proof (nodelist_of_lower content) as Hlow. unfold palette_offset in Hlow.
  split; [do 2 f_equal; lia | lia].
Qed.

Lemma compressed_sizes_compared_witness :
  ({[ "house.mts" := air_4x2x4 ]} : gmap string (list byte)) !! "house.mts"
    = Some air_4x2x4
  ∧ 20 ≤ len air_4x2x4
  ∧ ∃ valid errors metadata m,
      validate_file {[ "house.mts" := air_4x2x4 ]} "house.mts"
      = Ok (valid, errors, metadata)
      ∧ MTSParser.get_metadata {[ "house.mts" := air_4x2x4 ]} "house.mts" = Ok m
      ∧ let h := MTSParser.height (MTSParser.md_header m) in
        let of_validator := Z.max 0 (len air_4x2x4 - (12 + h + 2)) in
        let of_parser := MTSParser.compressed_size (MTSParser.md_data_section m) in
        metadata !! "compressed_data_size" = Some (MInt of_validator)
        ∧ of_parser ≤ of_validator.
Proof.
  split; [reflexivity|]. split; [by vm_compute|].
  apply (compressed_sizes_compared {[ "house.mts" := air_4x2x4 ]} "house.mts"
           air_4x2x4); [reflexivity | by vm_compute].
Defined.

(** X8: what a verdict of validity promises to the parser.  Of a file that
    [validate_file] accepts, [parse_yprobs] returns all [height] values,
    [parse_nodelist] finds the node count field, and the compressed size
    that [get_metadata] reports is not negative. *)
Theorem valid_file_parses
    (fs : filesystem) (filepath : string) errors metadata :
  validate_file fs filepath = Ok (true, errors, metadata) →
  ∃ hd yprobs m,
    MTSParser.parse_header fs filepath = Ok hd
    ∧ MTSParser.signature_valid hd = true
    ∧ 0 < MTSParser.volume hd
    ∧ MTSParser.parse_yprobs fs filepath = Ok (yprobs, 12 + MTSParser.height hd)
    ∧ len yprobs = MTSParser.height hd
    ∧ MTSParser.get_metadata fs filepath = Ok m
    ∧ 12 + MTSParser.height hd + 2
      ≤ MTSParser.ds_offset (MTSParser.md_data_section m)
    ∧ 0 ≤ MTSParser.compressed_size (MTSParser.md_data_section m).
Proof.
  intros Hvalid.
  destruct (validate_file_valid_inv _ _ _ _ Hvalid)
    as (content & Hfile & Hlen & Hnone).
  apply checks_nil_iff in Hnone
    as (_ & Hsig & _ & Hw & Hh & Hl & Hcount & _); [|lia].
  destruct (header_of_fields content ltac:(lia)) as (_ & Hw' & Hh' & Hl' & Hvol).
  destruct (parse_yprobs_full _ _ _ Hfile) as [Hyp Hlenyp]; [lia|].
  destruct (get_metadata_spec _ _ _ Hfile) as (m & Hm & _ & _ & Hoff & Hsize & _).
  eexists (header_of content), _, m.
  split; [by apply parse_header_spec|].
  pose proof (nodelist_of_lower content) as Hlow.
  pose proof (nodelist_of_inside content) as Hin. unfold palette_offset in *.
  split_and!; try done.
  - cbn. by apply bool_decide_eq_true.
  - rewrite Hvol. nia.
  - rewrite Hoff. lia.
  - rewrite Hsize. lia.
Qed.

Lemma valid_file_parses_witness :
  validate_file {[ "house.mts" := air_4x2x4 ]} "house.mts"
  = Ok (true, [], metadata_of air_4x2x4)
  ∧ ∃ hd yprobs m,
      MTSParser.parse_header {[ "house.mts" := air_4x2x4 ]} "house.mts" = Ok hd
      ∧ MTSParser.signature_valid hd = true
      ∧ 0 < MTSParser.volume hd
      ∧ MTSParser.parse_yprobs {[ "house.mts" := air_4x2x4 ]} "house.mts"
        = Ok (yprobs, 12 + MTSParser.height hd)
      ∧ len yprobs = MTSParser.height hd
      ∧ MTSParser.get_metadata {[ "house.mts" := air_4x2x4 ]} "house.mts" = Ok m
      ∧ 12 + MTSParser.height hd + 2
        ≤ MTSParser.ds_offset (MTSParser.md_data_section m)
      ∧ 0 ≤ MTSParser.compressed_size (MTSParser.md_data_section m).
Proof.
  assert (Hvalid : validate_file {[ "house.mts" := air_4x2x4 ]} "house.mts"
                   = Ok (true, [], metadata_of air_4x2x4))
    by (vm_compute; reflexivity).
  split; [exact Hvalid|].
  exact (valid_file_parses _ _ _ _ Hvalid).
Defined.

(** ** The generators *)

(** X9: how [create_empty_schematic] ends.  A dimension that is not
    positive gives [ValueError("Dimensions must be positive")], whatever
    the others are; otherwise a dimension above 65535 gives
    [ValueError("Dimensions cannot exceed 65535")]; otherwise a version
    outside 0..65535 gives [struct.error]; otherwise a document is
    returned, of 19 + height bytes and the compressed payload. *)
Theorem create_empty_schematic_outcome `{!Zlib} (width height lng version : Z) :
  (width ≤ 0 ∨ height ≤ 0 ∨ lng ≤ 0 →
   MTSGenerator.create_empty_schematic width height lng version
   = Raise (ValueError "Dimensions must be positive"))
  ∧ (0 < width ∧ 0 < height ∧ 0 < lng →
     width > 65535 ∨ height > 65535 ∨ lng > 65535 →
     MTSGenerator.create_empty_schematic width height lng version
     = Raise (ValueError "Dimensions cannot exceed 65535"))
  ∧ (1 ≤ width ≤ 65535 ∧ 1 ≤ height ≤ 65535 ∧ 1 ≤ lng ≤ 65535 →
     ¬ 0 ≤ version ≤ 65535 →
     ∃ msg, MTSGenerator.create_empty_schematic width height lng version
            = Raise (struct_error msg))
  ∧ (1 ≤ width ≤ 65535 ∧ 1 ≤ height ≤ 65535 ∧ 1 ≤ lng ≤ 65535 →
     0 ≤ version ≤ 65535 →
     ∃ doc,
       MTSGenerator.create_empty_schematic width height lng version = Ok doc
       ∧ len doc
         = 19 + height
           + len (zlib_compress 9 (zero_payload (width * height * lng)))).
Proof.
  split_and!.
  - intros Hneg. unfold MTSGenerator.create_empty_schematic.
    by rewrite bool_decide_true.
  - intros Hpos Hbig. unfold MTSGenerator.create_empty_schematic.
    rewrite bool_decide_false by lia. by rewrite bool_decide_true.
  - intros Hdims Hversion. unfold MTSGenerator.create_empty_schematic.
    rewrite !bool_decide_false by lia.
    assert (Hpack : ∃ msg, pack_H version = Raise (struct_error msg)).
    { unfold pack_H. rewrite bool_decide_false by done.
      case_bool_decide; eauto. }
    destruct Hpack as [msg Hpack]. exists msg. by rewrite Hpack.
  - intros (Hw & Hh & Hl) Hversion. eexists.
    split; [by apply create_empty_schematic_spec|].
    rewrite len_document, len_replicate.
    change (len MTSParser.MTSM) with 4.
    change (len (entries [bytes_of_ascii "air"])) with 5. lia.
Qed.

(** X10: the bytes of the document of [create_empty_schematic]: the
    signature, the version and the three dimensions big-endian on two bytes
    each, [height] bytes 127, the count 1, the length 3 and the name [air],
    then the zlib stream, at level 9, of [4 * volume] zero bytes. *)
Theorem create_empty_schematic_layout `{!Zlib} (width height lng version : Z) :
  1 ≤ width ≤ 65535 → 1 ≤ height ≤ 65535 → 1 ≤ lng ≤ 65535 →
  0 ≤ version ≤ 65535 →
  MTSGenerator.create_empty_schematic width height lng version
  = Ok (bytes_of_ascii "MTSM"
        ++ u16_bytes version
        ++ u16_bytes width ++ u16_bytes height ++ u16_bytes lng
        ++ replicate (Z.to_nat height) x7f
        ++ u16_bytes 1 ++ u16_bytes 3 ++ bytes_of_ascii "air"
        ++ zlib_compress 9 (replicate (Z.to_nat (4 * (width * height * lng))) x00)).
Proof.
  intros Hw Hh Hl Hv. rewrite create_empty_schematic_spec by done.
  unfold document, entries, zero_payload. cbn [fmap list_fmap mjoin list_join].
  by rewrite <- !app_assoc.
Qed.

Lemma create_empty_schematic_layout_witness :
  1 ≤ 4 ≤ 65535 ∧ 1 ≤ 2 ≤ 65535 ∧ 1 ≤ 4 ≤ 65535 ∧ 0 ≤ 4 ≤ 65535
  ∧ @MTSGenerator.create_empty_schematic stored_zlib 4 2 4 4
    = Ok (bytes_of_ascii "MTSM"
          ++ u16_bytes 4
          ++ u16_bytes 4 ++ u16_bytes 2 ++ u16_bytes 4
          ++ replicate (Z.to_nat 2) x7f
          ++ u16_bytes 1 ++ u16_bytes 3 ++ bytes_of_ascii "air"
          ++ stored_compress 9 (replicate (Z.to_nat (4 * (4 * 2 * 4))) x00)).
Proof.
  split; [lia|]. split; [lia|]. split; [lia|]. split; [lia|].
  apply (@create_empty_schematic_layout stored_zlib 4 2 4 4); lia.
Defined.

(** The checks of the validator on a document in the layout whose
    y-probabilities are complete. *)
Lemma checks_document (filepath : string)
    sig version width height lng yprobs names bulk :
  len sig = 4 →
  0 ≤ version ≤ 65535 → 0 ≤ width ≤ 65535 →
  0 ≤ height ≤ 65535 → 0 ≤ lng ≤ 65535 →
  len yprobs = height →
  let doc := document sig version width height lng yprobs names bulk in
  let size := len (entries names) + len bulk in
  checks filepath doc
  = check_extension filepath
    ++ (if bool_decide (sig ≠ MTSParser.MTSM) then [InvalidSignature sig] else [])
    ++ (if bool_decide (version ∉ [3; 4; 5])
        then [UnsupportedVersion version] else [])
    ++ (if bool_decide (width = 0 ∨ height = 0 ∨ lng = 0)
        then [InvalidDimensions width height lng] else [])
    ++ (if bool_decide (size > width * height * lng * 4 * 2)
        then [CompressedDataTooLarge size] else []).
Proof.
  intros Hsig Hv Hw Hh Hl Hyp doc size.
  assert (Hhd : header_of doc = _)
    by (apply (header_of_document sig version width height lng yprobs names bulk);
        done).
  assert (Hlen : len doc = 14 + height + size).
  { unfold doc, size. rewrite len_document. lia. }
  assert (0 ≤ size).
  { unfold size. pose proof (len_nonneg (entries names)).
    pose proof (len_nonneg bulk). lia. }
  assert (Htake : take 4 doc = sig).
  { unfold doc, document.
    replace 4%nat with (List.length sig) by (unfold len in Hsig; lia).
    apply take_app_length. }
  unfold checks, check_signature, check_version, check_dimensions, check_yprobs,
    check_node_count, check_compressed_size, compressed_data_size_of.
  rewrite Hhd, Htake, Hlen. cbn [MTSParser.version MTSParser.width MTSParser.height
    MTSParser.length MTSParser.volume].
  rewrite (bool_decide_false (_ < 12 + height)) by lia.
  rewrite (bool_decide_false (_ < 12 + height + 2)) by lia.
  rewrite Z.min_r by lia.
  replace (14 + height + size - (12 + height + 2)) with size by lia.
  reflexivity.
Qed.

(** X11: the validator on the document of [create_empty_schematic].  The
    signature, the dimensions, the y-probabilities and the node count pass;
    what can be reported is the extension of the name it is stored under, a
    version other than 3, 4 and 5, and the size: the validator counts the 5
    bytes of the palette entry with the compressed payload and rejects the
    document when they exceed [volume * 8] together.  A schematic of one
    voxel is rejected as soon as its compressed payload has 4 bytes. *)
Theorem validate_file_of_empty_schematic `{!Zlib}
    (fs : filesystem) (filepath : string) (width height lng version : Z) :
  1 ≤ width ≤ 65535 → 1 ≤ height ≤ 65535 → 1 ≤ lng ≤ 65535 →
  0 ≤ version ≤ 65535 →
  ∃ doc valid errors metadata,
    MTSGenerator.create_empty_schematic width height lng version = Ok doc
    ∧ validate_file (<[filepath := doc]> fs) filepath
      = Ok (valid, errors, metadata)
    ∧ (let size :=
         5 + len (zlib_compress 9 (zero_payload (width * height * lng))) in
       errors
       = (if endswith (lower filepath) ".mts" then [] else [BadExtension])
         ++ (if bool_decide (version ∉ [3; 4; 5])
             then [UnsupportedVersion version] else [])
         ++ (if bool_decide (size > width * height * lng * 8)
             then [CompressedDataTooLarge size] else []))
    ∧ (valid = true ↔ errors = []).
Proof.
  intros Hw Hh Hl Hv.
  set (bulk := zlib_compress 9 (zero_payload (width * height * lng))).
  set (doc := document MTSParser.MTSM version width height lng
                (replicate (Z.to_nat height) x7f) [bytes_of_ascii "air"] bulk).
  assert (Hlen : len doc = 19 + height + len bulk).
  { unfold doc. rewrite len_document, len_replicate.
    change (len MTSParser.MTSM) with 4.
    change (len (entries [bytes_of_ascii "air"])) with 5. lia. }
  pose proof (len_nonneg bulk).
  exists doc. eexists _, _, _.
  split; [by apply create_empty_schematic_spec|].
  split.
  { apply validate_file_spec; [by rewrite lookup_insert_eq | lia]. }
  split.
  - cbn zeta. unfold doc.
    rewrite (checks_document filepath) by (try done; try lia; rewrite len_replicate; lia).
    rewrite (bool_decide_false (MTSParser.MTSM ≠ _)) by (by intros Hne).
    rewrite (bool_decide_false (_ = 0 ∨ _)) by lia.
    change (len (entries [bytes_of_ascii "air"])) with 5. fold bulk.
    replace (width * height * lng * 4 * 2) with (width * height * lng * 8) by lia.
    unfold check_extension. by rewrite !app_nil_l.
  - rewrite bool_decide_eq_true. apply len_zero_nil.
Qed.

Lemma validate_file_of_empty_schematic_witness :
  1 ≤ 1 ≤ 65535 ∧ 0 ≤ 4 ≤ 65535
  ∧ ∃ doc,
      @MTSGenerator.create_empty_schematic stored_zlib 1 1 1 4 = Ok doc
      ∧ ∃ metadata,
          validate_file (<["one.mts" := doc]> ∅) "one.mts"
          = Ok (false, [CompressedDataTooLarge 11], metadata).
Proof.
  split; [lia|]. split; [lia|].
  destruct (@validate_file_of_empty_schematic stored_zlib ∅ "one.mts" 1 1 1 4)
    as (doc & valid & errors & metadata & Hdoc & Hvalid & Herrors & Hiff);
    [lia..|].
  exists doc. split; [exact Hdoc|]. exists metadata.
  rewrite Hvalid. cbn in Herrors. subst errors.
  destruct valid; [|reflexivity].
  destruct Hiff as [Hnil _]. discriminate (Hnil eq_refl).
Defined.

(** X12: the full corruption check on the document of
    [create_empty_schematic] adds nothing to the quick one: the payload
    decompresses to [volume * 4] bytes, and both modes return the verdict of
    [validate_file]. *)
Theorem check_corruption_of_empty_schematic `{!Zlib}
    (fs : filesystem) (filepath : string) (width height lng version : Z) :
  1 ≤ width ≤ 65535 → 1 ≤ height ≤ 65535 → 1 ≤ lng ≤ 65535 →
  0 ≤ version ≤ 65535 →
  ∃ doc valid errors metadata quick_msg full_msg,
    MTSGenerator.create_empty_schematic width height lng version = Ok doc
    ∧ validate_file (<[filepath := doc]> fs) filepath
      = Ok (valid, errors, metadata)
    ∧ check_corruption (<[filepath := doc]> fs) filepath true
      = Ok (valid, quick_msg)
    ∧ check_corruption (<[filepath := doc]> fs) filepath false
      = Ok (valid, full_msg).
Proof.
  intros Hw Hh Hl Hv.
  set (bulk := zlib_compress 9 (zero_payload (width * height * lng))).
  set (doc := document MTSParser.MTSM version width height lng
                (replicate (Z.to_nat height) x7f) [bytes_of_ascii "air"] bulk).
  set (fs' := <[filepath := doc]> fs).
  assert (Hfile : fs' !! filepath = Some doc) by apply lookup_insert_eq.
  assert (Hlen : 20 ≤ len doc).
  { unfold doc. rewrite len_document, len_replicate.
    change (len MTSParser.MTSM) with 4. pose proof (len_nonneg bulk).
    change (len (entries [bytes_of_ascii "air"])) with 5. lia. }
  destruct (parse_document fs' filepath MTSParser.MTSM version width height lng
              (replicate (Z.to_nat height) x7f) [bytes_of_ascii "air"] bulk)
    as (Hhd & _ & _ & Hbulk); try done; try lia.
  { rewrite len_replicate. lia. }
  { by repeat constructor. }
  fold doc in Hhd, Hbulk.
  destruct (get_metadata_spec _ _ _ Hfile) as (m & Hm & Hmhd & _).
  assert (Hvol : MTSParser.volume (header_of doc) = width * height * lng).
  { unfold doc. rewrite header_of_document; try done; lia. }
  assert (Hfull : ∀ valid errors metadata,
            validate_file fs' filepath = Ok (valid, errors, metadata) →
            valid = true →
            check_corruption fs' filepath false
            = Ok (true, "File appears healthy (full check)")).
  { intros valid errors metadata Hvalidate ->. unfold check_corruption.
    rewrite Hvalidate. cbn [mbind result_bind negb]. rewrite Hbulk.
    cbn [mbind result_bind]. unfold MTSParser.decompress_bulk_data, bulk.
    rewrite zlib_decompress_compress, Hm. cbn [mbind result_bind].
    rewrite Hmhd, Hvol.
    by rewrite bool_decide_false by (rewrite len_zero_payload by nia; lia). }
  pose proof (validate_file_spec _ _ _ Hfile Hlen) as Hvalidate.
  exists doc. fold fs'.
  destruct (bool_decide (len (checks filepath doc) = 0)) eqn:Hverdict.
  - eexists true, _, _, _, _.
    split; [by apply create_empty_schematic_spec|].
    split; [exact Hvalidate|].
    split; [|by eapply Hfull].
    unfold check_corruption. rewrite Hvalidate. reflexivity.
  - eexists false, _, _, _, _.
    split; [by apply create_empty_schematic_spec|].
    split; [exact Hvalidate|].
    unfold check_corruption. rewrite Hvalidate. split; reflexivity.
Qed.

Lemma check_corruption_of_empty_schematic_witness :
  1 ≤ 4 ≤ 65535 ∧ 1 ≤ 2 ≤ 65535 ∧ 0 ≤ 4 ≤ 65535
  ∧ ∃ doc,
      @MTSGenerator.create_empty_schematic stored_zlib 4 2 4 4 = Ok doc
      ∧ @check_corruption stored_zlib (<["air.mts" := doc]> ∅) "air.mts" false
        = Ok (true, "File appears healthy (full check)").
Proof.
  split; [lia|]. split; [lia|]. split; [lia|].
  destruct (@check_corruption_of_empty_schematic stored_zlib ∅ "air.mts" 4 2 4 4)
    as (doc & valid & errors & metadata & quick_msg & full_msg
        & Hdoc & Hvalid & Hquick & Hfull); [lia..|].
  exists doc. split; [exact Hdoc|].
  injection Hdoc as <-. reflexivity.
Defined.

(** ** UTF-8: decoding what was encoded *)

Lemma testbit_above (y k n : Z) : 0 ≤ y < 2 ^ k → k ≤ n → Z.testbit y n = false.
Proof.
  intros Hy Hn. destruct (decide (y = 0)) as [->|Hne]; [apply Z.bits_0|].
  assert (0 ≤ k) by (destruct (Z.lt_ge_cases k 0); [rewrite Z.pow_neg_r in Hy; lia | lia]).
  apply Z.bits_above_log2; [lia|].
  apply Z.lt_le_trans with k; [|done]. apply Z.log2_lt_pow2; lia.
Qed.

Lemma lor_disjoint (x y k : Z) :
  0 ≤ k → 0 ≤ y < 2 ^ k → Z.lor (x * 2 ^ k) y = x * 2 ^ k + y.
Proof.
  intros Hk Hy. symmetry. apply Z.add_nocarry_lor.
  apply Z.bits_inj'. intros n Hn. rewrite Z.land_spec, Z.bits_0.
  destruct (Z.lt_ge_cases n k).
  - by rewrite Z.mul_pow2_bits_low.
  - rewrite (testbit_above y k n) by done. apply andb_false_r.
Qed.

Lemma land_low (a k : Z) : 0 ≤ k → Z.land a (2 ^ k - 1) = a `mod` 2 ^ k.
Proof. intros Hk. rewrite <- Z.land_ones by done. f_equal. rewrite Z.ones_equiv. lia. Qed.

Lemma is_continuation_range (b : byte) :
  is_continuation b = bool_decide (128 ≤ byte_val b < 192).
Proof. destruct b; reflexivity. Qed.

Lemma cont_bits_mod (b : byte) : cont_bits b = byte_val b `mod` 64.
Proof. unfold cont_bits. apply (land_low _ 6). lia. Qed.

Lemma utf8_decode_ignore_cons (c1 : byte) (s1 : list byte) :
  utf8_decode_ignore (c1 :: s1)
  = let ch := byte_val c1 in
    if ch <? 128 then ch :: utf8_decode_ignore s1
    else if ch <? 194 then utf8_decode_ignore s1
    else if ch <? 224 then
      match s1 with
      | [] => []
      | c2 :: s2 =>
        if negb (is_continuation c2) then utf8_decode_ignore s1
        else Z.lor (Z.shiftl (Z.land ch 31) 6) (cont_bits c2)
               :: utf8_decode_ignore s2
      end
    else if ch <? 240 then
      match s1 with
      | [] => []
      | c2 :: s2 =>
        let ch2 := byte_val c2 in
        if negb (is_continuation c2)
           || (if ch2 <? 160 then ch =? 224 else ch =? 237)
        then utf8_decode_ignore s1
        else
          match s2 with
          | [] => []
          | c3 :: s3 =>
            if negb (is_continuation c3) then utf8_decode_ignore s2
            else Z.lor (Z.lor (Z.shiftl (Z.land ch 15) 12)
                              (Z.shiftl (cont_bits c2) 6))
                       (cont_bits c3)
                   :: utf8_decode_ignore s3
          end
      end
    else if ch <? 245 then
      match s1 with
      | [] => []
      | c2 :: s2 =>
        let ch2 := byte_val c2 in
        if negb (is_continuation c2)
           || (if ch2 <? 144 then ch =? 240 else ch =? 244)
        then utf8_decode_ignore s1
        else
          match s2 with
          | [] => []
          | c3 :: s3 =>
            if negb (is_continuation c3) then utf8_decode_ignore s2
            else
              match s3 with
              | [] => []
              | c4 :: s4 =>
                if negb (is_continuation c4) then utf8_decode_ignore s3
                else Z.lor (Z.lor (Z.lor (Z.shiftl (Z.land ch 7) 18)
                                         (Z.shiftl (cont_bits c2) 12))
                                  (Z.shiftl (cont_bits c3) 6))
                           (cont_bits c4)
                       :: utf8_decode_ignore s4
              end
          end
      end
    else utf8_decode_ignore s1.
Proof. destruct s1 as [|c2 [|c3 [|c4 s4]]]; reflexivity. Qed.

(** A lead byte and its continuation bytes, as numbers. *)
Lemma decode_ascii (c : Z) (rest : list byte) :
  0 ≤ c < 128 →
  utf8_decode_ignore (byte_of c :: rest) = c :: utf8_decode_ignore rest.
Proof.
  intros Hc. rewrite utf8_decode_ignore_cons. cbn zeta.
  rewrite byte_val_of by lia. by rewrite (proj2 (Z.ltb_lt c 128)) by lia.
Qed.

Lemma continuation_of (r : Z) :
  0 ≤ r < 64 →
  is_continuation (byte_of (128 + r)) = true
  ∧ cont_bits (byte_of (128 + r)) = r
  ∧ byte_val (byte_of (128 + r)) = 128 + r.
Proof.
  intros Hr. rewrite is_continuation_range, cont_bits_mod, byte_val_of by lia.
  split_and!; [by rewrite bool_decide_true by lia | | done].
  rewrite Z.add_comm. change 128 with (2 * 64). rewrite Z.mod_add by lia.
  apply Z.mod_small. lia.
Qed.

Lemma decode_2 (q r : Z) (rest : list byte) :
  2 ≤ q < 32 → 0 ≤ r < 64 →
  utf8_decode_ignore (byte_of (192 + q) :: byte_of (128 + r) :: rest)
  = (q * 64 + r) :: utf8_decode_ignore rest.
Proof.
  intros Hq Hr. rewrite utf8_decode_ignore_cons. cbn zeta.
  destruct (continuation_of r Hr) as (Hc & Hb & _).
  rewrite byte_val_of by lia.
  rewrite (proj2 (Z.ltb_ge _ 128)), (proj2 (Z.ltb_ge _ 194)),
    (proj2 (Z.ltb_lt _ 224)) by lia.
  rewrite Hc, Hb. cbn [negb]. f_equal.
  rewrite (land_low _ 5) by lia. rewrite Z.shiftl_mul_pow2 by lia.
  replace ((192 + q) `mod` 2 ^ 5) with q.
  - by apply (lor_disjoint q r 6).
  - change 192 with (6 * 2 ^ 5). rewrite Z.add_comm, Z.mod_add by lia.
    symmetry. apply Z.mod_small. lia.
Qed.

Lemma decode_3 (p q r : Z) (rest : list byte) :
  0 ≤ p < 16 → 0 ≤ q < 64 → 0 ≤ r < 64 →
  (p = 0 → 32 ≤ q) → (p = 13 → q < 32) →
  utf8_decode_ignore
    (byte_of (224 + p) :: byte_of (128 + q) :: byte_of (128 + r) :: rest)
  = (p * 4096 + q * 64 + r) :: utf8_decode_ignore rest.
Proof.
  intros Hp Hq Hr Hlow Hsur. rewrite utf8_decode_ignore_cons. cbn zeta.
  destruct (continuation_of q Hq) as (Hc2 & Hb2 & Hv2).
  destruct (continuation_of r Hr) as (Hc3 & Hb3 & _).
  rewrite byte_val_of by lia.
  rewrite (proj2 (Z.ltb_ge _ 128)), (proj2 (Z.ltb_ge _ 194)),
    (proj2 (Z.ltb_ge _ 224)), (proj2 (Z.ltb_lt _ 240)) by lia.
  rewrite Hc2, Hv2, Hc3, Hb2, Hb3. cbn [negb orb].
  replace (if 128 + q <? 160 then 224 + p =? 224 else 224 + p =? 237) with false.
  2: { destruct (Z.ltb_spec (128 + q) 160); symmetry; apply Z.eqb_neq; lia. }
  f_equal.
  rewrite (land_low _ 4) by lia. rewrite !Z.shiftl_mul_pow2 by lia.
  replace ((224 + p) `mod` 2 ^ 4) with p.
  2: { change 224 with (14 * 2 ^ 4). rewrite Z.add_comm, Z.mod_add by lia.
       symmetry. apply Z.mod_small. lia. }
  rewrite (lor_disjoint p (q * 2 ^ 6) 12) by lia.
  replace (p * 2 ^ 12 + q * 2 ^ 6) with ((p * 64 + q) * 2 ^ 6) by lia.
  rewrite (lor_disjoint _ r 6) by lia. lia.
Qed.

Lemma decode_4 (o p q r : Z) (rest : list byte) :
  0 ≤ o < 5 → 0 ≤ p < 64 → 0 ≤ q < 64 → 0 ≤ r < 64 →
  (o = 0 → 16 ≤ p) → (o = 4 → p < 16) →
  utf8_decode_ignore
    (byte_of (240 + o) :: byte_of (128 + p) :: byte_of (128 + q)
       :: byte_of (128 + r) :: rest)
  = (o * 262144 + p * 4096 + q * 64 + r) :: utf8_decode_ignore rest.
Proof.
  intros Ho Hp Hq Hr Hlow Hhigh. rewrite utf8_decode_ignore_cons. cbn zeta.
  destruct (continuation_of p Hp) as (Hc2 & Hb2 & Hv2).
  destruct (continuation_of q Hq) as (Hc3 & Hb3 & _).
  destruct (continuation_of r Hr) as (Hc4 & Hb4 & _).
  rewrite byte_val_of by lia.
  rewrite (proj2 (Z.ltb_ge _ 128)), (proj2 (Z.ltb_ge _ 194)),
    (proj2 (Z.ltb_ge _ 224)), (proj2 (Z.ltb_ge _ 240)),
    (proj2 (Z.ltb_lt _ 245)) by lia.
  rewrite Hc2, Hv2, Hc3, Hc4, Hb2, Hb3, Hb4. cbn [negb orb].
  replace (if 128 + p <? 144 then 240 + o =? 240 else 240 + o =? 244) with false.
  2: { destruct (Z.ltb_spec (128 + p) 144); symmetry; apply Z.eqb_neq; lia. }
  f_equal.
  rewrite (land_low _ 3) by lia. rewrite !Z.shiftl_mul_pow2 by lia.
  replace ((240 + o) `mod` 2 ^ 3) with o.
  2: { change 240 with (30 * 2 ^ 3). rewrite Z.add_comm, Z.mod_add by lia.
       symmetry. apply Z.mod_small. lia. }
  rewrite (lor_disjoint o (p * 2 ^ 12) 18) by lia.
  replace (o * 2 ^ 18 + p * 2 ^ 12) with ((o * 64 + p) * 2 ^ 12) by lia.
  rewrite (lor_disjoint _ (q * 2 ^ 6) 12) by lia.
  replace ((o * 64 + p) * 2 ^ 12 + q * 2 ^ 6)
    with (((o * 64 + p) * 64 + q) * 2 ^ 6) by lia.
  rewrite (lor_disjoint _ r 6) by lia. lia.
Qed.

(** The bytes of [utf8_encode_char], in the other notation. *)
Lemma lor_lead (lead k y : Z) :
  0 ≤ k → 0 ≤ y < 2 ^ k → lead `mod` 2 ^ k = 0 → Z.lor lead y = lead + y.
Proof.
  intros Hk Hy Hlead.
  rewrite (Z.div_mod lead (2 ^ k)), Hlead, Z.add_0_r by lia.
  rewrite Z.mul_comm. by apply lor_disjoint.
Qed.

Lemma utf8_decode_encode_char (c : Z) (bs rest : list byte) :
  utf8_encode_char c = Ok bs →
  utf8_decode_ignore (bs ++ rest) = c :: utf8_decode_ignore rest.
Proof.
  unfold utf8_encode_char.
  destruct (Z.ltb_spec c 0); [done|].
  destruct (Z.ltb_spec c 128).
  { intros [= <-]. apply decode_ascii. lia. }
  assert (Hland : ∀ a, Z.land a 63 = a `mod` 64) by (intros a; apply (land_low a 6); lia).
  rewrite !Hland, !Z.shiftr_div_pow2 by lia.
  destruct (Z.ltb_spec c 2048).
  { intros [= <-].
    rewrite (lor_lead 192 6), (lor_lead 128 6); try done;
      try (apply Z.mod_pos_bound; lia);
      try (split; [apply Z.div_pos | apply Z.div_lt_upper_bound]; lia).
    cbn [app]. rewrite (decode_2 (c `div` 2 ^ 6) (c `mod` 64));
      try (apply Z.mod_pos_bound; lia);
      try (split; [apply Z.div_le_lower_bound | apply Z.div_lt_upper_bound]; lia).
    f_equal. Z.div_mod_to_equations. lia. }
  destruct (Z.ltb_spec c 65536).
  { destruct (Z.leb_spec 55296 c); destruct (Z.leb_spec c 57343); cbn [andb]; try done;
      intros [= <-].
    all: rewrite (lor_lead 224 5), !(lor_lead 128 6); try done;
      try (apply Z.mod_pos_bound; lia);
      try (split; [apply Z.div_pos | apply Z.div_lt_upper_bound]; lia).
    all: cbn [app];
      rewrite (decode_3 (c `div` 2 ^ 12) ((c `div` 2 ^ 6) `mod` 64) (c `mod` 64));
      try (apply Z.mod_pos_bound; lia);
      try (split; [apply Z.div_pos | apply Z.div_lt_upper_bound]; lia);
      try (f_equal; Z.div_mod_to_equations; lia);
      try (intros Hp; Z.div_mod_to_equations; lia). }
  destruct (Z.ltb_spec c 1114112); [|done].
  intros [= <-].
  rewrite (lor_lead 240 4), !(lor_lead 128 6); try done;
    try (apply Z.mod_pos_bound; lia);
    try (split; [apply Z.div_pos | apply Z.div_lt_upper_bound]; lia).
  cbn [app].
  rewrite (decode_4 (c `div` 2 ^ 18) ((c `div` 2 ^ 12) `mod` 64)
             ((c `div` 2 ^ 6) `mod` 64) (c `mod` 64));
    try (apply Z.mod_pos_bound; lia);
    try (split; [apply Z.div_pos | apply Z.div_lt_upper_bound]; lia);
    try (f_equal; Z.div_mod_to_equations; lia);
    try (intros Hp; Z.div_mod_to_equations; lia).
Qed.

Lemma utf8_decode_encode (s : list Z) :
  ∀ bs, utf8_encode s = Ok bs → utf8_decode_ignore bs = s.
Proof.
  induction s as [|c s IH]; intros bs; cbn [utf8_encode].
  - by intros [= <-].
  - destruct (utf8_encode_char c) as [b|] eqn:Hc; [|done].
    destruct (utf8_encode s) as [bs'|] eqn:Hs; [|done].
    cbn [mbind result_bind]. intros [= <-].
    rewrite (utf8_decode_encode_char _ _ _ Hc). f_equal. by apply IH.
Qed.

(** ** The generators, continued *)

(** X13: [create_box] makes no box.  Whatever the wall block, the fill
    block and [hollow] are, it returns what [create_empty_schematic] returns
    for the same dimensions and version 4, and raises when that raises: the
    palette of the document is ["air"] alone and every voxel is air. *)
Theorem create_box_is_air `{!Zlib} (fs : filesystem) (filepath : string)
    (width height lng : Z) (wall_block : list Z) (fill_block : option (list Z))
    (hollow : bool) :
  MTSGenerator.create_box width height lng wall_block fill_block hollow
  = MTSGenerator.create_empty_schematic width height lng 4
  ∧ (1 ≤ width ≤ 65535 ∧ 1 ≤ height ≤ 65535 ∧ 1 ≤ lng ≤ 65535 →
     ∃ doc pos,
       MTSGenerator.create_box width height lng wall_block fill_block hollow
       = Ok doc
       ∧ MTSParser.parse_nodelist (<[filepath := doc]> fs) filepath
         = Ok ([str_of_ascii "air"], pos)
       ∧ MTSParser.extract_compressed_data (<[filepath := doc]> fs) filepath None
         = Ok (zlib_compress 9 (replicate (Z.to_nat (4 * (width * height * lng))) x00),
               <[filepath := doc]> fs)).
Proof.
  assert (Hsame : MTSGenerator.create_box width height lng wall_block fill_block hollow
                  = MTSGenerator.create_empty_schematic width height lng 4).
  { unfold MTSGenerator.create_box, MTSGenerator.default_version.
    by destruct (MTSGenerator.create_empty_schematic width height lng 4). }
  split; [done|]. intros (Hw & Hh & Hl). rewrite Hsame.
  set (bulk := zlib_compress 9 (zero_payload (width * height * lng))).
  destruct (parse_document (<[filepath := document MTSParser.MTSM 4 width height lng
               (replicate (Z.to_nat height) x7f) [bytes_of_ascii "air"] bulk]> fs)
             filepath MTSParser.MTSM 4 width height lng
             (replicate (Z.to_nat height) x7f) [bytes_of_ascii "air"] bulk)
    as (_ & _ & Hnodes & Hbulk); try done; try lia.
  { rewrite len_replicate. lia. }
  { by repeat constructor. }
  { by rewrite lookup_insert_eq. }
  eexists _, _. split; [apply create_empty_schematic_spec; lia|].
  split; [exact Hnodes | exact Hbulk].
Qed.

Lemma write_nodes_succeeds (nodes : list (list Z)) :
  Forall (λ node, ∃ name, utf8_encode node = Ok name ∧ len name ≤ 65535) nodes →
  ∀ output, ∃ output', MTSGenerator.write_nodes nodes output = Ok output'.
Proof.
  induction 1 as [|node nodes (name & Hname & Hlen) _ IH]; intros output.
  - by eexists.
  - cbn [MTSGenerator.write_nodes]. rewrite Hname. cbn [mbind result_bind].
    pose proof (len_nonneg name). rewrite pack_H_ok by lia.
    cbn [mbind result_bind]. apply IH.
Qed.

(** X14: when [create_from_template] returns.  It returns a document
    exactly when each dimension is from 0 to 65535, there are at most 65535
    node names, and each name can be encoded in UTF-8 (it holds no
    surrogate) into at most 65535 bytes; otherwise it raises.  Dimensions of
    0 are accepted, and the voxel data play no part. *)
Theorem create_from_template_returns_iff `{!Zlib} (t : MTSGenerator.template) :
  (∃ doc, MTSGenerator.create_from_template t = Ok doc)
  ↔ (let '(width, height, lng) :=
       default (1, 1, 1) (MTSGenerator.t_dimensions t) in
     let nodes := default [str_of_ascii "air"] (MTSGenerator.t_nodes t) in
     0 ≤ width ≤ 65535 ∧ 0 ≤ height ≤ 65535 ∧ 0 ≤ lng ≤ 65535
     ∧ len nodes ≤ 65535
     ∧ Forall (λ node, ∃ name, utf8_encode node = Ok name ∧ len name ≤ 65535)
         nodes).
Proof.
  split.
  - intros [doc Hdoc]. pose proof (create_from_template_spec t doc Hdoc) as Hspec.
    destruct (default (1, 1, 1) (MTSGenerator.t_dimensions t)) as [[width height] lng].
    destruct Hspec as (names & Hall & Hlens & Hcount & Hw & Hh & Hl & _).
    cbn zeta. split_and!; try lia.
    + apply Forall2_length in Hall. unfold len in *. lia.
    + clear Hcount. induction Hall as [|node name nodes names Hname _ IH];
        [constructor|].
      apply Forall_cons in Hlens as [Hlen Hlens]. constructor; eauto.
  - unfold MTSGenerator.create_from_template.
    destruct (default (1, 1, 1) (MTSGenerator.t_dimensions t)) as [[width height] lng].
    cbn zeta. intros (Hw & Hh & Hl & Hcount & Hnodes).
    pose proof (len_nonneg (default [str_of_ascii "air"] (MTSGenerator.t_nodes t))).
    unfold pack_HHH. rewrite !pack_H_ok by lia. cbn [mbind result_bind].
    rewrite yprobs_bytes. cbn [mbind result_bind].
    destruct (write_nodes_succeeds _ Hnodes
                ((((([] ++ MTSParser.MTSM) ++ u16_bytes 4)
                   ++ u16_bytes width ++ u16_bytes height ++ u16_bytes lng)
                  ++ replicate (Z.to_nat height) x7f)
                 ++ u16_bytes (len (default [str_of_ascii "air"]
                                      (MTSGenerator.t_nodes t)))))
      as [output Hout].
    unfold u16_bytes in Hout. rewrite Hout. cbn [mbind result_bind]. by eexists.
Qed.

(** X15: the document of [create_from_template] read back.  The parser
    returns version 4, the dimensions of the template and their product as
    volume, [height] y-probabilities 127, and the node names of the
    template, each as it was given: decoding undoes the encoding. *)
Theorem create_from_template_round_trip `{!Zlib}
    (fs : filesystem) (filepath : string) (t : MTSGenerator.template) doc :
  MTSGenerator.create_from_template t = Ok doc →
  let '(width, height, lng) := default (1, 1, 1) (MTSGenerator.t_dimensions t) in
  let nodes := default [str_of_ascii "air"] (MTSGenerator.t_nodes t) in
  let fs' := <[filepath := doc]> fs in
  (∃ hd, MTSParser.parse_header fs' filepath = Ok hd
         ∧ MTSParser.signature_valid hd = true
         ∧ MTSParser.version hd = 4
         ∧ MTSParser.width hd = width
         ∧ MTSParser.height hd = height
         ∧ MTSParser.length hd = lng
         ∧ MTSParser.volume hd = width * height * lng)
  ∧ MTSParser.parse_yprobs fs' filepath
    = Ok (replicate (Z.to_nat height) 127, 12 + height)
  ∧ (∃ pos, MTSParser.parse_nodelist fs' filepath = Ok (nodes, pos)).
Proof.
  intros Hdoc. pose proof (create_from_template_spec t doc Hdoc) as Hspec.
  destruct (default (1, 1, 1) (MTSGenerator.t_dimensions t)) as [[width height] lng].
  destruct Hspec as (names & Hall & Hlens & Hcount & Hw & Hh & Hl & ->).
  cbn zeta.
  set (bulk := zlib_compress 6 _).
  destruct (parse_document (<[filepath := document MTSParser.MTSM 4 width height lng
               (replicate (Z.to_nat height) x7f) names bulk]> fs)
             filepath MTSParser.MTSM 4 width height lng
             (replicate (Z.to_nat height) x7f) names bulk)
    as (Hhd & Hyp & Hnodes & _); try done; try lia.
  { rewrite len_replicate. lia. }
  { by rewrite lookup_insert_eq. }
  split_and!.
  - eexists. split; [exact Hhd|]. by cbn.
  - rewrite Hyp. by rewrite fmap_replicate.
  - eexists. rewrite Hnodes. do 2 f_equal.
    clear -Hall. induction Hall as [|node name nodes names Hname _ IH]; [done|].
    rewrite fmap_cons, IH. f_equal. by apply utf8_decode_encode.
Qed.

Lemma create_from_template_round_trip_witness :
  let t := {| MTSGenerator.t_dimensions := Some (3, 2, 1);
              MTSGenerator.t_nodes := Some [str_of_ascii "air"; [233; 8364; 128512]];
              MTSGenerator.t_data := None |} in
  ∃ doc,
    @MTSGenerator.create_from_template stored_zlib t = Ok doc
    ∧ MTSParser.parse_yprobs (<["t.mts" := doc]> ∅) "t.mts" = Ok ([127; 127], 14)
    ∧ ∃ pos, MTSParser.parse_nodelist (<["t.mts" := doc]> ∅) "t.mts"
             = Ok ([str_of_ascii "air"; [233; 8364; 128512]], pos).
Proof.
  cbn zeta. eexists. split; [reflexivity|].
  destruct (@create_from_template_round_trip stored_zlib ∅ "t.mts"
              {| MTSGenerator.t_dimensions := Some (3, 2, 1);
                 MTSGenerator.t_nodes := Some [str_of_ascii "air"; [233; 8364; 128512]];
                 MTSGenerator.t_data := None |} _ eq_refl)
    as (_ & Hyp & Hnodes).
  split; [exact Hyp | exact Hnodes].
Defined.

(** X16: a dimension of 0.  [create_empty_schematic] refuses it;
    [create_from_template] writes the document, and [validate_file] rejects
    what it wrote: as too small when it has fewer than 20 bytes, and
    otherwise with the violation for invalid dimensions. *)
Theorem create_from_template_zero_dimension `{!Zlib}
    (fs : filesystem) (filepath : string) (t : MTSGenerator.template) doc
    (width height lng : Z) :
  MTSGenerator.create_from_template t = Ok doc →
  default (1, 1, 1) (MTSGenerator.t_dimensions t) = (width, height, lng) →
  width = 0 ∨ height = 0 ∨ lng = 0 →
  MTSGenerator.create_empty_schematic width height lng 4
  = Raise (ValueError "Dimensions must be positive")
  ∧ ∃ errors metadata,
      validate_file (<[filepath := doc]> fs) filepath = Ok (false, errors, metadata)
      ∧ (len doc < 20 → errors = [FileTooSmall (len doc)])
      ∧ (20 ≤ len doc → InvalidDimensions width height lng ∈ errors).
Proof.
  intros Hdoc Hdims Hzero. split.
  { unfold MTSGenerator.create_empty_schematic. rewrite bool_decide_true; [done | lia]. }
  pose proof (create_from_template_spec t doc Hdoc) as Hspec. rewrite Hdims in Hspec.
  destruct Hspec as (names & _ & _ & _ & Hw & Hh & Hl & Hlayout).
  assert (Hfile : (<[filepath := doc]> fs) !! filepath = Some doc)
    by apply lookup_insert_eq.
  destruct (decide (len doc < 20)) as [Hsmall|Hsize].
  - eexists _, _. split; [by apply validate_file_small|]. split; [done | lia].
  - assert (Hin : InvalidDimensions width height lng ∈ checks filepath doc).
    { rewrite Hlayout.
      rewrite (checks_document filepath)
        by (try done; try lia; rewrite len_replicate; lia).
      rewrite (bool_decide_true (width = 0 ∨ _)) by done.
      rewrite !elem_of_app. do 3 right. left. by apply list_elem_of_singleton. }
    eexists _, _. split; [|split; [lia | intros _; exact Hin]].
    rewrite (validate_file_spec _ _ _ Hfile) by lia. do 2 f_equal.
    f_equal. apply bool_decide_eq_false. rewrite len_zero_nil.
    intros Hnil. rewrite Hnil in Hin. by apply elem_of_nil in Hin.
Qed.

Lemma create_from_template_zero_dimension_witness :
  let t := {| MTSGenerator.t_dimensions := Some (0, 4, 4);
              MTSGenerator.t_nodes := None;
              MTSGenerator.t_data := None |} in
  ∃ doc,
    @MTSGenerator.create_from_template stored_zlib t = Ok doc
    ∧ (0 = 0 ∨ 4 = 0 ∨ 4 = 0)
    ∧ @MTSGenerator.create_empty_schematic stored_zlib 0 4 4 4
      = Raise (ValueError "Dimensions must be positive")
    ∧ ∃ errors metadata,
        validate_file (<["flat.mts" := doc]> ∅) "flat.mts"
        = Ok (false, errors, metadata)
        ∧ (len doc < 20 → errors = [FileTooSmall (len doc)])
        ∧ (20 ≤ len doc → InvalidDimensions 0 4 4 ∈ errors).
Proof.
  cbn zeta. eexists. split; [reflexivity|]. split; [by left|].
  apply (@create_from_template_zero_dimension stored_zlib ∅ "flat.mts"
           {| MTSGenerator.t_dimensions := Some (0, 4, 4);
              MTSGenerator.t_nodes := None;
              MTSGenerator.t_data := None |});
    [reflexivity | reflexivity | by left].
Defined.

(** ** The JSON export *)

Lemma mts_to_json_spec (fs : filesystem) (mts_filepath json_filepath : string) content :
  fs !! mts_filepath = Some content →
  MTSConverter.mts_to_json fs mts_filepath json_filepath
  = if bool_decide (take 4 content ≠ MTSParser.MTSM)
    then Raise (ValueError "Invalid MTS file signature")
    else if bool_decide (len content < 6)
    then Raise (struct_error "unpack requires a buffer of 2 bytes")
    else if bool_decide (len content < 12)
    then Raise (struct_error "unpack requires a buffer of 6 bytes")
    else
      let h := header_of content in
      let r := {| MTSConverter.format := "minetest_schematic";
                  MTSConverter.version := MTSParser.version h;
                  MTSConverter.size :=
                    (MTSParser.width h, MTSParser.height h, MTSParser.length h);
                  MTSConverter.nodes := [];
                  MTSConverter.metadata := [] |} in
      Ok (r, <[json_filepath := bytes_of_ascii (MTSConverter.json_dumps r)]> fs).
Proof.
  intros Hfile. unfold MTSConverter.mts_to_json, open. rewrite Hfile.
  cbn [mbind result_bind].
  assert (Hread : f_read_all (FileObj content 0) = (content, FileObj content (len content))).
  { unfold f_read_all, f_read. cbn. reflexivity. }
  rewrite Hread. unfold MTSConverter.slice.
  change (drop 0 content) with content. change (4 - 0)%nat with 4%nat.
  case_bool_decide as Hsig; [reflexivity|].
  destruct content
    as [|b0 [|b1 [|b2 [|b3 [|b4 [|b5 [|b6 [|b7 [|b8 [|b9 [|b10 [|b11 rest]]]]]]]]]]]];
    try (vm_compute; reflexivity).
  unfold header_of. rewrite !len_cons. pose proof (len_nonneg rest).
  rewrite (bool_decide_true (6 ≤ _)) by lia.
  rewrite (bool_decide_true (12 ≤ _)) by lia.
  rewrite (bool_decide_false (_ < 6)) by lia.
  rewrite (bool_decide_false (_ < 12)) by lia.
  reflexivity.
Qed.


Lemma header_of_take_12 (content : list byte) :
  header_of (take 12 content) = header_of content.
Proof.
  unfold header_of.
  assert (Hlen : Z.min 12 (len (take 12 content)) = Z.min 12 (len content)).
  { change 12%nat with (Z.to_nat 12). rewrite len_take by lia. lia. }
  assert (H6 : bool_decide (6 ≤ len (take 12 content)) = bool_decide (6 ≤ len content)).
  { apply bool_decide_ext. lia. }
  assert (H12 : bool_decide (12 ≤ len (take 12 content)) = bool_decide (12 ≤ len content)).
  { apply bool_decide_ext. lia. }
  assert (Hu : ∀ i, (S i < 12)%nat → u16_at (take 12 content) i = u16_at content i).
  { intros i Hi. unfold u16_at, byte_at. rewrite !lookup_take_lt by lia. reflexivity. }
  rewrite H6, H12, Hlen, !Hu by lia.
  rewrite take_take. reflexivity.
Qed.

(** X17: [mts_to_json] on a file that exists: a file that does not begin
    with [MTSM] raises [ValueError]; one that does but is shorter than the
    12-byte header raises [struct.error]; any other file gives a result, and
    the text of that result is written to the JSON path. *)
Theorem mts_to_json_outcome (fs : filesystem) (mts_filepath json_filepath : string)
    (content : list byte) :
  fs !! mts_filepath = Some content →
  (take 4 content ≠ MTSParser.MTSM →
   MTSConverter.mts_to_json fs mts_filepath json_filepath
   = Raise (ValueError "Invalid MTS file signature"))
  ∧ (take 4 content = MTSParser.MTSM → len content < 12 →
     ∃ msg, MTSConverter.mts_to_json fs mts_filepath json_filepath
            = Raise (struct_error msg))
  ∧ (take 4 content = MTSParser.MTSM → 12 ≤ len content →
     ∃ r, MTSConverter.mts_to_json fs mts_filepath json_filepath
          = Ok (r, <[json_filepath := bytes_of_ascii (MTSConverter.json_dumps r)]> fs)).
Proof.
  intros Hfile. rewrite (mts_to_json_spec _ _ _ _ Hfile).
  split_and!.
  - intros Hsig. rewrite bool_decide_true by done. reflexivity.
  - intros Hsig Hlen. rewrite bool_decide_false by (intros Hne; done).
    case_bool_decide; [eauto|]. rewrite bool_decide_true by lia. eauto.
  - intros Hsig Hlen. rewrite bool_decide_false by (intros Hne; done).
    rewrite !bool_decide_false by lia. eauto.
Qed.

Lemma mts_to_json_outcome_witness :
  MTSConverter.mts_to_json {[ "cut.mts" := cut_XXXX ]} "cut.mts" "cut.json"
  = Raise (ValueError "Invalid MTS file signature")
  ∧ (∃ msg, MTSConverter.mts_to_json {[ "a.mts" := take 9 air_4x2x4 ]} "a.mts" "a.json"
            = Raise (struct_error msg))
  ∧ (∃ r, MTSConverter.mts_to_json {[ "a.mts" := air_4x2x4 ]} "a.mts" "a.json"
          = Ok (r, <[ "a.json" := bytes_of_ascii (MTSConverter.json_dumps r) ]>
                     {[ "a.mts" := air_4x2x4 ]})).
Proof.
  assert (H1 : ({[ "cut.mts" := cut_XXXX ]} : filesystem) !! "cut.mts" = Some cut_XXXX)
    by reflexivity.
  assert (H2 : ({[ "a.mts" := take 9 air_4x2x4 ]} : filesystem) !! "a.mts"
               = Some (take 9 air_4x2x4)) by reflexivity.
  assert (H3 : ({[ "a.mts" := air_4x2x4 ]} : filesystem) !! "a.mts" = Some air_4x2x4)
    by reflexivity.
  split_and!.
  - apply (mts_to_json_outcome _ _ "cut.json" _ H1). vm_compute. discriminate.
  - apply (mts_to_json_outcome _ _ "a.json" _ H2); [reflexivity | vm_compute; reflexivity].
  - apply (mts_to_json_outcome _ _ "a.json" _ H3); [reflexivity | vm_compute; discriminate].
Defined.

(** X18: whenever [mts_to_json] returns, [parse_header] accepts the same
    file with a valid signature and a whole header, and the version and size
    of the result are those of that header; the node list and the metadata
    of the result are empty whatever the file holds. *)
Theorem mts_to_json_agrees_with_parse_header (fs fs' : filesystem)
    (mts_filepath json_filepath : string) (r : MTSConverter.json_result) :
  MTSConverter.mts_to_json fs mts_filepath json_filepath = Ok (r, fs') →
  ∃ h, MTSParser.parse_header fs mts_filepath = Ok h
       ∧ MTSParser.signature_valid h = true
       ∧ MTSParser.file_size h = 12
       ∧ MTSConverter.version r = MTSParser.version h
       ∧ MTSConverter.size r
         = (MTSParser.width h, MTSParser.height h, MTSParser.length h)
       ∧ MTSConverter.nodes r = []
       ∧ MTSConverter.metadata r = [].
Proof.
  intros Hrun.
  destruct (fs !! mts_filepath) as [content|] eqn:Hfile.
  - rewrite (mts_to_json_spec _ _ _ _ Hfile) in Hrun.
    case_bool_decide as Hsig; [discriminate|].
    case_bool_decide as H6; [discriminate|].
    case_bool_decide as H12; [discriminate|].
    injection Hrun as <- <-.
    exists (header_of content). rewrite (parse_header_spec _ _ _ Hfile).
    split_and!; try reflexivity.
    + cbn [header_of MTSParser.signature_valid]. apply bool_decide_eq_true.
      destruct (decide (take 4 content = MTSParser.MTSM)); [done | contradiction].
    + cbn [header_of MTSParser.file_size]. lia.
  - unfold MTSConverter.mts_to_json, open in Hrun. rewrite Hfile in Hrun. discriminate.
Qed.

Lemma mts_to_json_agrees_with_parse_header_witness :
  ∃ h, MTSParser.parse_header {[ "a.mts" := air_4x2x4 ]} "a.mts" = Ok h
       ∧ MTSParser.signature_valid h = true
       ∧ MTSParser.file_size h = 12
       ∧ 4 = MTSParser.version h
       ∧ (4, 2, 4) = (MTSParser.width h, MTSParser.height h, MTSParser.length h)
       ∧ @nil (list Z) = []
       ∧ @nil (string * Z) = [].
Proof.
  pose (r := {| MTSConverter.format := "minetest_schematic";
                MTSConverter.version := 4;
                MTSConverter.size := (4, 2, 4);
                MTSConverter.nodes := [];
                MTSConverter.metadata := [] |}).
  apply (mts_to_json_agrees_with_parse_header
           {[ "a.mts" := air_4x2x4 ]}
           (<[ "a.json" := bytes_of_ascii (MTSConverter.json_dumps r) ]>
              {[ "a.mts" := air_4x2x4 ]})
           "a.mts" "a.json" r).
  vm_compute. reflexivity.
Defined.

(** X19: [mts_to_json] looks at the first 12 bytes only: two files that
    agree on them give the same result and the same JSON text, or raise the
    same exception. *)
Theorem mts_to_json_reads_header_only (fs1 fs2 : filesystem)
    (mts_filepath1 mts_filepath2 json_filepath : string) (content1 content2 : list byte) :
  fs1 !! mts_filepath1 = Some content1 →
  fs2 !! mts_filepath2 = Some content2 →
  take 12 content1 = take 12 content2 →
  match MTSConverter.mts_to_json fs1 mts_filepath1 json_filepath,
        MTSConverter.mts_to_json fs2 mts_filepath2 json_filepath with
  | Ok (r1, fs1'), Ok (r2, fs2') =>
      r1 = r2 ∧ fs1' !! json_filepath = fs2' !! json_filepath
  | Raise e1, Raise e2 => e1 = e2
  | _, _ => False
  end.
Proof.
  intros Hfile1 Hfile2 Hhead.
  rewrite (mts_to_json_spec _ _ _ _ Hfile1), (mts_to_json_spec _ _ _ _ Hfile2).
  assert (Hsig : take 4 content1 = take 4 content2).
  { replace (take 4 content1) with (take 4 (take 12 content1))
      by (rewrite take_take; reflexivity).
    rewrite Hhead, take_take. reflexivity. }
  assert (Hlen : Z.min 12 (len content1) = Z.min 12 (len content2)).
  { rewrite <- !(len_take 12) by lia. change (Z.to_nat 12) with 12%nat.
    rewrite Hhead. reflexivity. }
  assert (Hh : header_of content1 = header_of content2).
  { rewrite <- (header_of_take_12 content1), Hhead. apply header_of_take_12. }
  rewrite Hsig, Hh.
  case_bool_decide; [reflexivity|].
  rewrite (bool_decide_ext (len content1 < 6) (len content2 < 6)) by lia.
  rewrite (bool_decide_ext (len content1 < 12) (len content2 < 12)) by lia.
  repeat case_bool_decide; try reflexivity.
  cbv zeta. split; [reflexivity|]. by simplify_map_eq.
Qed.

Lemma mts_to_json_reads_header_only_witness :
  match MTSConverter.mts_to_json {[ "a.mts" := air_4x2x4 ]} "a.mts" "out.json",
        MTSConverter.mts_to_json {[ "b.mts" := take 12 air_4x2x4 ]} "b.mts" "out.json"
  with
  | Ok (r1, fs1'), Ok (r2, fs2') => r1 = r2 ∧ fs1' !! "out.json" = fs2' !! "out.json"
  | Raise e1, Raise e2 => e1 = e2
  | _, _ => False
  end.
Proof.
  apply (mts_to_json_reads_header_only _ _ _ _ _ air_4x2x4 (take 12 air_4x2x4));
    reflexivity.
Defined.

(** ** The palettes of several files *)

Lemma get_metadata_missing (fs : filesystem) (filepath : string) :
  fs !! filepath = None →
  MTSParser.get_metadata fs filepath = Raise (FileNotFoundError filepath).
Proof.
  intros Hfile. unfold MTSParser.get_metadata, MTSParser.parse_header, open.
  by rewrite Hfile.
Qed.

Lemma read_node_sets_spec (fs : filesystem) (filepaths : list string) all_nodes node_sets :
  Forall (λ p, is_Some (fs !! p)) filepaths →
  MTSAnalyzer.read_node_sets fs filepaths all_nodes node_sets
  = Ok (all_nodes ++ mjoin (elements <$> (node_set_of fs <$> filepaths)),
        node_sets ++ (node_set_of fs <$> filepaths)).
Proof.
  intros Hall. revert all_nodes node_sets.
  induction Hall as [|p filepaths [content Hfile] _ IH]; intros all_nodes node_sets.
  - cbn. by rewrite !app_nil_r.
  - cbn [MTSAnalyzer.read_node_sets fmap list_fmap mjoin list_join].
    destruct (get_metadata_spec _ _ _ Hfile) as (m & Hm & _).
    unfold node_set_of at 1 3. rewrite Hm. cbn [mbind result_bind].
    rewrite IH, <- !app_assoc. reflexivity.
Qed.

Lemma read_node_sets_missing (fs : filesystem) (before after : list string) p
    all_nodes node_sets :
  Forall (λ p, is_Some (fs !! p)) before →
  fs !! p = None →
  MTSAnalyzer.read_node_sets fs (before ++ p :: after) all_nodes node_sets
  = Raise (FileNotFoundError p).
Proof.
  intros Hall Hp. revert all_nodes node_sets.
  induction Hall as [|q before [content Hfile] _ IH]; intros all_nodes node_sets.
  - cbn. by rewrite (get_metadata_missing _ _ Hp).
  - cbn [app MTSAnalyzer.read_node_sets].
    destruct (get_metadata_spec _ _ _ Hfile) as (m & Hm & _).
    rewrite Hm. cbn [mbind result_bind]. apply IH.
Qed.

Lemma find_first_missing (fs : filesystem) (filepaths : list string) :
  Forall (λ p, is_Some (fs !! p)) filepaths
  ∨ ∃ before p after, filepaths = before ++ p :: after
      ∧ Forall (λ p, is_Some (fs !! p)) before ∧ fs !! p = None.
Proof.
  induction filepaths as [|q filepaths IH]; [by left|].
  destruct (fs !! q) as [content|] eqn:Hq.
  - destruct IH as [IH | (before & p & after & -> & Hbefore & Hp)].
    + left. constructor; [by rewrite Hq | done].
    + right. exists (q :: before), p, after. split_and!; try done.
      constructor; [by rewrite Hq | done].
  - right. exists [], q, filepaths. by split_and!.
Qed.

Lemma elem_of_foldl_intersection (n : list Z) (l : list (gset (list Z))) s :
  n ∈ foldl (∩) s l ↔ n ∈ s ∧ ∀ t, t ∈ l → n ∈ t.
Proof.
  revert s. induction l as [|t l IH]; intros s; cbn [foldl].
  - split; [intros ?; split; [done|] | by intros [? _]].
    intros t Ht. by apply elem_of_nil in Ht.
  - rewrite IH, elem_of_intersection. split.
    + intros [[Hs Ht] Hl]. split; [done|]. intros t' [->|Ht']%elem_of_cons; auto.
    + intros [Hs Hl]. split_and!; [done | apply Hl; left |].
      intros t' Ht'. apply Hl. by right.
Qed.

Lemma elem_of_foldl_union (n : list Z) (l : list (gset (list Z))) s :
  n ∈ foldl (∪) s l ↔ n ∈ s ∨ ∃ t, t ∈ l ∧ n ∈ t.
Proof.
  revert s. induction l as [|t l IH]; intros s; cbn [foldl].
  - split; [by left | intros [?|(t & Ht & _)]; [done|]]. by apply elem_of_nil in Ht.
  - rewrite IH, elem_of_union. split.
    + intros [[Hs|Ht]|(t' & Ht' & Hn)]; [by left | right; exists t | right; exists t'].
      * split; [left | done].
      * split; [by right | done].
    + intros [Hs|(t' & [->|Ht']%elem_of_cons & Hn)]; [by left; left | by left; right |].
      right. by exists t'.
Qed.

Lemma elem_of_intersection_of (n : list Z) (sets : list (gset (list Z))) :
  n ∈ MTSAnalyzer.intersection_of sets ↔ sets ≠ [] ∧ ∀ t, t ∈ sets → n ∈ t.
Proof.
  destruct sets as [|s l]; cbn [MTSAnalyzer.intersection_of].
  - split; [by intros ?%elem_of_empty | by intros [? _]].
  - rewrite elem_of_foldl_intersection. split.
    + intros [Hs Hl]. split; [done|]. intros t [->|Ht]%elem_of_cons; auto.
    + intros [_ Hl]. split; [apply Hl; left|]. intros t Ht. apply Hl. by right.
Qed.

Lemma elem_of_union_of (n : list Z) (sets : list (gset (list Z))) :
  n ∈ MTSAnalyzer.union_of sets ↔ ∃ t, t ∈ sets ∧ n ∈ t.
Proof.
  destruct sets as [|s l]; cbn [MTSAnalyzer.union_of].
  - split; [by intros ?%elem_of_empty | intros (t & Ht & _)]. by apply elem_of_nil in Ht.
  - rewrite elem_of_foldl_union. split.
    + intros [Hs|(t & Ht & Hn)]; [exists s | exists t].
      * split; [left | done].
      * split; [by right | done].
    + intros (t & [->|Ht]%elem_of_cons & Hn); [by left|]. right. by exists t.
Qed.

Lemma elem_of_all_nodes (n : list Z) (sets : list (gset (list Z))) :
  n ∈ (list_to_set (mjoin (elements <$> sets)) : gset (list Z))
  ↔ ∃ t, t ∈ sets ∧ n ∈ t.
Proof.
  rewrite elem_of_list_to_set, list_elem_of_join. split.
  - intros (l & Hn & (t & -> & Ht)%list_elem_of_fmap).
    exists t. split; [done|]. by apply elem_of_elements.
  - intros (t & Ht & Hn). exists (elements t). split; [by apply elem_of_elements|].
    apply list_elem_of_fmap. by exists t.
Qed.

Lemma elem_of_others (t : gset (list Z)) (sets : list (gset (list Z))) (i : nat) :
  t ∈ take i sets ++ drop (i + 1) sets ↔ ∃ j, j ≠ i ∧ sets !! j = Some t.
Proof.
  rewrite elem_of_app. split.
  - intros [Ht|Ht].
    + apply list_elem_of_lookup in Ht as (j & Hj).
      apply lookup_take_Some in Hj as [Hj Hlt]. exists j. split; [lia | done].
    + apply list_elem_of_lookup in Ht as (j & Hj).
      rewrite lookup_drop in Hj. exists (i + 1 + j)%nat. split; [lia | done].
  - intros (j & Hne & Hj). destruct (decide (j < i)%nat).
    + left. apply list_elem_of_lookup. exists j. by rewrite lookup_take_lt.
    + right. apply list_elem_of_lookup. exists (j - (i + 1))%nat.
      rewrite lookup_drop. by replace (i + 1 + (j - (i + 1)))%nat with j by lia.
Qed.

(** What [find_common_nodes] returns, from the node sets of the files. *)
Lemma find_common_nodes_inv (fs : filesystem) (filepaths : list string) r :
  MTSAnalyzer.find_common_nodes fs filepaths = Ok r →
  let node_sets := node_set_of fs <$> filepaths in
  Forall (λ p, is_Some (fs !! p)) filepaths
  ∧ MTSAnalyzer.total_files r = len filepaths
  ∧ MTSAnalyzer.total_unique_nodes r
    = Z.of_nat (size (list_to_set (mjoin (elements <$> node_sets)) : gset (list Z)))
  ∧ MTSAnalyzer.nodes (MTSAnalyzer.common_nodes r) = MTSAnalyzer.intersection_of node_sets
  ∧ MTSAnalyzer.common_count (MTSAnalyzer.common_nodes r)
    = Z.of_nat (size (MTSAnalyzer.nodes (MTSAnalyzer.common_nodes r)))
  ∧ List.length (MTSAnalyzer.unique_nodes_per_file r) = List.length filepaths
  ∧ ∀ i u, MTSAnalyzer.unique_nodes_per_file r !! i = Some u →
      filepaths !! i = Some (MTSAnalyzer.file u)
      ∧ MTSAnalyzer.count u = Z.of_nat (size (MTSAnalyzer.unique_nodes u))
      ∧ MTSAnalyzer.unique_nodes u
        = node_set_of fs (MTSAnalyzer.file u)
          ∖ MTSAnalyzer.union_of (take i node_sets ++ drop (i + 1) node_sets).
Proof.
  intros Hrun node_sets. unfold MTSAnalyzer.find_common_nodes in Hrun.
  destruct (find_first_missing fs filepaths)
    as [Hall | (before & p & after & -> & Hbefore & Hp)].
  - rewrite (read_node_sets_spec _ _ _ _ Hall) in Hrun.
    cbn [mbind result_bind app] in Hrun. injection Hrun as <-.
    cbn [MTSAnalyzer.total_files MTSAnalyzer.total_unique_nodes MTSAnalyzer.common_nodes
         MTSAnalyzer.nodes MTSAnalyzer.common_count MTSAnalyzer.unique_nodes_per_file].
    fold node_sets. split_and!; try done.
    + rewrite length_imap. unfold node_sets. by rewrite length_fmap.
    + intros i u Hu. apply list_lookup_imap_Some in Hu as (s & Hs & ->).
      cbn [MTSAnalyzer.file MTSAnalyzer.count MTSAnalyzer.unique_nodes].
      unfold node_sets in Hs. apply list_lookup_fmap_Some in Hs as (p & -> & Hp).
      rewrite Hp. by cbn.
  - rewrite (read_node_sets_missing _ _ _ _ _ _ Hbefore Hp) in Hrun. discriminate.
Qed.

Lemma elem_of_node_sets (fs : filesystem) (filepaths : list string) (t : gset (list Z)) :
  t ∈ node_set_of fs <$> filepaths ↔ ∃ p, p ∈ filepaths ∧ t = node_set_of fs p.
Proof.
  rewrite list_elem_of_fmap. split; intros (p & ? & ?); by exists p.
Qed.

Lemma elem_of_unique (fs : filesystem) (filepaths : list string) (p : string)
    (i : nat) (n : list Z) :
  n ∈ node_set_of fs p
      ∖ MTSAnalyzer.union_of (take i (node_set_of fs <$> filepaths)
                               ++ drop (i + 1) (node_set_of fs <$> filepaths))
  ↔ n ∈ node_set_of fs p
    ∧ ∀ j q, j ≠ i → filepaths !! j = Some q → n ∉ node_set_of fs q.
Proof.
  rewrite elem_of_difference, elem_of_union_of. split.
  - intros [Hn Hothers]. split; [done|]. intros j q Hj Hq Hnq. apply Hothers.
    exists (node_set_of fs q). split; [|done].
    apply elem_of_others. exists j. split; [done|].
    by rewrite list_lookup_fmap, Hq.
  - intros [Hn Hothers]. split; [done|].
    intros (t & (j & Hj & Ht)%elem_of_others & Hnt).
    apply list_lookup_fmap_Some in Ht as (q & -> & Hq).
    by apply (Hothers j q).
Qed.

Lemma size_disjoint_le (sets : list (gset (list Z))) (all : gset (list Z)) :
  (∀ t, t ∈ sets → t ⊆ all) →
  (∀ i j a b, i ≠ j → sets !! i = Some a → sets !! j = Some b → a ## b) →
  sum_of ((λ t, Z.of_nat (size t)) <$> sets) ≤ Z.of_nat (size all).
Proof.
  revert all. induction sets as [|a sets IH]; intros all Hsub Hdisj.
  - cbn. lia.
  - cbn [fmap list_fmap sum_of foldr].
    assert (Ha : a ⊆ all) by (apply Hsub; left).
    specialize (IH (all ∖ a)). fold (sum_of ((λ t, Z.of_nat (size t)) <$> sets)).
    pose proof (size_difference all a Ha) as Hsize.
    pose proof (subseteq_size a all Ha) as Hle.
    enough (sum_of ((λ t, Z.of_nat (size t)) <$> sets) ≤ Z.of_nat (size (all ∖ a))) by lia.
    apply IH.
    + intros t Ht. apply list_elem_of_lookup in Ht as Hi. destruct Hi as [i Hi].
      assert (a ## t) by (apply (Hdisj 0%nat (S i)); [lia | done | done]).
      assert (t ⊆ all) by (apply Hsub; by right).
      set_solver.
    + intros i j b c Hij Hb Hc. by apply (Hdisj (S i) (S j)); [lia | |].
Qed.

(** X20: [find_common_nodes] returns exactly when every path of the list
    exists, the empty list included; otherwise it raises
    [FileNotFoundError] for the first path that does not. *)
Theorem find_common_nodes_outcome (fs : filesystem) (filepaths : list string) :
  ((∃ r, MTSAnalyzer.find_common_nodes fs filepaths = Ok r)
   ↔ ∀ p, p ∈ filepaths → is_Some (fs !! p))
  ∧ ∀ before p after,
      filepaths = before ++ p :: after →
      (∀ q, q ∈ before → is_Some (fs !! q)) →
      fs !! p = None →
      MTSAnalyzer.find_common_nodes fs filepaths = Raise (FileNotFoundError p).
Proof.
  split.
  - split.
    + intros [r Hr]. apply find_common_nodes_inv in Hr as [Hall _].
      by apply Forall_forall.
    + intros Hall%Forall_forall. unfold MTSAnalyzer.find_common_nodes.
      rewrite (read_node_sets_spec _ _ _ _ Hall). cbn [mbind result_bind]. eauto.
  - intros before p after -> Hbefore%Forall_forall Hp.
    unfold MTSAnalyzer.find_common_nodes.
    by rewrite (read_node_sets_missing _ _ _ _ _ _ Hbefore Hp).
Qed.

(** X21: what [find_common_nodes] reports.  The common nodes are the names
    in the palette of every file, none for an empty list; entry [i] of
    ['unique_nodes_per_file'] names path [i] and holds the names of its
    palette that no path at another position has; ['total_unique_nodes']
    counts the names that occur in some palette; each count is the size of
    its set. *)
Theorem find_common_nodes_meaning (fs : filesystem) (filepaths : list string)
    (r : MTSAnalyzer.common_report) :
  MTSAnalyzer.find_common_nodes fs filepaths = Ok r →
  MTSAnalyzer.total_files r = len filepaths
  ∧ (∀ n, n ∈ MTSAnalyzer.nodes (MTSAnalyzer.common_nodes r)
          ↔ filepaths ≠ [] ∧ ∀ p, p ∈ filepaths → n ∈ node_set_of fs p)
  ∧ MTSAnalyzer.common_count (MTSAnalyzer.common_nodes r)
    = Z.of_nat (size (MTSAnalyzer.nodes (MTSAnalyzer.common_nodes r)))
  ∧ List.length (MTSAnalyzer.unique_nodes_per_file r) = List.length filepaths
  ∧ (∀ i u, MTSAnalyzer.unique_nodes_per_file r !! i = Some u →
       filepaths !! i = Some (MTSAnalyzer.file u)
       ∧ MTSAnalyzer.count u = Z.of_nat (size (MTSAnalyzer.unique_nodes u))
       ∧ ∀ n, n ∈ MTSAnalyzer.unique_nodes u
              ↔ n ∈ node_set_of fs (MTSAnalyzer.file u)
                ∧ ∀ j q, j ≠ i → filepaths !! j = Some q → n ∉ node_set_of fs q)
  ∧ ∃ all : gset (list Z),
      MTSAnalyzer.total_unique_nodes r = Z.of_nat (size all)
      ∧ ∀ n, n ∈ all ↔ ∃ p, p ∈ filepaths ∧ n ∈ node_set_of fs p.
Proof.
  intros Hrun.
  destruct (find_common_nodes_inv _ _ _ Hrun)
    as (_ & Hfiles & Htotal & Hcommon & Hcount & Hlen & Hunique).
  split_and!; try done.
  - intros n. rewrite Hcommon, elem_of_intersection_of. split.
    + intros [Hne Hall]. split; [by destruct filepaths|].
      intros p Hp. apply Hall. apply elem_of_node_sets. by exists p.
    + intros [Hne Hall]. split; [by destruct filepaths|].
      intros t (p & Hp & ->)%elem_of_node_sets. by apply Hall.
  - intros i u Hu. destruct (Hunique i u Hu) as (Hfile & Hc & Hset).
    split_and!; try done. intros n. rewrite Hset. apply elem_of_unique.
  - eexists. split; [exact Htotal|]. intros n. rewrite elem_of_all_nodes. split.
    + intros (t & (p & Hp & ->)%elem_of_node_sets & Hn). by exists p.
    + intros (p & Hp & Hn). exists (node_set_of fs p). split; [|done].
      apply elem_of_node_sets. by exists p.
Qed.

Lemma find_common_nodes_meaning_witness :
  MTSAnalyzer.find_common_nodes two_files ["a.mts"; "b.mts"]%string = Ok two_files_report
  ∧ ∀ n, n ∈ ({[ str_of_ascii "air" ]} : gset (list Z))
         ↔ ["a.mts"; "b.mts"]%string ≠ []
           ∧ ∀ p, p ∈ ["a.mts"; "b.mts"]%string → n ∈ node_set_of two_files p.
Proof.
  assert (Hrun : MTSAnalyzer.find_common_nodes two_files ["a.mts"; "b.mts"]%string
                 = Ok two_files_report) by (vm_compute; reflexivity).
  split; [exact Hrun|].
  exact (proj1 (proj2 (find_common_nodes_meaning _ _ _ Hrun))).
Defined.

(** X22: unless exactly one path is given, the common nodes and the unique
    nodes of the files are counted apart: their counts add up to at most
    ['total_unique_nodes']. *)
Theorem find_common_nodes_counts (fs : filesystem) (filepaths : list string)
    (r : MTSAnalyzer.common_report) :
  MTSAnalyzer.find_common_nodes fs filepaths = Ok r →
  len filepaths ≠ 1 →
  MTSAnalyzer.common_count (MTSAnalyzer.common_nodes r)
  + sum_of (MTSAnalyzer.count <$> MTSAnalyzer.unique_nodes_per_file r)
  ≤ MTSAnalyzer.total_unique_nodes r.
Proof.
  intros Hrun Hfiles.
  destruct (find_common_nodes_inv _ _ _ Hrun)
    as (_ & _ & Htotal & Hcommon & Hcount & Hlen & Hunique).
  set (node_sets := node_set_of fs <$> filepaths) in *.
  set (all := list_to_set (mjoin (elements <$> node_sets)) : gset (list Z)) in *.
  set (common := MTSAnalyzer.nodes (MTSAnalyzer.common_nodes r)) in *.
  pose (sets := common :: (MTSAnalyzer.unique_nodes <$> MTSAnalyzer.unique_nodes_per_file r)).
  assert (Hsum : MTSAnalyzer.common_count (MTSAnalyzer.common_nodes r)
                 + sum_of (MTSAnalyzer.count <$> MTSAnalyzer.unique_nodes_per_file r)
                 = sum_of ((λ t, Z.of_nat (size t)) <$> sets)).
  { unfold sets. cbn [fmap list_fmap sum_of foldr]. rewrite Hcount. f_equal.
    fold (sum_of ((λ t, Z.of_nat (size t))
                 <$> (MTSAnalyzer.unique_nodes <$> MTSAnalyzer.unique_nodes_per_file r))).
    rewrite <- list_fmap_compose. f_equal. apply list_fmap_ext.
    intros i u Hu. by destruct (Hunique i u Hu) as (_ & -> & _). }
  rewrite Hsum, Htotal. apply size_disjoint_le.
  - intros t [->|Ht]%elem_of_cons; intros n Hn; apply elem_of_all_nodes.
    + change (n ∈ common) in Hn. rewrite Hcommon in Hn.
      apply elem_of_intersection_of in Hn as [Hne Hn].
      destruct node_sets as [|s node_sets'] eqn:Hsets; [done|].
      exists s. split; [left | apply Hn; left].
    + apply list_elem_of_fmap in Ht as (u & -> & (i & Hu)%list_elem_of_lookup).
      destruct (Hunique i u Hu) as (Hfile & _ & Hset). rewrite Hset in Hn.
      apply elem_of_difference in Hn as [Hn _].
      exists (node_set_of fs (MTSAnalyzer.file u)). split; [|done].
      apply elem_of_node_sets. exists (MTSAnalyzer.file u).
      split; [|done]. by apply list_elem_of_lookup_2 in Hfile.
  - assert (Hcu : ∀ i u, MTSAnalyzer.unique_nodes_per_file r !! i = Some u →
                         common ## MTSAnalyzer.unique_nodes u).
    { intros i u Hu n Hc Hn. destruct (Hunique i u Hu) as (Hfile & _ & Hset).
      rewrite Hset in Hn. apply elem_of_unique in Hn as [_ Hn].
      change (n ∈ common) in Hc. rewrite Hcommon in Hc.
      apply elem_of_intersection_of in Hc as [_ Hc].
      assert (∃ j q, j ≠ i ∧ filepaths !! j = Some q) as (j & q & Hj & Hq).
      { apply lookup_lt_Some in Hfile. unfold len in Hfiles.
        destruct (decide (i = 0%nat)) as [->|].
        - destruct (lookup_lt_is_Some_2 filepaths 1) as [q Hq]; [lia|].
          by exists 1%nat, q.
        - destruct (lookup_lt_is_Some_2 filepaths 0) as [q Hq]; [lia|].
          by exists 0%nat, q. }
      apply (Hn j q Hj Hq). apply Hc. apply elem_of_node_sets. exists q.
      split; [|done]. by apply list_elem_of_lookup_2 in Hq. }
    assert (Huu : ∀ i j u v, i ≠ j →
                    MTSAnalyzer.unique_nodes_per_file r !! i = Some u →
                    MTSAnalyzer.unique_nodes_per_file r !! j = Some v →
                    MTSAnalyzer.unique_nodes u ## MTSAnalyzer.unique_nodes v).
    { intros i j u v Hij Hu Hv n Hnu Hnv.
      destruct (Hunique i u Hu) as (Hfu & _ & Hsu).
      destruct (Hunique j v Hv) as (Hfv & _ & Hsv).
      rewrite Hsu in Hnu. rewrite Hsv in Hnv.
      apply elem_of_unique in Hnu as [Hnu _]. apply elem_of_unique in Hnv as [_ Hnv].
      by apply (Hnv i (MTSAnalyzer.file u)). }
    intros [|i] [|j] a b Hij Ha Hb; unfold sets in Ha, Hb; cbn in Ha, Hb.
    + done.
    + injection Ha as <-. apply list_lookup_fmap_Some in Hb as (v & -> & Hv).
      by apply (Hcu j).
    + injection Hb as <-. apply list_lookup_fmap_Some in Ha as (u & -> & Hu).
      symmetry. by apply (Hcu i).
    + apply list_lookup_fmap_Some in Ha as (u & -> & Hu).
      apply list_lookup_fmap_Some in Hb as (v & -> & Hv).
      apply (Huu i j); [lia | done | done].
Qed.

Lemma find_common_nodes_counts_witness :
  MTSAnalyzer.find_common_nodes two_files ["a.mts"; "b.mts"]%string = Ok two_files_report
  ∧ 1 + sum_of [1; 1] ≤ 3.
Proof.
  assert (Hrun : MTSAnalyzer.find_common_nodes two_files ["a.mts"; "b.mts"]%string
                 = Ok two_files_report) by (vm_compute; reflexivity).
  split; [exact Hrun|].
  apply (find_common_nodes_counts _ _ _ Hrun). vm_compute. discriminate.
Defined.

(** X23: a path that is given at two positions of the list has no unique
    nodes at either. *)
Theorem find_common_nodes_repeated_path (fs : filesystem) (filepaths : list string)
    (r : MTSAnalyzer.common_report) (i j : nat) (u : MTSAnalyzer.unique_info) :
  MTSAnalyzer.find_common_nodes fs filepaths = Ok r →
  MTSAnalyzer.unique_nodes_per_file r !! i = Some u →
  filepaths !! j = Some (MTSAnalyzer.file u) →
  i ≠ j →
  MTSAnalyzer.unique_nodes u = ∅ ∧ MTSAnalyzer.count u = 0.
Proof.
  intros Hrun Hu Hj Hij.
  destruct (find_common_nodes_inv _ _ _ Hrun) as (_ & _ & _ & _ & _ & _ & Hunique).
  destruct (Hunique i u Hu) as (Hfile & Hcount & Hset).
  assert (Hempty : MTSAnalyzer.unique_nodes u = ∅).
  { apply set_eq. intros n. rewrite Hset, elem_of_unique. split.
    - intros [Hn Hothers]. by destruct (Hothers j (MTSAnalyzer.file u)).
    - by intros ?%elem_of_empty. }
  split; [done|]. rewrite Hcount, Hempty. reflexivity.
Qed.

Lemma find_common_nodes_repeated_path_witness :
  MTSAnalyzer.find_common_nodes two_files ["a.mts"; "a.mts"]%string = Ok twice_report
  ∧ (∅ : gset (list Z)) = ∅ ∧ 0 = 0.
Proof.
  assert (Hrun : MTSAnalyzer.find_common_nodes two_files ["a.mts"; "a.mts"]%string
                 = Ok twice_report) by (vm_compute; reflexivity).
  split; [exact Hrun|].
  apply (find_common_nodes_repeated_path two_files ["a.mts"; "a.mts"]%string
           twice_report 0 1
           {| MTSAnalyzer.file := "a.mts"; MTSAnalyzer.unique_nodes := ∅;
              MTSAnalyzer.count := 0 |} Hrun); [reflexivity | reflexivity | lia].
Defined.

(** ** The text picture *)

Lemma get_ascii_slice_cases (fs : filesystem) (filepath axis : string)
    (slice_index max_width : Z) (content : list byte) :
  fs !! filepath = Some content →
  let h := header_of content in
  let d := slice_dims_of h axis in
  (slice_extent h axis ≤ slice_index
   ∧ ∃ text, MTSVisualizer.get_ascii_slice fs filepath axis slice_index max_width
             = MTSVisualizer.Returned text)
  ∨ (slice_index < slice_extent h axis ∧ max_width = 0 ∧ 0 < d.1
     ∧ MTSVisualizer.get_ascii_slice fs filepath axis slice_index max_width
       = MTSVisualizer.Raised MTSVisualizer.ZeroDivisionError)
  ∨ (slice_index < slice_extent h axis ∧ ¬ (max_width = 0 ∧ 0 < d.1)
     ∧ ∃ title more,
         MTSVisualizer.get_ascii_slice fs filepath axis slice_index max_width
         = MTSVisualizer.Returned
             (join MTSConverter.newline
                (title :: MTSVisualizer.str_mul "=" (Z.min 80 d.1)
                 :: ((λ y, join ""
                             ((λ x, MTSVisualizer.char_at MTSVisualizer.ascii_chars
                                      ((x + y) `mod` 9))
                              <$> MTSVisualizer.range (Z.min (Z.min d.1 max_width) d.1)))
                     <$> MTSVisualizer.range (Z.min 20 d.2))
                 ++ more))
         ∧ more = if bool_decide (d.2 > 20)
                  then ["... (" +:+ pretty (d.2 - 20) +:+ " more rows)"]
                  else []).
Proof.
  intros Hfile h d.
  destruct (get_metadata_spec _ _ _ Hfile) as (m & Hm & Hhd & _).
  unfold MTSVisualizer.get_ascii_slice. rewrite Hm, Hhd. fold h.
  pose proof (header_of_ranges content) as Hr. fold h in Hr.
  unfold d, slice_extent, slice_dims_of.
  destruct (String.eqb axis "x"); [|destruct (String.eqb axis "y")].
  all: case_bool_decide as Hidx; [left; split; [lia | eauto] | right].
  all: cbn [fst snd].
  all: match goal with
       | |- context [Z.min ?d0 ?mw] =>
         destruct (decide (mw = 0 ∧ 0 < d0)) as [[Hmw Hpos]|Hno]
       end.
  all: try (left; split_and!; try lia;
            rewrite Z.min_r by lia;
            rewrite !bool_decide_true by lia; reflexivity).
  all: right; split; [lia|]; split; [done|].
  all: match goal with
       | |- context [bool_decide (?d0 > Z.min ?d0 ?mw)] =>
         replace (bool_decide (d0 > Z.min d0 mw)
                  && bool_decide (Z.min d0 mw = 0)) with false
           by (symmetry; apply andb_false_iff;
               destruct (decide (d0 > Z.min d0 mw));
               [right; apply bool_decide_eq_false; lia
               |left; apply bool_decide_eq_false; lia])
       end.
  all: eexists _, _; split; [|reflexivity].
  all: cbn [app]; case_bool_decide; cbn [app]; rewrite <- ?app_assoc, ?app_nil_r;
    reflexivity.
Qed.

Lemma length_append (s1 s2 : string) :
  String.length (s1 +:+ s2) = (String.length s1 + String.length s2)%nat.
Proof.
  induction s1 as [|c s1 IH]; [reflexivity|].
  change (String c s1 +:+ s2) with (String c (s1 +:+ s2)).
  cbn [String.length]. by rewrite IH.
Qed.

Lemma length_join_chars (l : list string) :
  Forall (λ s, String.length s = 1%nat) l →
  String.length (join "" l) = List.length l.
Proof.
  induction 1 as [|s l Hs Hl IH]; [reflexivity|].
  destruct l as [|s' l']; [exact Hs|].
  change (join "" (s :: s' :: l')) with (s +:+ "" +:+ join "" (s' :: l')).
  rewrite !length_append, Hs, IH. reflexivity.
Qed.

Lemma length_char_at (i : Z) :
  0 ≤ i < 9 → String.length (MTSVisualizer.char_at MTSVisualizer.ascii_chars i) = 1%nat.
Proof.
  intros Hi. unfold MTSVisualizer.char_at.
  assert (Hn : (Z.to_nat i < 9)%nat) by lia.
  destruct (Z.to_nat i) as [|[|[|[|[|[|[|[|[|n]]]]]]]]]; try reflexivity. lia.
Qed.

Lemma length_range (n : Z) : List.length (MTSVisualizer.range n) = Z.to_nat n.
Proof. unfold MTSVisualizer.range. by rewrite length_fmap, length_seq. Qed.

Lemma length_str_mul (n : Z) :
  String.length (MTSVisualizer.str_mul "=" n) = Z.to_nat n.
Proof.
  unfold MTSVisualizer.str_mul. rewrite length_join_chars, length_replicate; [done|].
  apply Forall_replicate. reflexivity.
Qed.

(** X24: on a file that exists [get_ascii_slice] raises nothing but
    [ZeroDivisionError], and that exactly when the slice index lies below
    the dimension of the axis, [max_width] is 0 and the slice is at least
    one column wide; a negative slice index is not rejected. *)
Theorem get_ascii_slice_raises_iff (fs : filesystem) (filepath axis : string)
    (slice_index max_width : Z) (content : list byte) :
  fs !! filepath = Some content →
  (MTSVisualizer.get_ascii_slice fs filepath axis slice_index max_width
   = MTSVisualizer.Raised MTSVisualizer.ZeroDivisionError
   ↔ slice_index < slice_extent (header_of content) axis
     ∧ max_width = 0
     ∧ 0 < (slice_dims_of (header_of content) axis).1)
  ∧ ∀ e, MTSVisualizer.get_ascii_slice fs filepath axis slice_index max_width
         ≠ MTSVisualizer.Raised (MTSVisualizer.ParserError e).
Proof.
  intros Hfile.
  destruct (get_ascii_slice_cases fs filepath axis slice_index max_width content Hfile)
    as [(Hout & text & ->) | [(Hin & Hmw & Hpos & ->) | (Hin & Hno & title & more & -> & _)]].
  - split; [|done]. split; [done | lia].
  - split; [|done]. by split.
  - split; [|done]. split; [done|]. intros (_ & ? & ?). by destruct Hno.
Qed.

Lemma get_ascii_slice_raises_iff_witness :
  MTSVisualizer.get_ascii_slice {[ "a.mts" := air_4x2x4 ]} "a.mts" "x" (-1) 0
  = MTSVisualizer.Raised MTSVisualizer.ZeroDivisionError
  ∧ ∀ e, MTSVisualizer.get_ascii_slice {[ "a.mts" := air_4x2x4 ]} "a.mts" "x" (-1) 0
         ≠ MTSVisualizer.Raised (MTSVisualizer.ParserError e).
Proof.
  assert (Hfile : ({[ "a.mts" := air_4x2x4 ]} : filesystem) !! "a.mts" = Some air_4x2x4)
    by reflexivity.
  destruct (get_ascii_slice_raises_iff _ _ "x" (-1) 0 _ Hfile) as [Hiff Hparser].
  split; [|exact Hparser]. apply Hiff. vm_compute. by split_and!.
Defined.

(** X25: the shape of the picture that [get_ascii_slice] returns for a slice
    index below the dimension of the axis: a title, a rule of
    [min(80, columns)] characters, [min(20, rows)] lines of
    [max(0, min(columns, max_width))] characters each, and one more line
    exactly when the slice has over 20 rows; 23 lines at most. *)
Theorem get_ascii_slice_shape (fs : filesystem) (filepath axis : string)
    (slice_index max_width : Z) (content : list byte) :
  fs !! filepath = Some content →
  slice_index < slice_extent (header_of content) axis →
  ¬ (max_width = 0 ∧ 0 < (slice_dims_of (header_of content) axis).1) →
  let d := slice_dims_of (header_of content) axis in
  ∃ title rule rows more,
    MTSVisualizer.get_ascii_slice fs filepath axis slice_index max_width
    = MTSVisualizer.Returned (join MTSConverter.newline (title :: rule :: rows ++ more))
    ∧ Z.of_nat (String.length rule) = Z.min 80 d.1
    ∧ len rows = Z.min 20 d.2
    ∧ Forall (λ row, Z.of_nat (String.length row) = Z.max 0 (Z.min d.1 max_width)) rows
    ∧ len more = (if bool_decide (20 < d.2) then 1 else 0)
    ∧ len (title :: rule :: rows ++ more) ≤ 23.
Proof.
  intros Hfile Hin Hmw d.
  assert (Hd : 0 ≤ d.1 ∧ 0 ≤ d.2).
  { pose proof (header_of_ranges content) as Hr. unfold d, slice_dims_of.
    destruct (String.eqb axis "x"); [|destruct (String.eqb axis "y")]; cbn [fst snd]; lia. }
  destruct (get_ascii_slice_cases fs filepath axis slice_index max_width content Hfile)
    as [(Hout & _) | [(_ & Hmw' & Hpos & _) | (_ & _ & title & more & Hrun & Hmore)]];
    [lia | by destruct Hmw |].
  fold d in Hrun, Hmore. eexists title, _, _, more. split; [exact Hrun|].
  assert (Hrows : len ((λ y, join ""
                             ((λ x, MTSVisualizer.char_at MTSVisualizer.ascii_chars
                                      ((x + y) `mod` 9))
                              <$> MTSVisualizer.range (Z.min (Z.min d.1 max_width) d.1)))
                        <$> MTSVisualizer.range (Z.min 20 d.2))
                 = Z.min 20 d.2).
  { unfold len. rewrite length_fmap, length_range. lia. }
  assert (Hlen : len more = if bool_decide (20 < d.2) then 1 else 0).
  { rewrite Hmore.
    destruct (decide (20 < d.2));
      [rewrite !bool_decide_true by lia | rewrite !bool_decide_false by lia];
      reflexivity. }
  split_and!.
  - rewrite length_str_mul. lia.
  - exact Hrows.
  - apply Forall_fmap, Forall_forall. intros y _. cbn.
    rewrite length_join_chars.
    + rewrite length_fmap, length_range. lia.
    + apply Forall_fmap, Forall_forall. intros x _. cbn.
      apply length_char_at. apply Z.mod_pos_bound. lia.
  - exact Hlen.
  - rewrite !len_cons, len_app, Hrows, Hlen. case_bool_decide; lia.
Qed.

Lemma get_ascii_slice_shape_witness :
  ∃ title rule rows more,
    MTSVisualizer.get_ascii_slice {[ "a.mts" := air_4x2x4 ]} "a.mts" "z" 0 80
    = MTSVisualizer.Returned (join MTSConverter.newline (title :: rule :: rows ++ more))
    ∧ Z.of_nat (String.length rule) = 4
    ∧ len rows = 2
    ∧ Forall (λ row, Z.of_nat (String.length row) = 4) rows
    ∧ len more = 0
    ∧ len (title :: rule :: rows ++ more) ≤ 23.
Proof.
  assert (Hfile : ({[ "a.mts" := air_4x2x4 ]} : filesystem) !! "a.mts" = Some air_4x2x4)
    by reflexivity.
  apply (get_ascii_slice_shape _ _ "z" 0 80 _ Hfile).
  - vm_compute. reflexivity.
  - intros [Hmw _]. discriminate Hmw.
Defined.

(** X26: [get_ascii_slice] draws from the header only: two files that agree
    on their first 12 bytes give the same text or the same exception,
    whatever their palettes and node data are. *)
Theorem get_ascii_slice_reads_header_only (fs1 fs2 : filesystem)
    (filepath1 filepath2 axis : string) (slice_index max_width : Z)
    (content1 content2 : list byte) :
  fs1 !! filepath1 = Some content1 →
  fs2 !! filepath2 = Some content2 →
  take 12 content1 = take 12 content2 →
  MTSVisualizer.get_ascii_slice fs1 filepath1 axis slice_index max_width
  = MTSVisualizer.get_ascii_slice fs2 filepath2 axis slice_index max_width.
Proof.
  intros Hfile1 Hfile2 Hhead.
  destruct (get_metadata_spec _ _ _ Hfile1) as (m1 & Hm1 & Hhd1 & _).
  destruct (get_metadata_spec _ _ _ Hfile2) as (m2 & Hm2 & Hhd2 & _).
  unfold MTSVisualizer.get_ascii_slice. rewrite Hm1, Hm2, Hhd1, Hhd2.
  rewrite <- (header_of_take_12 content1), Hhead, header_of_take_12. reflexivity.
Qed.

Lemma get_ascii_slice_reads_header_only_witness :
  MTSVisualizer.get_ascii_slice {[ "a.mts" := air_4x2x4 ]} "a.mts" "y" 1 3
  = MTSVisualizer.get_ascii_slice {[ "b.mts" := take 12 air_4x2x4 ]} "b.mts" "y" 1 3.
Proof.
  apply (get_ascii_slice_reads_header_only _ _ _ _ _ _ _ air_4x2x4 (take 12 air_4x2x4));
    reflexivity.
Defined.
